(** * Data-quality checks of the healthcare encounter analytics pipeline

    Shallow embedding of [src/data_quality.py]: the three functions
    [flag_negative_costs], [flag_high_encounter_counts] and
    [run_quality_checks], over a model of the pandas operations they call.

    Modelling decisions.
    - A DataFrame is a Python object: the program holds references to
      frames that live in a store ([Heap]); [df[mask]], [.copy()],
      [pd.concat], [.merge] and the like allocate a new frame, while
      [frame[c] = v] updates the frame in place.  Exceptions leave the store
      as it is at the point of the raise.
    - A frame is its column labels and its rows; a row maps column labels
      to cells.  The row index is not modelled: every frame the program
      builds is either positionally indexed or re-indexed by [ignore_index],
      [reset_index] or [merge].
    - Python floats are idealised as exact rationals ([Q]) plus NaN.
    - Column labels of a frame are assumed distinct (pandas allows repeated
      labels; the pipeline never produces them). *)

From Stdlib Require Import String Ascii ZArith QArith Qround List Bool Lia.
From Stdlib Require Import DecimalString Permutation Sorted Lqa.
Import ListNotations.
Open Scope string_scope.
Open Scope list_scope.

(* ================================================================= *)
(** ** Errors *)

Inductive error : Type :=
| KeyError      (* a column label that the frame does not have *)
| ValueError    (* an argument that pandas refuses *)
| TypeError     (* an operation on a cell of the wrong type *)
| BadRef.       (* not a Python exception: a reference outside the store,
                   which no call on a live object can produce *)

Inductive result (A : Type) : Type :=
| Ok (a : A)
| Err (e : error).
Arguments Ok {A} a.
Arguments Err {A} e.

Definition rbind {A B} (r : result A) (k : A -> result B) : result B :=
  match r with
  | Ok a => k a
  | Err e => Err e
  end.

Fixpoint rmap {A B} (f : A -> result B) (l : list A) : result (list B) :=
  match l with
  | [] => Ok []
  | x :: t => rbind (f x) (fun y => rbind (rmap f t) (fun ys => Ok (y :: ys)))
  end.

(* ================================================================= *)
(** ** Cells, rows and frames *)

Inductive value : Type :=
| VStr (s : string)
| VInt (z : Z)
| VFloat (q : Q)
| VNaN.

(** A Python float: a rational or NaN. *)
Inductive float : Type :=
| Fin (q : Q)
| NaN.

Definition Row : Type := list (string * value).
Definition Series : Type := list value.

Record DataFrame : Type := mkDataFrame {
  columns : list string;
  rows : list Row
}.

Definition Qltb (a b : Q) : bool := negb (Qle_bool b a).

Module Pandas.

Definition mem (c : string) (cs : list string) : bool :=
  existsb (String.eqb c) cs.

Definition all_mem (cs : list string) (cols : list string) : bool :=
  forallb (fun c => mem c cols) cs.

(** The cell of a row under a label; a label the row lacks reads as the
    missing value. *)
Fixpoint cell (c : string) (r : Row) : value :=
  match r with
  | [] => VNaN
  | (c', v) :: t => if String.eqb c c' then v else cell c t
  end.

(** [row[c] = v]: overwrite the cell, or append it. *)
Fixpoint row_set (c : string) (v : value) (r : Row) : Row :=
  match r with
  | [] => [(c, v)]
  | (c', v') :: t =>
      if String.eqb c c' then (c', v) :: t else (c', v') :: row_set c v t
  end.

Definition row_drop (c : string) (r : Row) : Row :=
  filter (fun cv => negb (String.eqb c (fst cv))) r.

Definition reindex (cols : list string) (r : Row) : Row :=
  map (fun c => (c, cell c r)) cols.

(** Numeric view of a cell: [None] for NaN; a string is a type error. *)
Definition to_num (v : value) : result (option Q) :=
  match v with
  | VInt z => Ok (Some (inject_Z z))
  | VFloat q => Ok (Some q)
  | VNaN => Ok None
  | VStr _ => Err TypeError
  end.

(** Equality of cells as [merge], [groupby] and [duplicated] see it:
    numbers by value, strings by content, and the missing value equal to
    itself. *)
Definition value_eqb (a b : value) : bool :=
  match a, b with
  | VStr s, VStr t => String.eqb s t
  | VInt x, VInt y => Z.eqb x y
  | VInt x, VFloat y => Qeq_bool (inject_Z x) y
  | VFloat x, VInt y => Qeq_bool x (inject_Z y)
  | VFloat x, VFloat y => Qeq_bool x y
  | VNaN, VNaN => true
  | _, _ => false
  end.

Fixpoint key_eqb (k1 k2 : list value) : bool :=
  match k1, k2 with
  | [], [] => true
  | a :: t1, b :: t2 => value_eqb a b && key_eqb t1 t2
  | _, _ => false
  end.

Definition is_nan (v : value) : bool :=
  match v with VNaN => true | _ => false end.

Definition key_of (keys : list string) (r : Row) : list value :=
  map (fun c => cell c r) keys.

Definition key_in (k : list value) (ks : list (list value)) : bool :=
  existsb (key_eqb k) ks.

(** *** Column access *)

(** [df[c]] *)
Definition getcol (df : DataFrame) (c : string) : result Series :=
  if mem c (columns df) then Ok (map (cell c) (rows df)) else Err KeyError.

(** [series < x] *)
Definition series_lt (s : Series) (x : Q) : result (list bool) :=
  rmap (fun v => rbind (to_num v) (fun n =>
          Ok (match n with Some q => Qltb q x | None => false end))) s.

(** [series > t] for a float [t]; a comparison with NaN is false. *)
Definition series_gt (s : Series) (t : float) : result (list bool) :=
  rmap (fun v => rbind (to_num v) (fun n =>
          Ok (match n, t with
              | Some q, Fin x => Qltb x q
              | _, _ => false
              end))) s.

(** [series == v] *)
Definition series_eq (s : Series) (v : value) : list bool :=
  map (fun x => value_eqb x v) s.

(** *** Row selection and column update *)

Fixpoint select {A} (l : list A) (mask : list bool) : list A :=
  match l, mask with
  | x :: t, b :: m => if b then x :: select t m else select t m
  | _, _ => []
  end.

(** [df[mask]] for a boolean mask as long as the frame. *)
Definition filter_rows (df : DataFrame) (mask : list bool) : DataFrame :=
  mkDataFrame (columns df) (select (rows df) mask).

(** [df[c] = v] for a scalar [v], on the value of the frame. *)
Definition set_column (df : DataFrame) (c : string) (v : value) : DataFrame :=
  mkDataFrame
    (if mem c (columns df) then columns df else columns df ++ [c])
    (map (row_set c v) (rows df)).

(** [df.empty]: no rows or no columns. *)
Definition empty (df : DataFrame) : bool :=
  match rows df, columns df with
  | [], _ => true
  | _, [] => true
  | _, _ => false
  end.

(** *** Sorting and duplicates *)

Fixpoint insert {A} (leb : A -> A -> bool) (x : A) (l : list A) : list A :=
  match l with
  | [] => [x]
  | y :: t => if leb x y then x :: l else y :: insert leb x t
  end.

(** [sorted(l)] *)
Definition sorted {A} (leb : A -> A -> bool) (l : list A) : list A :=
  fold_right (insert leb) [] l.

(** [.unique()]: the values in order of first appearance. *)
Fixpoint unique {A} (eqb : A -> A -> bool) (l : list A) : list A :=
  match l with
  | [] => []
  | x :: t => x :: filter (fun y => negb (eqb x y)) (unique eqb t)
  end.

(** Order of group keys: numbers before strings before missing values,
    numbers by value and strings by code point, tuples
    lexicographically. *)
Definition value_leb (a b : value) : bool :=
  match a, b with
  | VStr s, VStr t => String.leb s t
  | VStr _, VNaN => true
  | VStr _, _ => false
  | VNaN, VNaN => true
  | VNaN, _ => false
  | _, VStr _ => true
  | _, VNaN => true
  | VInt x, VInt y => Z.leb x y
  | VInt x, VFloat y => Qle_bool (inject_Z x) y
  | VFloat x, VInt y => Qle_bool x (inject_Z y)
  | VFloat x, VFloat y => Qle_bool x y
  end.

Fixpoint key_leb (k1 k2 : list value) : bool :=
  match k1, k2 with
  | [], _ => true
  | _ :: _, [] => false
  | a :: t1, b :: t2 =>
      if value_eqb a b then key_leb t1 t2 else value_leb a b
  end.

(** *** Quantile *)

(** The numbers of a series, missing values skipped. *)
Fixpoint numbers (s : Series) : result (list Q) :=
  match s with
  | [] => Ok []
  | v :: t =>
      rbind (to_num v) (fun n =>
      rbind (numbers t) (fun ns =>
      Ok (match n with Some q => q :: ns | None => ns end)))
  end.

(** Linear interpolation between the order statistics around the
    position [q * (n - 1)] of an ascending list of [n] numbers. *)
Definition interpolate (asc : list Q) (q : Q) : Q :=
  let n := Z.of_nat (length asc) in
  let pos := q * inject_Z (n - 1) in
  let lo := Qfloor pos in
  let hi := Z.min (lo + 1) (n - 1) in
  let a := nth (Z.to_nat lo) asc 0 in
  let b := nth (Z.to_nat hi) asc 0 in
  a + (b - a) * (pos - inject_Z lo).

(** [series.quantile(q)] with the default linear interpolation: the
    percentile is validated first, an empty series gives NaN. *)
Definition quantile (s : Series) (q : Q) : result float :=
  if Qle_bool 0 q && Qle_bool q 1 then
    rbind (numbers s) (fun vs =>
      match vs with
      | [] => Ok NaN
      | _ => Ok (Fin (interpolate (sorted Qle_bool vs) q))
      end)
  else Err ValueError.

(** *** Frames from frames *)

(** [pd.concat([a, b], ignore_index=True)]: union of the labels, rows of
    [a] then rows of [b], missing cells filled with NaN. *)
Definition concat (a b : DataFrame) : DataFrame :=
  let cols :=
    columns a ++ filter (fun c => negb (mem c (columns a))) (columns b) in
  mkDataFrame cols (map (reindex cols) (rows a ++ rows b)).

(** [df.groupby(keys)[c].apply(f).reset_index()]: rows with a missing key
    are dropped, groups come in key order, one output row per group. *)
Definition groupby_apply (df : DataFrame) (keys : list string) (c : string)
    (f : Series -> result value) : result DataFrame :=
  if all_mem keys (columns df) && mem c (columns df) then
    let rs :=
      filter (fun r => negb (existsb is_nan (key_of keys r))) (rows df) in
    let ks := sorted key_leb (unique key_eqb (map (key_of keys) rs)) in
    rbind
      (rmap (fun k =>
         rbind (f (map (cell c)
                     (filter (fun r => key_eqb (key_of keys r) k) rs)))
               (fun v => Ok (combine keys k ++ [(c, v)]))) ks)
      (fun out => Ok (mkDataFrame (keys ++ [c]) out))
  else Err KeyError.

(** [df.drop(columns=[c])] *)
Definition drop (df : DataFrame) (c : string) : result DataFrame :=
  if mem c (columns df) then
    Ok (mkDataFrame
          (filter (fun c' => negb (String.eqb c c')) (columns df))
          (map (row_drop c) (rows df)))
  else Err KeyError.

Fixpoint first_of_key (keys : list string) (seen : list (list value))
    (rs : list Row) : list Row :=
  match rs with
  | [] => []
  | r :: t =>
      let k := key_of keys r in
      if key_in k seen then first_of_key keys seen t
      else r :: first_of_key keys (k :: seen) t
  end.

(** [df.drop_duplicates(subset=keys)]: the first row of every key. *)
Definition drop_duplicates (df : DataFrame) (keys : list string)
    : result DataFrame :=
  if all_mem keys (columns df) then
    Ok (mkDataFrame (columns df) (first_of_key keys [] (rows df)))
  else Err KeyError.

(** [df[cs]] for a list of labels. *)
Definition getcols (df : DataFrame) (cs : list string) : result DataFrame :=
  if all_mem cs (columns df) then
    Ok (mkDataFrame cs (map (reindex cs) (rows df)))
  else Err KeyError.

(** The labels that a merge with indicator uses: the two working columns
    and the indicator itself. *)
Definition indicator_labels : list string :=
  ["_left_indicator"; "_right_indicator"; "_merge"].

(** [left.merge(right, on=keys, how="left", indicator=...)]: every left
    row in order, once per matching right row, or once with NaN when no
    right row matches; with the indicator, a frame that already has one of
    the labels the indicator uses is refused.  Both calls of the pipeline
    merge frames whose labels outside [keys] are disjoint, so the suffixes
    that pandas adds to a label present on both sides are not modelled. *)
Definition merge_left (left right : DataFrame) (keys : list string)
    (indicator : bool) : result DataFrame :=
  if all_mem keys (columns left) && all_mem keys (columns right) then
    if indicator
       && existsb (fun c => mem c (columns left ++ columns right))
            indicator_labels
    then Err ValueError
    else
      let extra := filter (fun c => negb (mem c keys)) (columns right) in
      let ind (s : string) : Row :=
        if indicator then [("_merge", VStr s)] else [] in
      Ok (mkDataFrame
            (columns left ++ extra
               ++ (if indicator then ["_merge"] else []))
            (flat_map (fun l =>
               match filter (fun r =>
                        key_eqb (key_of keys l) (key_of keys r))
                      (rows right) with
               | [] =>
                   [l ++ map (fun c => (c, VNaN)) extra ++ ind "left_only"]
               | ms =>
                   map (fun r => l ++ reindex extra r ++ ind "both") ms
               end) (rows left)))
  else Err KeyError.

(** *** Formatting *)

Definition round_half_even (q : Q) : Z :=
  let f := Qfloor q in
  match Qcompare (q - inject_Z f)%Q (1 # 2)%Q with
  | Lt => f
  | Gt => (f + 1)%Z
  | Eq => if Z.even f then f else (f + 1)%Z
  end.

(** [f"{x:.0f}"] *)
Definition format_0f (x : float) : string :=
  match x with
  | NaN => "nan"
  | Fin q =>
      if Qltb q 0
      then "-" ++ NilZero.string_of_int (Z.to_int (round_half_even (- q)))
      else NilZero.string_of_int (Z.to_int (round_half_even q))
  end.

End Pandas.

(* ================================================================= *)
(** ** The store of frames *)

Definition ref : Type := nat.
Definition Heap : Type := list DataFrame.
Definition M (A : Type) : Type := Heap -> result A * Heap.

Definition ret {A} (a : A) : M A := fun h => (Ok a, h).

Definition bind {A B} (m : M A) (k : A -> M B) : M B :=
  fun h =>
    match m h with
    | (Ok a, h') => k a h'
    | (Err e, h') => (Err e, h')
    end.

Definition lift {A} (r : result A) : M A := fun h => (r, h).

Notation "x <- m ;; k" := (bind m (fun x => k))
  (at level 61, m at next level, right associativity).
Notation "m ;;; k" := (bind m (fun _ => k))
  (at level 61, right associativity).

Definition alloc (df : DataFrame) : M ref :=
  fun h => (Ok (length h), h ++ [df]).

Definition load (r : ref) : M DataFrame :=
  fun h =>
    match nth_error h r with
    | Some df => (Ok df, h)
    | None => (Err BadRef, h)
    end.

Fixpoint update (h : Heap) (r : ref) (df : DataFrame) : Heap :=
  match h, r with
  | [], _ => []
  | _ :: t, O => df :: t
  | x :: t, S r' => x :: update t r' df
  end.

Definition store (r : ref) (df : DataFrame) : M unit :=
  fun h =>
    if Nat.ltb r (length h) then (Ok tt, update h r df) else (Err BadRef, h).

(** Operations on frame objects: the ones that build a frame allocate it,
    [setitem] alone writes to an existing object. *)

Definition getitem (df : ref) (c : string) : M Series :=
  d <- load df ;; lift (Pandas.getcol d c).

Definition getitem_mask (df : ref) (mask : list bool) : M ref :=
  d <- load df ;; alloc (Pandas.filter_rows d mask).

Definition getitem_cols (df : ref) (cs : list string) : M ref :=
  d <- load df ;; f <- lift (Pandas.getcols d cs) ;; alloc f.

Definition copy (df : ref) : M ref :=
  d <- load df ;; alloc d.

Definition setitem (df : ref) (c : string) (v : value) : M unit :=
  d <- load df ;; store df (Pandas.set_column d c v).

Definition is_empty (df : ref) : M bool :=
  d <- load df ;; ret (Pandas.empty d).

Definition pd_concat (a b : ref) : M ref :=
  x <- load a ;; y <- load b ;; alloc (Pandas.concat x y).

Definition groupby_apply (df : ref) (keys : list string) (c : string)
    (f : Series -> result value) : M ref :=
  d <- load df ;; g <- lift (Pandas.groupby_apply d keys c f) ;; alloc g.

Definition drop (df : ref) (c : string) : M ref :=
  d <- load df ;; f <- lift (Pandas.drop d c) ;; alloc f.

Definition drop_duplicates (df : ref) (keys : list string) : M ref :=
  d <- load df ;; f <- lift (Pandas.drop_duplicates d keys) ;; alloc f.

Definition merge (left right : ref) (keys : list string) (indicator : bool)
    : M ref :=
  l <- load left ;; r <- load right ;;
  f <- lift (Pandas.merge_left l r keys indicator) ;; alloc f.

(* ================================================================= *)
(** ** src/data_quality.py *)

Definition as_str (v : value) : result string :=
  match v with
  | VStr s => Ok s
  | _ => Err TypeError
  end.

(** [lambda x: "; ".join(sorted(x.unique()))] *)
Definition join_reasons (x : Series) : result value :=
  rbind (rmap as_str (Pandas.unique Pandas.value_eqb x)) (fun ss =>
  Ok (VStr (String.concat "; " (Pandas.sorted String.leb ss)))).

(** [f"high_encounter_count (>{threshold:.0f}, p{percentile*100:.0f})"] *)
Definition high_reason (threshold : float) (percentile : Q) : string :=
  "high_encounter_count (>" ++ Pandas.format_0f threshold
    ++ ", p" ++ Pandas.format_0f (Fin (percentile * 100)) ++ ")".

(** The default of the [percentile] parameter. *)
Definition default_percentile : Q := 99 # 100.

Definition key_cols : list string :=
  ["patient_id"; "facility_id"; "year_month"].

Definition flag_negative_costs (df : ref) : M ref :=
  col <- getitem df "total_cost" ;;
  mask <- lift (Pandas.series_lt col 0) ;;
  sel <- getitem_mask df mask ;;
  flagged <- copy sel ;;
  setitem flagged "flag_reason" (VStr "negative_cost") ;;;
  ret flagged.

Definition flag_high_encounter_counts (df : ref) (percentile : Q) : M ref :=
  col <- getitem df "total_encounters" ;;
  threshold <- lift (Pandas.quantile col percentile) ;;
  col' <- getitem df "total_encounters" ;;
  mask <- lift (Pandas.series_gt col' threshold) ;;
  sel <- getitem_mask df mask ;;
  flagged <- copy sel ;;
  setitem flagged "flag_reason" (VStr (high_reason threshold percentile)) ;;;
  ret flagged.

Definition run_quality_checks (df : ref) : M (ref * ref) :=
  neg_cost <- flag_negative_costs df ;;
  high_enc <- flag_high_encounter_counts df default_percentile ;;
  flagged <- pd_concat neg_cost high_enc ;;
  e <- is_empty flagged ;;
  flagged <-
    (if negb e then
       flag_summary <- groupby_apply flagged key_cols "flag_reason"
                         join_reasons ;;
       dropped <- drop flagged "flag_reason" ;;
       deduped <- drop_duplicates dropped key_cols ;;
       merge deduped flag_summary key_cols false
     else ret flagged) ;;
  e' <- is_empty flagged ;;
  cleaned <-
    (if e' then copy df
     else
       flagged_keys <- getitem_cols flagged key_cols ;;
       merged <- merge df flagged_keys key_cols true ;;
       ind <- getitem merged "_merge" ;;
       sel <- getitem_mask merged
                (Pandas.series_eq ind (VStr "left_only")) ;;
       drop sel "_merge") ;;
  ret (cleaned, flagged).

(* ================================================================= *)
(** ** The frames the functions compute

    The functions above act on the store.  The definitions below give, as
    functions of the value of the input frame alone, the frames they leave
    in it; the lemmas [flag_negative_costs_run],
    [flag_high_encounter_counts_run] and [run_quality_checks_run] relate the
    two. *)

(** The frame a check returns: the selected rows with their reason. *)
Definition tagged (df : DataFrame) (mask : list bool) (reason : string)
    : DataFrame :=
  Pandas.set_column (Pandas.filter_rows df mask) "flag_reason" (VStr reason).

Definition neg_cost_mask (df : DataFrame) : result (list bool) :=
  rbind (Pandas.getcol df "total_cost") (fun col => Pandas.series_lt col 0).

Definition high_enc_mask (df : DataFrame) (percentile : Q)
    : result (float * list bool) :=
  rbind (Pandas.getcol df "total_encounters") (fun col =>
  rbind (Pandas.quantile col percentile) (fun threshold =>
  rbind (Pandas.series_gt col threshold) (fun mask =>
  Ok (threshold, mask)))).

(** The two blocks of [run_quality_checks], as operations on the store. *)
Definition group_reasons (flagged : ref) : M ref :=
  e <- is_empty flagged ;;
  if negb e then
    flag_summary <- groupby_apply flagged key_cols "flag_reason"
                      join_reasons ;;
    dropped <- drop flagged "flag_reason" ;;
    deduped <- drop_duplicates dropped key_cols ;;
    merge deduped flag_summary key_cols false
  else ret flagged.

Definition remove_flagged (df flagged : ref) : M ref :=
  e' <- is_empty flagged ;;
  if e' then copy df
  else
    flagged_keys <- getitem_cols flagged key_cols ;;
    merged <- merge df flagged_keys key_cols true ;;
    ind <- getitem merged "_merge" ;;
    sel <- getitem_mask merged (Pandas.series_eq ind (VStr "left_only")) ;;
    drop sel "_merge".

(** The same blocks on frame values. *)
Definition consolidate (cat : DataFrame) : result DataFrame :=
  if negb (Pandas.empty cat) then
    rbind (Pandas.groupby_apply cat key_cols "flag_reason" join_reasons)
      (fun flag_summary =>
    rbind (Pandas.drop cat "flag_reason") (fun dropped =>
    rbind (Pandas.drop_duplicates dropped key_cols) (fun deduped =>
    Pandas.merge_left deduped flag_summary key_cols false)))
  else Ok cat.

Definition clean (df flagged : DataFrame) : result DataFrame :=
  if Pandas.empty flagged then Ok df
  else
    rbind (Pandas.getcols flagged key_cols) (fun flagged_keys =>
    rbind (Pandas.merge_left df flagged_keys key_cols true) (fun merged =>
    rbind (Pandas.getcol merged "_merge") (fun ind =>
    Pandas.drop
      (Pandas.filter_rows merged (Pandas.series_eq ind (VStr "left_only")))
      "_merge"))).

Definition quality_frames (df : DataFrame)
    : result (DataFrame * DataFrame) :=
  rbind (neg_cost_mask df) (fun m1 =>
  rbind (high_enc_mask df default_percentile) (fun tm =>
  let cat :=
    Pandas.concat
      (tagged df m1 "negative_cost")
      (tagged df (snd tm) (high_reason (fst tm) default_percentile)) in
  rbind (consolidate cat) (fun flagged =>
  rbind (clean df flagged) (fun cleaned =>
  Ok (cleaned, flagged))))).

(* ================================================================= *)
(** ** Vocabulary of the properties *)

(** A cell that arithmetic accepts: an integer, a float or a missing
    value. *)
Definition numeric_cell (v : value) : Prop :=
  match v with
  | VStr _ => False
  | _ => True
  end.

(** The frame has column [c] and all its cells are numeric. *)
Definition numeric_column (df : DataFrame) (c : string) : Prop :=
  Pandas.mem c (columns df) = true
  /\ forall r, In r (rows df) -> numeric_cell (Pandas.cell c r).

(** The frame has column [c] and all its cells are numbers (no missing
    value). *)
Definition number_cell (v : value) : Prop :=
  match v with
  | VInt _ | VFloat _ => True
  | _ => False
  end.

Definition number_column (df : DataFrame) (c : string) : Prop :=
  Pandas.mem c (columns df) = true
  /\ forall r, In r (rows df) -> number_cell (Pandas.cell c r).

(** The number in a cell, 0 where there is none. *)
Definition num_of (v : value) : Q :=
  match v with
  | VInt z => inject_Z z
  | VFloat q => q
  | _ => 0
  end.

(** [total_cost < 0] for a row. *)
Definition negative_cost (r : Row) : bool :=
  match Pandas.cell "total_cost" r with
  | VInt z => (z <? 0)%Z
  | VFloat q => (Qnum q <? 0)%Z
  | _ => false
  end.

(** [total_encounters > t] for a row. *)
Definition encounters_above (t : Q) (r : Row) : bool :=
  match Pandas.cell "total_encounters" r with
  | VInt z => Qltb t (inject_Z z)
  | VFloat q => Qltb t q
  | _ => false
  end.

(** The numbers of the [total_encounters] column, in row order. *)
Definition encounter_values (df : DataFrame) : list Q :=
  flat_map (fun r =>
    match Pandas.cell "total_encounters" r with
    | VInt z => [inject_Z z]
    | VFloat q => [q]
    | _ => []
    end) (rows df).

(** [l] is in ascending order: positions in order hold values in order. *)
Definition ascending (l : list Q) : Prop :=
  forall i j, (i <= j < length l)%nat -> nth i l 0 <= nth j l 0.

(** [total_encounters > t] for a float [t]: false against NaN. *)
Definition exceeds (t : float) (r : Row) : bool :=
  match t with
  | Fin x => encounters_above x r
  | NaN => false
  end.

(** The linear-interpolation quantile of the whole [total_encounters]
    column: NaN when the column holds no number. *)
Definition threshold (df : DataFrame) (p : Q) : float :=
  match encounter_values df with
  | [] => NaN
  | vs => Fin (Pandas.interpolate (Pandas.sorted Qle_bool vs) p)
  end.

(** [t] is the largest, respectively the smallest, value of [l]. *)
Definition maximum_of (l : list Q) (t : Q) : Prop :=
  (exists q, In q l /\ q == t) /\ forall q, In q l -> q <= t.

Definition minimum_of (l : list Q) (t : Q) : Prop :=
  (exists q, In q l /\ q == t) /\ forall q, In q l -> t <= q.

(** A row of a check's result: the input row with its reason. *)
Definition with_reason (reason : string) (r : Row) : Row :=
  Pandas.row_set "flag_reason" (VStr reason) r.

(** The primary key of a row, and the keys of a frame in row order. *)
Definition key (r : Row) : list value := Pandas.key_of key_cols r.
Definition keys (df : DataFrame) : list (list value) := map key (rows df).

(** The row has an entry for label [c]. *)
Definition has (c : string) (r : Row) : bool := Pandas.mem c (map fst r).

(** A key made of strings. *)
Definition str_key (k : list value) : Prop :=
  Forall (fun v => exists s, v = VStr s) k.

(** Every row has exactly the labels of the frame, in order. *)
Definition well_formed (df : DataFrame) : Prop :=
  forall r, In r (rows df) -> map fst r = columns df.

(** The input the pipeline is written for: rows shaped by the columns, the
    three key columns present and holding strings, the two measure columns
    the checks read present and numeric, and no column with a label that
    the merge indicator uses. *)
Definition analytics_table (df : DataFrame) : Prop :=
  well_formed df
  /\ Pandas.all_mem key_cols (columns df) = true
  /\ (forall r, In r (rows df) -> str_key (key r))
  /\ numeric_column df "total_cost"
  /\ numeric_column df "total_encounters"
  /\ (forall c, In c Pandas.indicator_labels ->
        Pandas.mem c (columns df) = false).

(** The reason a row of a check's frame carries. *)
Definition reason_of (r : Row) : string :=
  match Pandas.cell "flag_reason" r with
  | VStr s => s
  | _ => EmptyString
  end.

(** The reasons of the rows of key [k], in row order. *)
Definition reasons_for (rs : list Row) (k : list value) : list string :=
  map reason_of (filter (fun r => Pandas.key_eqb (key r) k) rs).

(** The consolidated reason of key [k]: the distinct reasons of its rows,
    sorted and joined. *)
Definition consolidated (rs : list Row) (k : list value) : string :=
  String.concat "; "
    (Pandas.sorted String.leb (Pandas.unique String.eqb (reasons_for rs k))).

(** A row of the frame the group-by builds. *)
Definition summary_row (rs : list Row) (k : list value) : Row :=
  combine key_cols k ++ [("flag_reason", VStr (consolidated rs k))].

(** The frame that [pd.concat] builds in [run_quality_checks] from the
    frames of the two checks. *)
Definition flag_stream (df : DataFrame) : DataFrame :=
  let t := threshold df default_percentile in
  Pandas.concat
    (tagged df (map negative_cost (rows df)) "negative_cost")
    (tagged df (map (exceeds t) (rows df))
       (high_reason t default_percentile)).

(** A row of the stream is an input row that a check selected, with the
    reason of that check. *)
Definition stream_row (df : DataFrame) (reason : string) (r0 : Row) : Row :=
  Pandas.reindex (columns (flag_stream df)) (with_reason reason r0).

(** The keys of the groups: distinct, and those of the stream. *)
Definition group_keys (df : DataFrame) : list (list value) :=
  Pandas.sorted Pandas.key_leb
    (Pandas.unique Pandas.key_eqb (map key (rows (flag_stream df)))).

(** The flagged frame: the stream itself when it is empty, else the first
    row of every key of the stream, without its own reason and with the
    consolidated reason of its key. *)
Definition flagged_frame (df : DataFrame) : DataFrame :=
  let cat := flag_stream df in
  if Pandas.empty cat then cat
  else
    mkDataFrame
      (filter (fun c => negb (String.eqb "flag_reason" c)) (columns cat)
         ++ ["flag_reason"])
      (map (fun l =>
              l ++ [("flag_reason",
                     VStr (consolidated (rows cat) (key l)))])
         (Pandas.first_of_key key_cols []
            (map (Pandas.row_drop "flag_reason") (rows cat)))).

(** The cleaned frame: the input when nothing is flagged, else the input
    rows whose key is not a key of the flagged frame. *)
Definition cleaned_frame (df : DataFrame) : DataFrame :=
  if Pandas.empty (flagged_frame df) then df
  else
    mkDataFrame (columns df)
      (filter (fun l =>
                 negb (Pandas.key_in (key l) (keys (flagged_frame df))))
         (rows df)).

(** The rows that the negative-cost check and the encounter-count check
    (at the default percentile) select. *)
Definition negative_rows (df : DataFrame) : list Row :=
  filter negative_cost (rows df).

Definition outlier_rows (df : DataFrame) : list Row :=
  filter (exceeds (threshold df default_percentile)) (rows df).

(** A small table used to run the functions on: three rows, one with a
    negative cost. *)
Definition mk_row (p f m : string) (enc : Z) (cost : Q) (diag : Z) : Row :=
  [("patient_id", VStr p); ("facility_id", VStr f); ("year_month", VStr m);
   ("total_encounters", VInt enc); ("total_cost", VFloat cost);
   ("distinct_diagnosis_count", VInt diag)].

Definition schema : list string :=
  ["patient_id"; "facility_id"; "year_month"; "total_encounters";
   "total_cost"; "distinct_diagnosis_count"].

(** The fixture of [tests/test_data_quality.py]. *)
Definition sample_analytics_df : DataFrame :=
  mkDataFrame schema
    [mk_row "P001" "F001" "2025-01" 3 150 2;
     mk_row "P001" "F001" "2025-02" 2 200 1;
     mk_row "P002" "F002" "2025-01" 5 (-30) 3;
     mk_row "P002" "F002" "2025-02" 1 80 1;
     mk_row "P003" "F001" "2025-01" 4 300 2;
     mk_row "P004" "F003" "2025-01" 2 120 1;
     mk_row "P005" "F001" "2025-01" 3 250 2;
     mk_row "P006" "F002" "2025-01" 1 90 1;
     mk_row "P007" "F003" "2025-01" 2 110 1;
     mk_row "P008" "F001" "2025-01" 2 70 1;
     mk_row "P009" "F002" "2025-01" 1 60 1;
     mk_row "P010" "F003" "2025-01" 50 5000 5].

(** The frame a call leaves in the store, read back for the tests. *)
Definition returned (out : result ref * Heap) : option DataFrame :=
  match out with
  | (Ok r, h) => nth_error h r
  | (Err _, _) => None
  end.

Definition returned_pair (out : result (ref * ref) * Heap)
    : option (DataFrame * DataFrame) :=
  match out with
  | (Ok (rc, rf), h) =>
      match nth_error h rc, nth_error h rf with
      | Some c, Some f => Some (c, f)
      | _, _ => None
      end
  | (Err _, _) => None
  end.

(** A table without the [patient_id] column, whose only row passes both
    checks. *)
Definition no_patient_id : DataFrame :=
  mkDataFrame
    ["facility_id"; "year_month"; "total_encounters"; "total_cost";
     "distinct_diagnosis_count"]
    [[("facility_id", VStr "F001"); ("year_month", VStr "2025-01");
      ("total_encounters", VInt 3); ("total_cost", VFloat 150);
      ("distinct_diagnosis_count", VInt 2)]].

Definition tiny : DataFrame :=
  mkDataFrame schema
    [mk_row "P001" "F001" "2025-01" 3 150 2;
     mk_row "P002" "F002" "2025-01" 5 (-30) 3;
     mk_row "P003" "F001" "2025-01" 4 0 2].

(* ================================================================= *)
(** ** Running the store monad *)

Lemma bind_ok {A B} (m : M A) (k : A -> M B) h a h' :
  m h = (Ok a, h') -> bind m k h = k a h'.
Proof. intros E. unfold bind. now rewrite E. Qed.

Lemma bind_err {A B} (m : M A) (k : A -> M B) h e h' :
  m h = (Err e, h') -> bind m k h = (Err e, h').
Proof. intros E. unfold bind. now rewrite E. Qed.

Lemma nth_error_alloc (h l : Heap) k :
  nth_error (h ++ l) (length h + k) = nth_error l k.
Proof.
  rewrite nth_error_app2 by lia. f_equal. lia.
Qed.

Lemma nth_error_old (h l : Heap) r d :
  nth_error h r = Some d -> nth_error (h ++ l) r = Some d.
Proof.
  intros E. rewrite nth_error_app1; [exact E|].
  apply nth_error_Some. congruence.
Qed.

Lemma update_last (h : Heap) d d' :
  update (h ++ [d]) (length h) d' = h ++ [d'].
Proof. induction h as [|x h IH]; simpl; [reflexivity | now rewrite IH]. Qed.

Lemma load_run h r d :
  nth_error h r = Some d -> load r h = (Ok d, h).
Proof. intros E. unfold load. now rewrite E. Qed.

Lemma load_bad h r :
  nth_error h r = None -> load r h = (Err BadRef, h).
Proof. intros E. unfold load. now rewrite E. Qed.

Lemma getitem_run h r d c :
  nth_error h r = Some d -> getitem r c h = (Pandas.getcol d c, h).
Proof.
  intros E. unfold getitem. now rewrite (bind_ok _ _ _ _ _ (load_run _ _ _ E)).
Qed.

Lemma getitem_mask_run h r d mask :
  nth_error h r = Some d ->
  getitem_mask r mask h = (Ok (length h), h ++ [Pandas.filter_rows d mask]).
Proof.
  intros E. unfold getitem_mask.
  now rewrite (bind_ok _ _ _ _ _ (load_run _ _ _ E)).
Qed.

Lemma copy_run h r d :
  nth_error h r = Some d -> copy r h = (Ok (length h), h ++ [d]).
Proof.
  intros E. unfold copy. now rewrite (bind_ok _ _ _ _ _ (load_run _ _ _ E)).
Qed.

Lemma is_empty_run h r d :
  nth_error h r = Some d -> is_empty r h = (Ok (Pandas.empty d), h).
Proof.
  intros E. unfold is_empty.
  now rewrite (bind_ok _ _ _ _ _ (load_run _ _ _ E)).
Qed.

(** A frame built by a fallible operation is allocated when the operation
    succeeds; a failure leaves the store as it was. *)
Definition allocated (r : result DataFrame) (h : Heap) : result ref * Heap :=
  match r with
  | Ok f => (Ok (length h), h ++ [f])
  | Err e => (Err e, h)
  end.

Lemma lift_alloc_run (r : result DataFrame) h :
  (f <- lift r ;; alloc f) h = allocated r h.
Proof. unfold bind, lift, allocated, alloc. now destruct r. Qed.

Lemma getitem_cols_run h r d cs :
  nth_error h r = Some d ->
  getitem_cols r cs h = allocated (Pandas.getcols d cs) h.
Proof.
  intros E. unfold getitem_cols.
  rewrite (bind_ok _ _ _ _ _ (load_run _ _ _ E)). apply lift_alloc_run.
Qed.

Lemma drop_run h r d c :
  nth_error h r = Some d -> drop r c h = allocated (Pandas.drop d c) h.
Proof.
  intros E. unfold drop.
  rewrite (bind_ok _ _ _ _ _ (load_run _ _ _ E)). apply lift_alloc_run.
Qed.

Lemma drop_duplicates_run h r d ks :
  nth_error h r = Some d ->
  drop_duplicates r ks h = allocated (Pandas.drop_duplicates d ks) h.
Proof.
  intros E. unfold drop_duplicates.
  rewrite (bind_ok _ _ _ _ _ (load_run _ _ _ E)). apply lift_alloc_run.
Qed.

Lemma groupby_apply_run h r d ks c f :
  nth_error h r = Some d ->
  groupby_apply r ks c f h = allocated (Pandas.groupby_apply d ks c f) h.
Proof.
  intros E. unfold groupby_apply.
  rewrite (bind_ok _ _ _ _ _ (load_run _ _ _ E)). apply lift_alloc_run.
Qed.

Lemma merge_run h a b x y ks ind :
  nth_error h a = Some x -> nth_error h b = Some y ->
  merge a b ks ind h = allocated (Pandas.merge_left x y ks ind) h.
Proof.
  intros Ea Eb. unfold merge.
  rewrite (bind_ok _ _ _ _ _ (load_run _ _ _ Ea)).
  rewrite (bind_ok _ _ _ _ _ (load_run _ _ _ Eb)). apply lift_alloc_run.
Qed.

Lemma pd_concat_run h a b x y :
  nth_error h a = Some x -> nth_error h b = Some y ->
  pd_concat a b h = (Ok (length h), h ++ [Pandas.concat x y]).
Proof.
  intros Ea Eb. unfold pd_concat.
  rewrite (bind_ok _ _ _ _ _ (load_run _ _ _ Ea)).
  now rewrite (bind_ok _ _ _ _ _ (load_run _ _ _ Eb)).
Qed.

(** [sel = df[mask]; flagged = sel.copy(); flagged[c] = v]: the tail shared
    by the two checks. *)
Lemma tag_run h r d mask c v :
  nth_error h r = Some d ->
  (sel <- getitem_mask r mask ;;
   flagged <- copy sel ;;
   setitem flagged c v ;;;
   ret flagged) h
  = (Ok (S (length h)),
     h ++ [Pandas.filter_rows d mask;
           Pandas.set_column (Pandas.filter_rows d mask) c v]).
Proof.
  intros E.
  rewrite (bind_ok _ _ _ _ _ (getitem_mask_run _ _ _ mask E)).
  assert (E1 : nth_error (h ++ [Pandas.filter_rows d mask]) (length h)
               = Some (Pandas.filter_rows d mask)).
  { rewrite <- (Nat.add_0_r (length h)). now rewrite nth_error_alloc. }
  rewrite (bind_ok _ _ _ _ _ (copy_run _ _ _ E1)).
  set (h1 := h ++ [Pandas.filter_rows d mask]).
  assert (L1 : length h1 = S (length h)).
  { unfold h1. rewrite length_app. simpl. lia. }
  assert (E2 : nth_error (h1 ++ [Pandas.filter_rows d mask]) (length h1)
               = Some (Pandas.filter_rows d mask)).
  { rewrite <- (Nat.add_0_r (length h1)). now rewrite nth_error_alloc. }
  unfold setitem.
  unfold bind at 1. unfold bind at 1.
  rewrite (load_run _ _ _ E2). unfold store.
  replace (Nat.ltb (length h1) (length (h1 ++ [Pandas.filter_rows d mask])))
    with true.
  2:{ symmetry. apply Nat.ltb_lt. rewrite length_app. simpl. lia. }
  rewrite update_last. unfold ret. rewrite L1. unfold h1.
  now rewrite <- app_assoc.
Qed.

Lemma nth_error_last (h : Heap) d : nth_error (h ++ [d]) (length h) = Some d.
Proof. rewrite <- (Nat.add_0_r (length h)). now rewrite nth_error_alloc. Qed.

(* ================================================================= *)
(** ** What the functions leave in the store *)

Lemma flag_negative_costs_run h r d :
  nth_error h r = Some d ->
  flag_negative_costs r h =
    match neg_cost_mask d with
    | Ok mask =>
        (Ok (S (length h)),
         h ++ [Pandas.filter_rows d mask; tagged d mask "negative_cost"])
    | Err e => (Err e, h)
    end.
Proof.
  intros E. unfold flag_negative_costs, neg_cost_mask.
  unfold bind at 1. rewrite (getitem_run _ _ _ _ E).
  destruct (Pandas.getcol d "total_cost") as [col|e]; simpl; [|reflexivity].
  unfold bind at 1. unfold lift.
  destruct (Pandas.series_lt col 0) as [mask|e]; [|reflexivity].
  now rewrite (tag_run _ _ _ mask "flag_reason" _ E).
Qed.

Lemma flag_high_encounter_counts_run h r d p :
  nth_error h r = Some d ->
  flag_high_encounter_counts r p h =
    match high_enc_mask d p with
    | Ok (t, mask) =>
        (Ok (S (length h)),
         h ++ [Pandas.filter_rows d mask; tagged d mask (high_reason t p)])
    | Err e => (Err e, h)
    end.
Proof.
  intros E. unfold flag_high_encounter_counts, high_enc_mask.
  unfold bind at 1. rewrite (getitem_run _ _ _ _ E).
  destruct (Pandas.getcol d "total_encounters") as [col|e] eqn:Ec; simpl;
    [|reflexivity].
  unfold bind at 1. unfold lift.
  destruct (Pandas.quantile col p) as [t|e]; simpl; [|reflexivity].
  unfold bind at 1. rewrite (getitem_run _ _ _ _ E), Ec.
  unfold bind at 1.
  destruct (Pandas.series_gt col t) as [mask|e]; simpl; [|reflexivity].
  now rewrite (tag_run _ _ _ mask "flag_reason" _ E).
Qed.

Lemma bind_assoc {A B C} (m : M A) (k : A -> M B) (k' : B -> M C) h :
  bind (bind m k) k' h = bind m (fun a => bind (k a) k') h.
Proof. unfold bind. destruct (m h) as [[a|e] h']; reflexivity. Qed.

Lemma run_quality_checks_blocks df h :
  run_quality_checks df h =
    (neg_cost <- flag_negative_costs df ;;
     high_enc <- flag_high_encounter_counts df default_percentile ;;
     flagged <- pd_concat neg_cost high_enc ;;
     flagged' <- group_reasons flagged ;;
     cleaned <- remove_flagged df flagged' ;;
     ret (cleaned, flagged')) h.
Proof.
  unfold run_quality_checks, group_reasons, remove_flagged.
  unfold bind at 1. symmetry. unfold bind at 1.
  destruct (flag_negative_costs df h) as [[neg|e] h1]; [|reflexivity].
  unfold bind at 1. symmetry. unfold bind at 1.
  destruct (flag_high_encounter_counts df default_percentile h1)
    as [[high|e] h2]; [|reflexivity].
  unfold bind at 1. symmetry. unfold bind at 1.
  destruct (pd_concat neg high h2) as [[cat|e] h3]; [|reflexivity].
  rewrite bind_assoc.
  unfold bind at 1. symmetry. unfold bind at 1.
  destruct (is_empty cat h3) as [[b|e] h4]; [|reflexivity].
  unfold bind at 1. symmetry. unfold bind at 1.
  match goal with |- match ?m h4 with _ => _ end = _ =>
    destruct (m h4) as [[fl|e] h5]; [|reflexivity] end.
  rewrite bind_assoc.
  reflexivity.
Qed.

Lemma allocated_ok (r : result DataFrame) h f :
  r = Ok f -> allocated r h = (Ok (length h), h ++ [f]).
Proof. now intros ->. Qed.

Lemma allocated_err (r : result DataFrame) h e :
  r = Err e -> allocated r h = (Err e, h).
Proof. now intros ->. Qed.

Lemma getitem_bind {B} h r d c (k : Series -> M B) :
  nth_error h r = Some d ->
  bind (getitem r c) k h =
    match Pandas.getcol d c with
    | Ok col => k col h
    | Err e => (Err e, h)
    end.
Proof.
  intros E. unfold bind at 1. rewrite (getitem_run _ _ _ _ E).
  now destruct (Pandas.getcol d c).
Qed.

Lemma group_reasons_run h rc cat :
  nth_error h rc = Some cat ->
  exists l,
    match consolidate cat with
    | Ok f =>
        exists rf,
          group_reasons rc h = (Ok rf, h ++ l)
          /\ nth_error (h ++ l) rf = Some f
          /\ (rf = rc \/ length h <= rf)%nat
          /\ (rf < length (h ++ l))%nat
    | Err e => group_reasons rc h = (Err e, h ++ l)
    end.
Proof.
  intros E. unfold group_reasons, consolidate.
  rewrite (bind_ok _ _ _ _ _ (is_empty_run _ _ _ E)).
  destruct (Pandas.empty cat); cbn [negb]; cbv iota.
  { exists []. exists rc. rewrite app_nil_r. repeat split; auto.
    apply nth_error_Some. congruence. }
  destruct (Pandas.groupby_apply cat key_cols "flag_reason" join_reasons)
    as [s|e] eqn:Eg; simpl rbind.
  2:{ exists []. rewrite app_nil_r.
      apply bind_err. rewrite (groupby_apply_run _ _ _ _ _ _ E).
      now apply allocated_err. }
  rewrite (bind_ok _ _ _ (length h) (h ++ [s])).
  2:{ rewrite (groupby_apply_run _ _ _ _ _ _ E). now apply allocated_ok. }
  pose proof (nth_error_old h [s] _ _ E) as E1.
  pose proof (nth_error_last h s) as Es.
  set (h1 := h ++ [s]) in *.
  destruct (Pandas.drop cat "flag_reason") as [dr|e] eqn:Ed; simpl rbind.
  2:{ exists [s]. apply bind_err. rewrite (drop_run _ _ _ _ E1).
      now apply allocated_err. }
  rewrite (bind_ok _ _ _ (length h1) (h1 ++ [dr])).
  2:{ rewrite (drop_run _ _ _ _ E1). now apply allocated_ok. }
  pose proof (nth_error_old h1 [dr] _ _ Es) as Es2.
  pose proof (nth_error_last h1 dr) as Edr.
  set (h2 := h1 ++ [dr]) in *.
  destruct (Pandas.drop_duplicates dr key_cols) as [dd|e] eqn:Edd; simpl rbind.
  2:{ exists [s; dr]. apply bind_err. rewrite (drop_duplicates_run _ _ _ _ Edr).
      unfold h2, h1. rewrite <- app_assoc. now apply allocated_err. }
  rewrite (bind_ok _ _ _ (length h2) (h2 ++ [dd])).
  2:{ rewrite (drop_duplicates_run _ _ _ _ Edr). now apply allocated_ok. }
  pose proof (nth_error_old h2 [dd] _ _ Es2) as Es3.
  pose proof (nth_error_last h2 dd) as Ed3.
  set (h3 := h2 ++ [dd]) in *.
  rewrite (merge_run _ _ _ _ _ _ _ Ed3 Es3).
  assert (A3 : h3 = h ++ [s; dr; dd]).
  { unfold h3, h2, h1. now rewrite <- !app_assoc. }
  destruct (Pandas.merge_left dd s key_cols false) as [f|e] eqn:Em.
  - exists [s; dr; dd; f]. exists (length h3). simpl allocated.
    assert (A4 : h3 ++ [f] = h ++ [s; dr; dd; f]).
    { rewrite A3. now rewrite <- app_assoc. }
    rewrite <- A4. repeat split.
    + apply nth_error_last.
    + right. rewrite A3, length_app. lia.
    + rewrite length_app. simpl. lia.
  - exists [s; dr; dd]. simpl allocated. now rewrite A3.
Qed.

Lemma remove_flagged_run h r d rf f :
  nth_error h r = Some d ->
  nth_error h rf = Some f ->
  exists l,
    match clean d f with
    | Ok c =>
        exists rc,
          remove_flagged r rf h = (Ok rc, h ++ l)
          /\ nth_error (h ++ l) rc = Some c
          /\ (length h <= rc)%nat
    | Err e => remove_flagged r rf h = (Err e, h ++ l)
    end.
Proof.
  intros E Ef. unfold remove_flagged, clean.
  rewrite (bind_ok _ _ _ _ _ (is_empty_run _ _ _ Ef)).
  destruct (Pandas.empty f).
  { exists [d]. exists (length h). rewrite (copy_run _ _ _ E).
    repeat split; auto. apply nth_error_last. }
  destruct (Pandas.getcols f key_cols) as [fk|e] eqn:Ek; simpl rbind.
  2:{ exists []. rewrite app_nil_r. apply bind_err.
      rewrite (getitem_cols_run _ _ _ _ Ef). now apply allocated_err. }
  rewrite (bind_ok _ _ _ (length h) (h ++ [fk])).
  2:{ rewrite (getitem_cols_run _ _ _ _ Ef). now apply allocated_ok. }
  pose proof (nth_error_old h [fk] _ _ E) as E1.
  pose proof (nth_error_last h fk) as Efk.
  set (h1 := h ++ [fk]) in *.
  destruct (Pandas.merge_left d fk key_cols true) as [mg|e] eqn:Em;
    simpl rbind.
  2:{ exists [fk]. apply bind_err. rewrite (merge_run _ _ _ _ _ _ _ E1 Efk).
      now apply allocated_err. }
  rewrite (bind_ok _ _ _ (length h1) (h1 ++ [mg])).
  2:{ rewrite (merge_run _ _ _ _ _ _ _ E1 Efk). now apply allocated_ok. }
  pose proof (nth_error_last h1 mg) as Emg.
  set (h2 := h1 ++ [mg]) in *.
  assert (A2 : h2 = h ++ [fk; mg]).
  { unfold h2, h1. now rewrite <- app_assoc. }
  rewrite (getitem_bind _ _ _ _ _ Emg).
  destruct (Pandas.getcol mg "_merge") as [ind|e] eqn:Ei; simpl rbind.
  2:{ exists [fk; mg]. now rewrite A2. }
  rewrite (bind_ok _ _ _ _ _ (getitem_mask_run _ _ _ _ Emg)).
  set (sel := Pandas.filter_rows mg (Pandas.series_eq ind (VStr "left_only"))).
  pose proof (nth_error_last h2 sel) as Esel.
  rewrite (drop_run _ _ _ _ Esel).
  assert (A3 : h2 ++ [sel] = h ++ [fk; mg; sel]).
  { rewrite A2. now rewrite <- app_assoc. }
  destruct (Pandas.drop sel "_merge") as [c|e] eqn:Ed.
  - exists [fk; mg; sel; c]. exists (length (h2 ++ [sel])). simpl allocated.
    assert (A4 : (h2 ++ [sel]) ++ [c] = h ++ [fk; mg; sel; c]).
    { rewrite A3. now rewrite <- app_assoc. }
    rewrite <- A4. repeat split.
    + apply nth_error_last.
    + rewrite A3, length_app. lia.
  - exists [fk; mg; sel]. simpl allocated. now rewrite A3.
Qed.

(** The store after the two checks and the concatenation, and the rest of
    the run from there. *)
Lemma run_quality_checks_steps h r d :
  nth_error h r = Some d ->
  match neg_cost_mask d with
  | Err e => run_quality_checks r h = (Err e, h)
  | Ok m1 =>
      let g1 := Pandas.filter_rows d m1 in
      let f1 := tagged d m1 "negative_cost" in
      match high_enc_mask d default_percentile with
      | Err e => run_quality_checks r h = (Err e, h ++ [g1; f1])
      | Ok (t, m2) =>
          let g2 := Pandas.filter_rows d m2 in
          let f2 := tagged d m2 (high_reason t default_percentile) in
          let cat := Pandas.concat f1 f2 in
          let pre := h ++ [g1; f1; g2; f2; cat] in
          exists l,
            match consolidate cat with
            | Err e => run_quality_checks r h = (Err e, pre ++ l)
            | Ok f =>
                match clean d f with
                | Err e => run_quality_checks r h = (Err e, pre ++ l)
                | Ok c =>
                    exists rc rf,
                      run_quality_checks r h = (Ok (rc, rf), pre ++ l)
                      /\ nth_error (pre ++ l) rc = Some c
                      /\ nth_error (pre ++ l) rf = Some f
                      /\ (length h <= rc)%nat /\ (length h <= rf)%nat
                      /\ rc <> rf
                end
            end
      end
  end.
Proof.
  intros E. rewrite run_quality_checks_blocks.
  pose proof (flag_negative_costs_run _ _ _ E) as R1.
  destruct (neg_cost_mask d) as [m1|e].
  2:{ now apply bind_err. }
  intros g1 f1.
  rewrite (bind_ok _ _ _ _ _ R1). clear R1. fold g1 f1.
  assert (E1 : nth_error (h ++ [g1; f1]) r = Some d)
    by now apply nth_error_old.
  pose proof (flag_high_encounter_counts_run _ _ _ default_percentile E1)
    as R2.
  destruct (high_enc_mask d default_percentile) as [[t m2]|e].
  2:{ now apply bind_err. }
  intros g2 f2 cat pre.
  rewrite (bind_ok _ _ _ _ _ R2). clear R2. fold g2 f2.
  assert (A2 : (h ++ [g1; f1]) ++ [g2; f2] = h ++ [g1; f1; g2; f2])
    by now rewrite <- app_assoc.
  rewrite A2.
  assert (L1 : length (h ++ [g1; f1]) = (length h + 2)%nat)
    by (rewrite length_app; reflexivity).
  rewrite L1.
  assert (En : nth_error (h ++ [g1; f1; g2; f2]) (S (length h)) = Some f1).
  { replace (S (length h)) with (length h + 1)%nat by lia.
    now rewrite nth_error_alloc. }
  assert (Eh : nth_error (h ++ [g1; f1; g2; f2]) (S (length h + 2))
               = Some f2).
  { replace (S (length h + 2)) with (length h + 3)%nat by lia.
    now rewrite nth_error_alloc. }
  rewrite (bind_ok _ _ _ _ _ (pd_concat_run _ _ _ _ _ En Eh)). fold cat.
  assert (A3 : (h ++ [g1; f1; g2; f2]) ++ [cat] = pre)
    by (unfold pre; now rewrite <- app_assoc).
  rewrite A3.
  assert (L3 : length pre = (length h + 5)%nat)
    by (unfold pre; rewrite length_app; reflexivity).
  assert (Ec : nth_error pre (length (h ++ [g1; f1; g2; f2])) = Some cat)
    by (rewrite <- A3; apply nth_error_last).
  destruct (group_reasons_run _ _ _ Ec) as [l1 G].
  destruct (consolidate cat) as [f|e].
  2:{ exists l1. exact (bind_err _ _ _ _ _ G). }
  destruct G as (rf & G & Ef & Frf & Brf).
  assert (Ed : nth_error (pre ++ l1) r = Some d).
  { apply nth_error_old. unfold pre. now apply nth_error_old. }
  destruct (remove_flagged_run _ _ _ _ _ Ed Ef) as [l2 C].
  exists (l1 ++ l2). rewrite app_assoc.
  rewrite (bind_ok _ _ _ _ _ G).
  destruct (clean d f) as [c|e].
  2:{ exact (bind_err _ _ _ _ _ C). }
  destruct C as (rc & C & Ecl & Frc).
  rewrite (bind_ok _ _ _ _ _ C). unfold ret.
  exists rc, rf.
  assert (Lc : length (h ++ [g1; f1; g2; f2]) = (length h + 4)%nat)
    by (rewrite length_app; reflexivity).
  repeat split; auto.
  - apply nth_error_old. exact Ef.
  - rewrite length_app in Frc. lia.
  - destruct Frf as [-> | Frf]; lia.
  - lia.
Qed.

Lemma run_quality_checks_run h r d :
  nth_error h r = Some d ->
  exists l,
    match quality_frames d with
    | Ok (c, f) =>
        exists rc rf,
          run_quality_checks r h = (Ok (rc, rf), h ++ l)
          /\ nth_error (h ++ l) rc = Some c
          /\ nth_error (h ++ l) rf = Some f
          /\ (length h <= rc)%nat /\ (length h <= rf)%nat /\ rc <> rf
    | Err e => run_quality_checks r h = (Err e, h ++ l)
    end.
Proof.
  intros E. pose proof (run_quality_checks_steps _ _ _ E) as S.
  unfold quality_frames.
  destruct (neg_cost_mask d) as [m1|e]; simpl rbind.
  2:{ exists []. now rewrite app_nil_r. }
  destruct (high_enc_mask d default_percentile) as [[t m2]|e]; simpl rbind.
  2:{ eexists. exact S. }
  simpl in S. destruct S as [l S]. simpl fst. simpl snd.
  match type of S with
  | match consolidate ?c with _ => _ end =>
      exists ([Pandas.filter_rows d m1; tagged d m1 "negative_cost";
               Pandas.filter_rows d m2;
               tagged d m2 (high_reason t default_percentile); c] ++ l);
      destruct (consolidate c) as [f|e]; simpl rbind
  end.
  2:{ now rewrite app_assoc. }
  destruct (clean d f) as [c|e]; simpl rbind.
  2:{ now rewrite app_assoc. }
  now rewrite app_assoc.
Qed.

(* ================================================================= *)
(** ** Cells and rows *)

Lemma cell_row_set_other c c' v r :
  c <> c' -> Pandas.cell c (Pandas.row_set c' v r) = Pandas.cell c r.
Proof.
  intros N. induction r as [|[c0 v0] r IH]; simpl.
  - destruct (String.eqb_spec c c'); congruence.
  - destruct (String.eqb_spec c' c0) as [->|N0]; simpl.
    + destruct (String.eqb_spec c c0); congruence.
    + destruct (String.eqb_spec c c0); congruence.
Qed.

Lemma cell_row_set_same c v r :
  Pandas.cell c (Pandas.row_set c v r) = v.
Proof.
  induction r as [|[c0 v0] r IH]; simpl.
  - now rewrite String.eqb_refl.
  - destruct (String.eqb_spec c c0) as [->|N0]; simpl.
    + now rewrite String.eqb_refl.
    + destruct (String.eqb_spec c c0); congruence.
Qed.

Lemma select_map {A} (f : A -> bool) (l : list A) :
  Pandas.select l (map f l) = filter f l.
Proof.
  induction l as [|x l IH]; simpl; [reflexivity|].
  rewrite IH. reflexivity.
Qed.

Lemma rmap_pure {A B} (f : A -> result B) (g : A -> B) (l : list A) :
  (forall x, In x l -> f x = Ok (g x)) -> rmap f l = Ok (map g l).
Proof.
  induction l as [|x l IH]; simpl; intros H; [reflexivity|].
  rewrite (H x) by auto. simpl. rewrite IH by auto. reflexivity.
Qed.

Lemma Qltb_lt a b : Qltb a b = true <-> a < b.
Proof.
  unfold Qltb. rewrite negb_true_iff. split.
  - intros H. apply Qnot_le_lt. intros L.
    apply Qle_bool_iff in L. congruence.
  - intros H. destruct (Qle_bool b a) eqn:E; [|reflexivity].
    apply Qle_bool_iff in E. exfalso. exact (Qlt_not_le _ _ H E).
Qed.

Lemma negative_cost_spec r :
  negative_cost r = true <->
  exists q, Pandas.to_num (Pandas.cell "total_cost" r) = Ok (Some q) /\ q < 0.
Proof.
  unfold negative_cost.
  destruct (Pandas.cell "total_cost" r) as [s|z|q|]; simpl.
  - split; [discriminate | intros (q & H & _); discriminate].
  - rewrite Z.ltb_lt. split.
    + intros H. exists (inject_Z z). split; [reflexivity|].
      unfold Qlt. simpl. lia.
    + intros (q & [= <-] & H). unfold Qlt in H. simpl in H. lia.
  - rewrite Z.ltb_lt. split.
    + intros H. exists q. split; [reflexivity|]. unfold Qlt. simpl. lia.
    + intros (q' & [= <-] & H). unfold Qlt in H. simpl in H. lia.
  - split; [discriminate | intros (q & H & _); discriminate].
Qed.

Lemma series_lt_zero (rs : list Row) :
  (forall r, In r rs -> numeric_cell (Pandas.cell "total_cost" r)) ->
  Pandas.series_lt (map (Pandas.cell "total_cost") rs) 0
  = Ok (map negative_cost rs).
Proof.
  intros H. unfold Pandas.series_lt.
  rewrite <- (map_map (Pandas.cell "total_cost")
                (fun v => match v with
                          | VInt z => (z <? 0)%Z
                          | VFloat q => (Qnum q <? 0)%Z
                          | _ => false
                          end)).
  apply rmap_pure. intros v Hv. apply in_map_iff in Hv.
  destruct Hv as (r & <- & Hr). specialize (H r Hr).
  destruct (Pandas.cell "total_cost" r) as [s|z|q|]; simpl in *;
    try contradiction; try reflexivity.
  - f_equal. unfold Qltb, Qle_bool. simpl.
    destruct (Z.ltb_spec z 0); destruct (Z.leb_spec 0 (z * 1)); simpl;
      try reflexivity; lia.
  - f_equal. unfold Qltb, Qle_bool. simpl.
    destruct (Z.ltb_spec (Qnum q) 0); destruct (Z.leb_spec 0 (Qnum q * 1));
      simpl; try reflexivity; lia.
Qed.

Lemma neg_cost_mask_numeric df :
  numeric_column df "total_cost" ->
  neg_cost_mask df = Ok (map negative_cost (rows df)).
Proof.
  intros [Hc Hn]. unfold neg_cost_mask, Pandas.getcol. rewrite Hc. simpl.
  now apply series_lt_zero.
Qed.

Lemma rows_tagged df (f : Row -> bool) reason :
  rows (tagged df (map f (rows df)) reason)
  = map (with_reason reason) (filter f (rows df)).
Proof.
  unfold tagged, Pandas.set_column, Pandas.filter_rows. simpl.
  now rewrite select_map.
Qed.

(* ================================================================= *)
(** ** The negative-cost check *)

(** C2.  On a table with a numeric [total_cost] column,
    [flag_negative_costs] returns a frame whose rows are exactly the input
    rows with [total_cost < 0], in input order, each with [flag_reason] set
    to ["negative_cost"]; every returned row has a cost strictly below zero,
    so a row of cost 0 is never returned. *)
Theorem flag_negative_costs_exact h r df :
  nth_error h r = Some df ->
  numeric_column df "total_cost" ->
  exists h' r' out,
    flag_negative_costs r h = (Ok r', h')
    /\ nth_error h' r' = Some out
    /\ rows out = map (with_reason "negative_cost")
                     (filter negative_cost (rows df))
    /\ (forall row, In row (rows out) ->
          Pandas.cell "flag_reason" row = VStr "negative_cost"
          /\ exists q,
               Pandas.to_num (Pandas.cell "total_cost" row) = Ok (Some q)
               /\ q < 0)
    /\ (forall row q, In row (rows df) ->
          Pandas.to_num (Pandas.cell "total_cost" row) = Ok (Some q) ->
          q == 0 ->
          ~ In (with_reason "negative_cost" row) (rows out)).
Proof.
  intros E Hn.
  rewrite (flag_negative_costs_run _ _ _ E), (neg_cost_mask_numeric _ Hn).
  eexists _, _, _. split; [reflexivity|].
  assert (Cost : forall row,
            Pandas.cell "total_cost" (with_reason "negative_cost" row)
            = Pandas.cell "total_cost" row).
  { intros row. apply cell_row_set_other. discriminate. }
  split; [|split; [apply rows_tagged|split]].
  - replace (S (length h)) with (length h + 1)%nat by lia.
    now rewrite nth_error_alloc.
  - intros row Hin. rewrite rows_tagged in Hin.
    apply in_map_iff in Hin. destruct Hin as (r0 & <- & Hr0).
    apply filter_In in Hr0. destruct Hr0 as [_ Hneg].
    split; [apply cell_row_set_same|].
    rewrite Cost. now apply negative_cost_spec.
  - intros row q _ Hq Hz Hin. rewrite rows_tagged in Hin.
    apply in_map_iff in Hin. destruct Hin as (r0 & Er0 & Hr0).
    apply filter_In in Hr0. destruct Hr0 as [_ Hneg].
    apply negative_cost_spec in Hneg. destruct Hneg as (q0 & Hq0 & Hlt).
    assert (Ec : Pandas.cell "total_cost" r0 = Pandas.cell "total_cost" row).
    { rewrite <- (Cost r0), <- (Cost row). now rewrite Er0. }
    rewrite Ec, Hq in Hq0. injection Hq0 as <-.
    rewrite Hz in Hlt. discriminate.
Qed.

Lemma tiny_numeric_cost : numeric_column tiny "total_cost".
Proof.
  split; [reflexivity|].
  intros r [<-|[<-|[<-|[]]]]; exact I.
Qed.

Lemma flag_negative_costs_exact_witness :
  exists h' r' out,
    flag_negative_costs 0%nat [tiny] = (Ok r', h')
    /\ nth_error h' r' = Some out
    /\ rows out = map (with_reason "negative_cost")
                     (filter negative_cost (rows tiny))
    /\ (forall row, In row (rows out) ->
          Pandas.cell "flag_reason" row = VStr "negative_cost"
          /\ exists q,
               Pandas.to_num (Pandas.cell "total_cost" row) = Ok (Some q)
               /\ q < 0)
    /\ (forall row q, In row (rows tiny) ->
          Pandas.to_num (Pandas.cell "total_cost" row) = Ok (Some q) ->
          q == 0 ->
          ~ In (with_reason "negative_cost" row) (rows out)).
Proof.
  apply (flag_negative_costs_exact [tiny] 0%nat tiny).
  - reflexivity.
  - exact tiny_numeric_cost.
Defined.

(* ================================================================= *)
(** ** Sorting *)

Section Sorting.
Context {A : Type} (leb : A -> A -> bool).
Hypothesis leb_total : forall a b, leb a b = true \/ leb b a = true.

Let le (a b : A) : Prop := leb a b = true.

Lemma insert_perm x l : Permutation (Pandas.insert leb x l) (x :: l).
Proof.
  induction l as [|y l IH]; simpl; [reflexivity|].
  destruct (leb x y); [reflexivity|].
  rewrite IH. apply perm_swap.
Qed.

Lemma sorted_perm l : Permutation (Pandas.sorted leb l) l.
Proof.
  induction l as [|x l IH]; simpl; [reflexivity|].
  unfold Pandas.sorted in *. simpl. rewrite insert_perm. now constructor.
Qed.

Lemma insert_Sorted x l :
  Sorted le l -> Sorted le (Pandas.insert leb x l).
Proof.
  induction l as [|y l IH]; simpl; intros S.
  - repeat constructor.
  - destruct (leb x y) eqn:E.
    + constructor; [exact S|]. constructor. exact E.
    + inversion S as [|? ? S' Hd]; subst.
      constructor; [now apply IH|].
      destruct l as [|z l]; simpl.
      * constructor. destruct (leb_total x y); [congruence|assumption].
      * destruct (leb x z).
        -- constructor. destruct (leb_total x y); [congruence|assumption].
        -- inversion Hd; subst. now constructor.
Qed.

Lemma sorted_Sorted l : Sorted le (Pandas.sorted leb l).
Proof.
  induction l as [|x l IH]; simpl; [constructor|].
  now apply insert_Sorted.
Qed.
End Sorting.

Lemma Qle_bool_total a b : Qle_bool a b = true \/ Qle_bool b a = true.
Proof.
  destruct (Qlt_le_dec b a) as [H|H].
  - right. apply Qle_bool_iff. now apply Qlt_le_weak.
  - left. now apply Qle_bool_iff.
Qed.

Lemma StronglySorted_nth (l : list Q) :
  StronglySorted Qle l -> ascending l.
Proof.
  induction 1 as [|x l S IH F]; intros i j [Hij Hj]; simpl in Hj.
  - lia.
  - destruct i as [|i]; destruct j as [|j]; simpl; try lia.
    + apply Qle_refl.
    + rewrite Forall_forall in F. apply F. apply nth_In. lia.
    + apply IH. lia.
Qed.

Lemma sorted_ascending (l : list Q) : ascending (Pandas.sorted Qle_bool l).
Proof.
  apply StronglySorted_nth. apply Sorted_StronglySorted.
  - intros a b c. apply Qle_trans.
  - pose proof (sorted_Sorted Qle_bool Qle_bool_total l) as S.
    eapply Sorted_ind with (P := fun l => Sorted Qle l); [| |exact S].
    + constructor.
    + intros a l0 _ IH Hd. constructor; [exact IH|].
      destruct Hd; constructor. now apply Qle_bool_iff.
Qed.

Lemma sorted_length {A} (leb : A -> A -> bool) l :
  length (Pandas.sorted leb l) = length l.
Proof. apply Permutation_length, sorted_perm. Qed.

(* ================================================================= *)
(** ** Linear interpolation between order statistics *)

Section Interpolate.
Variable asc : list Q.
Hypothesis asc_ascending : ascending asc.
Hypothesis asc_nonempty : (0 < length asc)%nat.

Let n : Z := Z.of_nat (length asc).
Let pos (p : Q) : Q := p * inject_Z (n - 1).
Let lo (p : Q) : Z := Qfloor (pos p).
Let hi (p : Q) : Z := Z.min (lo p + 1) (n - 1).

Lemma last_rank_nonneg : 0 <= inject_Z (n - 1).
Proof.
  change 0 with (inject_Z 0). rewrite <- Zle_Qle. unfold n. lia.
Qed.

Lemma pos_bounds p : 0 <= p <= 1 -> 0 <= pos p <= inject_Z (n - 1).
Proof.
  intros [H0 H1]. unfold pos. pose proof last_rank_nonneg. split; nra.
Qed.

Lemma lo_bounds p : 0 <= p <= 1 -> (0 <= lo p <= n - 1)%Z.
Proof.
  intros Hp. destruct (pos_bounds p Hp) as [H0 H1]. unfold lo. split.
  - rewrite <- (Qfloor_Z 0). now apply Qfloor_resp_le.
  - rewrite <- (Qfloor_Z (n - 1)). now apply Qfloor_resp_le.
Qed.

Lemma frac_bounds p : 0 <= pos p - inject_Z (lo p) < 1.
Proof.
  unfold lo. pose proof (Qfloor_le (pos p)) as H1.
  pose proof (Qlt_floor (pos p)) as H2.
  rewrite inject_Z_plus in H2. change (inject_Z 1) with 1 in H2.
  split; lra.
Qed.

Lemma interpolate_eq p :
  Pandas.interpolate asc p =
    nth (Z.to_nat (lo p)) asc 0
    + (nth (Z.to_nat (hi p)) asc 0 - nth (Z.to_nat (lo p)) asc 0)
      * (pos p - inject_Z (lo p)).
Proof. reflexivity. Qed.

Lemma lo_le_hi p :
  0 <= p <= 1 ->
  nth (Z.to_nat (lo p)) asc 0 <= nth (Z.to_nat (hi p)) asc 0.
Proof.
  intros Hp. pose proof (lo_bounds p Hp). apply asc_ascending.
  unfold hi. unfold n in *. lia.
Qed.

Lemma interpolate_between p :
  0 <= p <= 1 ->
  nth (Z.to_nat (lo p)) asc 0 <= Pandas.interpolate asc p
  /\ Pandas.interpolate asc p <= nth (Z.to_nat (hi p)) asc 0.
Proof.
  intros Hp. rewrite interpolate_eq.
  pose proof (lo_le_hi p Hp). pose proof (frac_bounds p).
  split; nra.
Qed.

Lemma interpolate_mono p2 p1 :
  0 <= p2 -> p2 <= p1 -> p1 <= 1 ->
  Pandas.interpolate asc p2 <= Pandas.interpolate asc p1.
Proof.
  intros H0 H21 H1.
  assert (Hp2 : 0 <= p2 <= 1) by (split; lra).
  assert (Hp1 : 0 <= p1 <= 1) by (split; lra).
  assert (Hpos : pos p2 <= pos p1).
  { unfold pos. pose proof last_rank_nonneg. nra. }
  assert (Hlo : (lo p2 <= lo p1)%Z) by now apply Qfloor_resp_le.
  destruct (Z.eq_dec (lo p2) (lo p1)) as [Eq|Ne].
  - rewrite !interpolate_eq. unfold hi. rewrite Eq.
    pose proof (lo_le_hi p1 Hp1) as Hab. unfold hi in Hab.
    nra.
  - destruct (interpolate_between p2 Hp2) as [_ U2].
    destruct (interpolate_between p1 Hp1) as [L1 _].
    apply Qle_trans with (nth (Z.to_nat (hi p2)) asc 0); [exact U2|].
    apply Qle_trans with (nth (Z.to_nat (lo p1)) asc 0); [|exact L1].
    pose proof (lo_bounds p1 Hp1). pose proof (lo_bounds p2 Hp2).
    apply asc_ascending. unfold hi. unfold n in *. lia.
Qed.

(** At percentile 1 the result is the last order statistic, at
    percentile 0 the first. *)
Lemma interpolate_one :
  Pandas.interpolate asc 1 == nth (length asc - 1) asc 0.
Proof.
  rewrite interpolate_eq.
  assert (E : lo 1 = (n - 1)%Z).
  { unfold lo, pos. rewrite (Qfloor_comp _ (inject_Z (n - 1))).
    - apply Qfloor_Z.
    - ring. }
  unfold hi. rewrite E.
  replace (Z.min (n - 1 + 1) (n - 1)) with (n - 1)%Z by lia.
  replace (Z.to_nat (n - 1)) with (length asc - 1)%nat by (unfold n; lia).
  ring.
Qed.

Lemma interpolate_zero :
  Pandas.interpolate asc 0 == nth 0 asc 0.
Proof.
  rewrite interpolate_eq.
  assert (E : lo 0 = 0%Z).
  { unfold lo, pos. rewrite (Qfloor_comp _ (inject_Z 0)).
    - apply Qfloor_Z.
    - ring. }
  rewrite E. unfold pos. simpl Z.to_nat. ring.
Qed.

End Interpolate.

(* ================================================================= *)
(** ** The encounter-count check *)

Lemma numbers_encounters (rs : list Row) :
  (forall r, In r rs -> numeric_cell (Pandas.cell "total_encounters" r)) ->
  Pandas.numbers (map (Pandas.cell "total_encounters") rs)
  = Ok (encounter_values (mkDataFrame [] rs)).
Proof.
  unfold encounter_values. simpl rows.
  induction rs as [|r rs IH]; intros H; simpl; [reflexivity|].
  rewrite IH by (intros; apply H; now right).
  specialize (H r (or_introl eq_refl)).
  destruct (Pandas.cell "total_encounters" r); simpl in *;
    try contradiction; reflexivity.
Qed.

Lemma series_gt_exceeds (rs : list Row) t :
  (forall r, In r rs -> numeric_cell (Pandas.cell "total_encounters" r)) ->
  Pandas.series_gt (map (Pandas.cell "total_encounters") rs) t
  = Ok (map (exceeds t) rs).
Proof.
  intros H. unfold Pandas.series_gt.
  induction rs as [|r rs IH]; simpl; [reflexivity|].
  rewrite IH by (intros; apply H; now right).
  specialize (H r (or_introl eq_refl)).
  unfold exceeds, encounters_above.
  destruct (Pandas.cell "total_encounters" r); simpl in *;
    try contradiction; destruct t; reflexivity.
Qed.

Lemma valid_percentile p :
  0 <= p <= 1 -> Qle_bool 0 p && Qle_bool p 1 = true.
Proof.
  intros [H0 H1]. apply andb_true_iff. split; now apply Qle_bool_iff.
Qed.

Lemma invalid_percentile p :
  p < 0 \/ 1 < p -> Qle_bool 0 p && Qle_bool p 1 = false.
Proof.
  intros H. apply andb_false_iff.
  destruct H as [H|H]; [left|right];
    (destruct (Qle_bool _ _) eqn:E; [|reflexivity]);
    apply Qle_bool_iff in E; exfalso; exact (Qlt_not_le _ _ H E).
Qed.

Lemma high_enc_mask_numeric df p :
  numeric_column df "total_encounters" ->
  0 <= p <= 1 ->
  high_enc_mask df p
  = Ok (threshold df p, map (exceeds (threshold df p)) (rows df)).
Proof.
  intros [Hc Hn] Hp. unfold high_enc_mask, Pandas.getcol. rewrite Hc.
  simpl rbind. unfold Pandas.quantile. rewrite (valid_percentile _ Hp).
  rewrite (numbers_encounters _ Hn). simpl rbind.
  unfold threshold.
  change (encounter_values {| columns := []; rows := rows df |})
    with (encounter_values df).
  destruct (encounter_values df) as [|v vs]; simpl rbind;
    now rewrite (series_gt_exceeds _ _ Hn).
Qed.

Lemma flag_high_encounter_counts_ok h r df p :
  nth_error h r = Some df ->
  numeric_column df "total_encounters" ->
  0 <= p <= 1 ->
  let t := threshold df p in
  let out := tagged df (map (exceeds t) (rows df)) (high_reason t p) in
  flag_high_encounter_counts r p h
  = (Ok (S (length h)),
     h ++ [Pandas.filter_rows df (map (exceeds t) (rows df)); out])
  /\ nth_error
       (h ++ [Pandas.filter_rows df (map (exceeds t) (rows df)); out])
       (S (length h)) = Some out
  /\ rows out = map (with_reason (high_reason t p))
                   (filter (exceeds t) (rows df)).
Proof.
  intros E Hn Hp t out.
  rewrite (flag_high_encounter_counts_run _ _ _ p E).
  rewrite (high_enc_mask_numeric _ _ Hn Hp). fold t. split; [reflexivity|].
  split; [|apply rows_tagged].
  replace (S (length h)) with (length h + 1)%nat by lia.
  now rewrite nth_error_alloc.
Qed.

Lemma number_column_numeric df c :
  number_column df c -> numeric_column df c.
Proof.
  intros [Hc Hn]. split; [exact Hc|]. intros r Hr. specialize (Hn r Hr).
  destruct (Pandas.cell c r); simpl in *; auto.
Qed.

Lemma encounter_values_numbers df :
  number_column df "total_encounters" ->
  encounter_values df
  = map (fun r => num_of (Pandas.cell "total_encounters" r)) (rows df).
Proof.
  intros [_ Hn]. unfold encounter_values.
  induction (rows df) as [|r rs IH]; simpl; [reflexivity|].
  rewrite IH by (intros; apply Hn; now right).
  specialize (Hn r (or_introl eq_refl)).
  destruct (Pandas.cell "total_encounters" r); simpl in *;
    try contradiction; reflexivity.
Qed.

Lemma threshold_numbers df p :
  number_column df "total_encounters" ->
  rows df <> [] ->
  threshold df p
  = Fin (Pandas.interpolate
           (Pandas.sorted Qle_bool (encounter_values df)) p)
  /\ (0 < length (Pandas.sorted Qle_bool (encounter_values df)))%nat.
Proof.
  intros Hn Hr. unfold threshold.
  rewrite sorted_length.
  rewrite (encounter_values_numbers _ Hn).
  destruct (rows df) as [|r rs]; [congruence|]. simpl. split; [reflexivity|].
  lia.
Qed.

Lemma encounters_above_value t r :
  encounters_above t r = true ->
  number_cell (Pandas.cell "total_encounters" r)
  /\ t < num_of (Pandas.cell "total_encounters" r).
Proof.
  unfold encounters_above.
  destruct (Pandas.cell "total_encounters" r); simpl; try discriminate;
    intros H; apply Qltb_lt in H; auto.
Qed.

Lemma filter_none {A} (f : A -> bool) (l : list A) :
  (forall x, In x l -> f x = false) -> filter f l = [].
Proof.
  induction l as [|x l IH]; simpl; intros H; [reflexivity|].
  rewrite (H x) by auto. apply IH. auto.
Qed.

Lemma encounter_value_in df r :
  In r (rows df) ->
  number_cell (Pandas.cell "total_encounters" r) ->
  In (num_of (Pandas.cell "total_encounters" r)) (encounter_values df).
Proof.
  intros Hr Hn. unfold encounter_values. apply in_flat_map.
  exists r. split; [exact Hr|].
  destruct (Pandas.cell "total_encounters" r); simpl in *;
    try contradiction; auto.
Qed.

(** No row exceeds a threshold that bounds all the values of the column. *)
Lemma no_row_exceeds_bound df t :
  (forall q, In q (encounter_values df) -> q <= t) ->
  filter (exceeds (Fin t)) (rows df) = [].
Proof.
  intros Hb. apply filter_none. intros r Hr. simpl.
  destruct (encounters_above t r) eqn:E; [|reflexivity].
  apply encounters_above_value in E. destruct E as [Hn Hlt].
  pose proof (Hb _ (encounter_value_in _ _ Hr Hn)). lra.
Qed.


Lemma quantile_threshold df p :
  numeric_column df "total_encounters" ->
  0 <= p <= 1 ->
  Pandas.quantile (map (Pandas.cell "total_encounters") (rows df)) p
  = Ok (threshold df p).
Proof.
  intros [Hc Hn] Hp. unfold Pandas.quantile.
  rewrite (valid_percentile _ Hp), (numbers_encounters _ Hn). simpl rbind.
  unfold threshold.
  change (encounter_values {| columns := []; rows := rows df |})
    with (encounter_values df).
  now destruct (encounter_values df).
Qed.


Lemma tiny_number_encounters : number_column tiny "total_encounters".
Proof.
  split; [reflexivity|].
  intros r [<-|[<-|[<-|[]]]]; exact I.
Qed.


Lemma filter_length_le {A} (f g : A -> bool) (l : list A) :
  (forall x, In x l -> f x = true -> g x = true) ->
  (length (filter f l) <= length (filter g l))%nat.
Proof.
  induction l as [|x l IH]; simpl; intros H; [lia|].
  assert (IH' := IH (fun y Hy => H y (or_intror Hy))).
  destruct (f x) eqn:Ef.
  - rewrite (H x (or_introl eq_refl) Ef). simpl. lia.
  - destruct (g x); simpl; lia.
Qed.

Lemma exceeds_lower t1 t2 r :
  t2 <= t1 -> exceeds (Fin t1) r = true -> exceeds (Fin t2) r = true.
Proof.
  intros Hle. simpl. unfold encounters_above.
  destruct (Pandas.cell "total_encounters" r); try discriminate;
    rewrite !Qltb_lt; lra.
Qed.

(** C8.  On a table with a numeric [total_encounters] column and for
    percentiles [p2 <= p1] in the open interval (0, 1), both calls return and
    the call with the lower percentile [p2] returns at least as many rows as
    the call with [p1]. *)
Theorem lower_percentile_flags_no_fewer h r df p1 p2 :
  nth_error h r = Some df ->
  numeric_column df "total_encounters" ->
  0 < p2 -> p2 <= p1 -> p1 < 1 ->
  exists h1 r1 out1 h2 r2 out2,
    flag_high_encounter_counts r p1 h = (Ok r1, h1)
    /\ nth_error h1 r1 = Some out1
    /\ flag_high_encounter_counts r p2 h = (Ok r2, h2)
    /\ nth_error h2 r2 = Some out2
    /\ (length (rows out1) <= length (rows out2))%nat.
Proof.
  intros E Hn H0 H21 H1.
  assert (Hp1 : 0 <= p1 <= 1) by (split; lra).
  assert (Hp2 : 0 <= p2 <= 1) by (split; lra).
  destruct (flag_high_encounter_counts_ok _ _ _ _ E Hn Hp1) as (R1 & E1 & O1).
  destruct (flag_high_encounter_counts_ok _ _ _ _ E Hn Hp2) as (R2 & E2 & O2).
  eexists _, _, _, _, _, _.
  split; [exact R1|]. split; [exact E1|].
  split; [exact R2|]. split; [exact E2|].
  rewrite O1, O2, !length_map.
  unfold threshold.
  destruct (encounter_values df) as [|v vs] eqn:Ev; [simpl; lia|].
  apply filter_length_le. intros x _. apply exceeds_lower.
  apply interpolate_mono; try assumption; try lra.
  - apply sorted_ascending.
  - rewrite sorted_length. simpl. lia.
Qed.

Lemma tiny_numeric_encounters : numeric_column tiny "total_encounters".
Proof. apply number_column_numeric, tiny_number_encounters. Qed.

Lemma lower_percentile_flags_no_fewer_witness :
  exists h1 r1 out1 h2 r2 out2,
    flag_high_encounter_counts 0%nat (99 # 100) [tiny] = (Ok r1, h1)
    /\ nth_error h1 r1 = Some out1
    /\ flag_high_encounter_counts 0%nat (1 # 2) [tiny] = (Ok r2, h2)
    /\ nth_error h2 r2 = Some out2
    /\ (length (rows out1) <= length (rows out2))%nat.
Proof.
  apply (lower_percentile_flags_no_fewer [tiny] 0%nat tiny).
  - reflexivity.
  - exact tiny_numeric_encounters.
  - reflexivity.
  - unfold Qle; simpl; lia.
  - reflexivity.
Defined.

Lemma sorted_last_is_max (l : list Q) :
  (0 < length l)%nat ->
  maximum_of l (nth (length (Pandas.sorted Qle_bool l) - 1)
                  (Pandas.sorted Qle_bool l) 0).
Proof.
  intros Hl. pose proof (sorted_length Qle_bool l) as Len.
  pose proof (sorted_perm Qle_bool l) as P. split.
  - exists (nth (length (Pandas.sorted Qle_bool l) - 1)
              (Pandas.sorted Qle_bool l) 0).
    split; [|reflexivity].
    eapply Permutation_in; [exact P|]. apply nth_In. lia.
  - intros q Hq. apply Permutation_sym in P.
    pose proof (Permutation_in _ P Hq) as Hq'.
    destruct (In_nth _ _ 0 Hq') as (i & Hi & <-).
    apply sorted_ascending. lia.
Qed.

Lemma sorted_first_is_min (l : list Q) :
  (0 < length l)%nat ->
  minimum_of l (nth 0 (Pandas.sorted Qle_bool l) 0).
Proof.
  intros Hl. pose proof (sorted_length Qle_bool l) as Len.
  pose proof (sorted_perm Qle_bool l) as P. split.
  - exists (nth 0 (Pandas.sorted Qle_bool l) 0). split; [|reflexivity].
    eapply Permutation_in; [exact P|]. apply nth_In. lia.
  - intros q Hq. apply Permutation_sym in P.
    pose proof (Permutation_in _ P Hq) as Hq'.
    destruct (In_nth _ _ 0 Hq') as (i & Hi & <-).
    apply sorted_ascending. lia.
Qed.

Lemma maximum_of_eq l t t' : maximum_of l t -> t == t' -> maximum_of l t'.
Proof.
  intros [(q & Hq & Eq) Hb] E. split.
  - exists q. split; [exact Hq|]. now rewrite Eq.
  - intros q' Hq'. rewrite <- E. now apply Hb.
Qed.

Lemma minimum_of_eq l t t' : minimum_of l t -> t == t' -> minimum_of l t'.
Proof.
  intros [(q & Hq & Eq) Hb] E. split.
  - exists q. split; [exact Hq|]. now rewrite Eq.
  - intros q' Hq'. rewrite <- E. now apply Hb.
Qed.

(** C10.  On a non-empty table whose [total_encounters] column holds
    numbers, the call with percentile exactly 1 raises nothing: the
    threshold the quantile computes is the maximum of the column and the
    returned frame has no row; with percentile exactly 0 the call returns
    too, and the threshold is the minimum of the column. *)
Theorem percentile_endpoints h r df :
  nth_error h r = Some df ->
  number_column df "total_encounters" ->
  rows df <> [] ->
  (exists t h' r' out,
     Pandas.quantile (map (Pandas.cell "total_encounters") (rows df)) 1
     = Ok (Fin t)
     /\ maximum_of (encounter_values df) t
     /\ flag_high_encounter_counts r 1 h = (Ok r', h')
     /\ nth_error h' r' = Some out
     /\ rows out = [])
  /\ (exists t h' r' out,
        Pandas.quantile (map (Pandas.cell "total_encounters") (rows df)) 0
        = Ok (Fin t)
        /\ minimum_of (encounter_values df) t
        /\ flag_high_encounter_counts r 0 h = (Ok r', h')
        /\ nth_error h' r' = Some out
        /\ rows out = map (with_reason (high_reason (Fin t) 0))
                         (filter (encounters_above t) (rows df))).
Proof.
  intros E Hn Hr.
  pose proof (number_column_numeric _ _ Hn) as Hn'.
  assert (Hp1 : 0 <= 1 <= 1) by (split; lra).
  assert (Hp0 : 0 <= 0 <= 1) by (split; lra).
  assert (Hv : (0 < length (encounter_values df))%nat).
  { destruct (threshold_numbers df 1 Hn Hr) as [_ H].
    now rewrite sorted_length in H. }
  split.
  - destruct (threshold_numbers df 1 Hn Hr) as [Et Hlen].
    destruct (flag_high_encounter_counts_ok _ _ _ _ E Hn' Hp1)
      as (Run & Eo & Ro).
    rewrite Et in Run, Eo, Ro.
    eexists _, _, _, _.
    split; [rewrite <- Et; now apply quantile_threshold|].
    assert (M : maximum_of (encounter_values df)
                  (Pandas.interpolate
                     (Pandas.sorted Qle_bool (encounter_values df)) 1)).
    { eapply maximum_of_eq; [apply sorted_last_is_max; exact Hv|].
      symmetry. apply interpolate_one. exact Hlen. }
    split; [exact M|]. split; [exact Run|]. split; [exact Eo|].
    rewrite Ro, no_row_exceeds_bound; [reflexivity|]. apply M.
  - destruct (threshold_numbers df 0 Hn Hr) as [Et Hlen].
    destruct (flag_high_encounter_counts_ok _ _ _ _ E Hn' Hp0)
      as (Run & Eo & Ro).
    rewrite Et in Run, Eo, Ro.
    eexists _, _, _, _.
    split; [rewrite <- Et; now apply quantile_threshold|].
    split; [|split; [exact Run|split; [exact Eo|exact Ro]]].
    eapply minimum_of_eq; [apply sorted_first_is_min; exact Hv|].
    symmetry. apply interpolate_zero.
Qed.

Lemma percentile_endpoints_witness :
  (exists h' r' out,
     flag_high_encounter_counts 0%nat 1 [tiny] = (Ok r', h')
     /\ nth_error h' r' = Some out /\ rows out = [])
  /\ (exists h' r' out,
        flag_high_encounter_counts 0%nat 0 [tiny] = (Ok r', h')
        /\ nth_error h' r' = Some out /\ length (rows out) = 2%nat).
Proof.
  destruct (percentile_endpoints [tiny] 0%nat tiny) as [H1 H0].
  - reflexivity.
  - exact tiny_number_encounters.
  - discriminate.
  - split.
    + destruct H1 as (t & h' & r' & out & _ & _ & Run & Eo & Ro).
      now exists h', r', out.
    + destruct H0 as (t & h' & r' & out & Q0 & _ & Run & Eo & Ro).
      exists h', r', out. split; [exact Run|]. split; [exact Eo|].
      rewrite Ro, length_map. injection Q0 as <-. reflexivity.
Defined.

(* ================================================================= *)
(** ** Percentiles the quantile refuses *)

(** C7, as the code has it.  The function has no check of its own: the
    percentile is validated by the quantile, over the closed interval.  On a
    table with a [total_encounters] column, every percentile below 0 or
    above 1 makes the call fail with [ValueError], before any frame is
    built; no default is substituted.  Every percentile from 0 to 1, the
    endpoints included, is accepted when the column is numeric. *)
Theorem percentile_outside_closed_interval h r df p :
  nth_error h r = Some df ->
  Pandas.mem "total_encounters" (columns df) = true ->
  (p < 0 \/ 1 < p ->
   flag_high_encounter_counts r p h = (Err ValueError, h))
  /\ (numeric_column df "total_encounters" -> 0 <= p <= 1 ->
      exists r' h', flag_high_encounter_counts r p h = (Ok r', h')).
Proof.
  intros E Hc. split.
  - intros Hp. rewrite (flag_high_encounter_counts_run _ _ _ p E).
    unfold high_enc_mask, Pandas.getcol. rewrite Hc. simpl rbind.
    unfold Pandas.quantile. now rewrite (invalid_percentile _ Hp).
  - intros Hn Hp.
    destruct (flag_high_encounter_counts_ok _ _ _ _ E Hn Hp) as (Run & _).
    eexists _, _. exact Run.
Qed.

Lemma percentile_outside_closed_interval_witness :
  flag_high_encounter_counts 0%nat (3 # 2) [tiny] = (Err ValueError, [tiny]).
Proof.
  apply (percentile_outside_closed_interval [tiny] 0%nat tiny (3 # 2)).
  - reflexivity.
  - reflexivity.
  - right. reflexivity.
Defined.

(** C7 as stated fails: percentile 1 lies outside the open interval
    (0, 1), and the call returns a frame. *)
Lemma percentile_one_accepted :
  ~ (0 < 1 /\ 1 < 1)
  /\ exists r' h', flag_high_encounter_counts 0%nat 1 [tiny] = (Ok r', h').
Proof.
  split.
  - intros [_ H]. discriminate H.
  - eexists _, _. reflexivity.
Qed.

(* ================================================================= *)
(** ** The empty table *)

Lemma quality_frames_empty cols :
  Pandas.mem "total_cost" cols = true ->
  Pandas.mem "total_encounters" cols = true ->
  exists f, quality_frames (mkDataFrame cols []) = Ok (mkDataFrame cols [], f)
            /\ rows f = [].
Proof.
  intros Hc He. unfold quality_frames, neg_cost_mask, high_enc_mask,
    Pandas.getcol. simpl columns. rewrite Hc, He. simpl.
  eexists. split; reflexivity.
Qed.

(** C5.  On a table with no rows that has the columns the checks read,
    [run_quality_checks] raises nothing and returns two frames with no rows,
    and each check alone returns a frame with no rows. *)
Theorem empty_table_gives_empty_results h r cols p :
  nth_error h r = Some (mkDataFrame cols []) ->
  Pandas.mem "total_cost" cols = true ->
  Pandas.mem "total_encounters" cols = true ->
  0 <= p <= 1 ->
  (exists h' rc rf cleaned flagged,
     run_quality_checks r h = (Ok (rc, rf), h')
     /\ nth_error h' rc = Some cleaned
     /\ nth_error h' rf = Some flagged
     /\ rows cleaned = [] /\ rows flagged = [])
  /\ (exists h' r' out,
        flag_negative_costs r h = (Ok r', h')
        /\ nth_error h' r' = Some out /\ rows out = [])
  /\ (exists h' r' out,
        flag_high_encounter_counts r p h = (Ok r', h')
        /\ nth_error h' r' = Some out /\ rows out = []).
Proof.
  intros E Hc He Hp. split; [|split].
  - destruct (run_quality_checks_run _ _ _ E) as [l R].
    destruct (quality_frames_empty cols Hc He) as (f & Q & Rf).
    rewrite Q in R. destruct R as (rc & rf & Run & Ec & Ef & _).
    exists (h ++ l), rc, rf, (mkDataFrame cols []), f. auto.
  - rewrite (flag_negative_costs_run _ _ _ E).
    unfold neg_cost_mask, Pandas.getcol. simpl columns. rewrite Hc. simpl.
    eexists _, _, _. split; [reflexivity|]. split.
    + replace (S (length h)) with (length h + 1)%nat by lia.
      now rewrite nth_error_alloc.
    + reflexivity.
  - assert (Hn : numeric_column (mkDataFrame cols []) "total_encounters").
    { split; [exact He|]. intros x []. }
    destruct (flag_high_encounter_counts_ok _ _ _ _ E Hn Hp)
      as (Run & Eo & Ro).
    eexists _, _, _. split; [exact Run|]. split; [exact Eo|]. exact Ro.
Qed.

Lemma empty_table_gives_empty_results_witness :
  exists h' rc rf cleaned flagged,
    run_quality_checks 0%nat [mkDataFrame schema []] = (Ok (rc, rf), h')
    /\ nth_error h' rc = Some cleaned
    /\ nth_error h' rf = Some flagged
    /\ rows cleaned = [] /\ rows flagged = [].
Proof.
  apply (empty_table_gives_empty_results
           [mkDataFrame schema []] 0%nat schema default_percentile).
  - reflexivity.
  - reflexivity.
  - reflexivity.
  - split; unfold Qle; simpl; lia.
Defined.

(* ================================================================= *)
(** ** The input is left alone *)

(** C9.  Whatever a call does, succeed or raise, the store it leaves is the
    store it found followed by the frames it built: the input frame, and
    every frame that existed before the call, has the rows and the columns it
    had (no [flag_reason] column is added to it); the frames a call returns
    are built by the call, so none is the input object, and the two frames
    of [run_quality_checks] are two objects. *)
Theorem input_unchanged_outputs_fresh h r df p :
  nth_error h r = Some df ->
  (forall res h',
     flag_negative_costs r h = (res, h') ->
     (exists l, h' = h ++ l)
     /\ nth_error h' r = Some df
     /\ forall r', res = Ok r' ->
          r' <> r /\ (length h <= r' < length h')%nat)
  /\ (forall res h',
        flag_high_encounter_counts r p h = (res, h') ->
        (exists l, h' = h ++ l)
        /\ nth_error h' r = Some df
        /\ forall r', res = Ok r' ->
             r' <> r /\ (length h <= r' < length h')%nat)
  /\ (forall res h',
        run_quality_checks r h = (res, h') ->
        (exists l, h' = h ++ l)
        /\ nth_error h' r = Some df
        /\ forall rc rf, res = Ok (rc, rf) ->
             rc <> r /\ rf <> r /\ rc <> rf
             /\ (length h <= rc < length h')%nat
             /\ (length h <= rf < length h')%nat).
Proof.
  intros E.
  assert (Hr : (r < length h)%nat) by (apply nth_error_Some; congruence).
  split; [|split].
  - intros res h' Run. rewrite (flag_negative_costs_run _ _ _ E) in Run.
    destruct (neg_cost_mask df) as [mask|e]; injection Run as <- <-.
    + split; [eexists; reflexivity|]. split; [now apply nth_error_old|].
      intros r' [= <-]. rewrite length_app. simpl. lia.
    + split; [exists []; now rewrite app_nil_r|]. split; [exact E|].
      discriminate.
  - intros res h' Run.
    rewrite (flag_high_encounter_counts_run _ _ _ p E) in Run.
    destruct (high_enc_mask df p) as [[t mask]|e]; injection Run as <- <-.
    + split; [eexists; reflexivity|]. split; [now apply nth_error_old|].
      intros r' [= <-]. rewrite length_app. simpl. lia.
    + split; [exists []; now rewrite app_nil_r|]. split; [exact E|].
      discriminate.
  - intros res h' Run. destruct (run_quality_checks_run _ _ _ E) as [l R].
    destruct (quality_frames df) as [[c f]|e].
    + destruct R as (rc & rf & R & Ec & Ef & Lc & Lf & N).
      rewrite R in Run. injection Run as <- <-.
      split; [eexists; reflexivity|]. split; [now apply nth_error_old|].
      intros rc' rf' [= <- <-].
      assert ((rc < length (h ++ l))%nat)
        by (apply nth_error_Some; congruence).
      assert ((rf < length (h ++ l))%nat)
        by (apply nth_error_Some; congruence).
      repeat split; auto; lia.
    + rewrite R in Run. injection Run as <- <-.
      split; [eexists; reflexivity|]. split; [now apply nth_error_old|].
      discriminate.
Qed.

Lemma input_unchanged_outputs_fresh_witness :
  (exists l, snd (run_quality_checks 0%nat [tiny]) = [tiny] ++ l)
  /\ nth_error (snd (run_quality_checks 0%nat [tiny])) 0%nat = Some tiny.
Proof.
  destruct (input_unchanged_outputs_fresh [tiny] 0%nat tiny
              default_percentile eq_refl) as (_ & _ & H).
  destruct (H (fst (run_quality_checks 0%nat [tiny]))
              (snd (run_quality_checks 0%nat [tiny]))
              (surjective_pairing _)) as (Hl & Hr & _).
  split; [exact Hl | exact Hr].
Defined.

(* ================================================================= *)
(** ** The concatenated frame of the two checks *)

Lemma mem_app c a b :
  Pandas.mem c (a ++ b) = Pandas.mem c a || Pandas.mem c b.
Proof. unfold Pandas.mem. apply existsb_app. Qed.

Lemma mem_In c cs : Pandas.mem c cs = true <-> In c cs.
Proof.
  unfold Pandas.mem. rewrite existsb_exists. split.
  - intros (x & Hx & E). apply String.eqb_eq in E. now subst.
  - intros H. exists c. split; [exact H|apply String.eqb_refl].
Qed.

Lemma filter_not_mem_self cs :
  filter (fun c => negb (Pandas.mem c cs)) cs = [].
Proof.
  apply filter_none. intros c Hc. apply negb_false_iff. now apply mem_In.
Qed.

Lemma columns_tagged df mask reason :
  columns (tagged df mask reason)
  = if Pandas.mem "flag_reason" (columns df) then columns df
    else columns df ++ ["flag_reason"].
Proof. reflexivity. Qed.

Lemma columns_concat_tagged df m1 r1 m2 r2 :
  columns (Pandas.concat (tagged df m1 r1) (tagged df m2 r2))
  = columns (tagged df m1 r1).
Proof.
  unfold Pandas.concat. cbn [columns].
  rewrite (columns_tagged df m2 r2), <- (columns_tagged df m1 r1).
  now rewrite filter_not_mem_self, app_nil_r.
Qed.

Lemma mem_columns_flag_stream df c :
  Pandas.mem c (columns (flag_stream df))
  = Pandas.mem c (columns df) || String.eqb c "flag_reason".
Proof.
  unfold flag_stream. rewrite columns_concat_tagged, columns_tagged.
  destruct (Pandas.mem "flag_reason" (columns df)) eqn:E.
  - destruct (String.eqb_spec c "flag_reason") as [->|N].
    + rewrite E. reflexivity.
    + now rewrite orb_false_r.
  - rewrite mem_app. simpl. now rewrite orb_false_r.
Qed.

Lemma rows_flag_stream df :
  rows (flag_stream df)
  = map (Pandas.reindex (columns (flag_stream df)))
      (map (with_reason "negative_cost") (negative_rows df)
       ++ map (with_reason
                 (high_reason (threshold df default_percentile)
                    default_percentile))
            (outlier_rows df)).
Proof.
  unfold flag_stream. unfold Pandas.concat. cbn [rows columns].
  rewrite !rows_tagged. reflexivity.
Qed.

Lemma default_percentile_valid : 0 <= default_percentile <= 1.
Proof. split; unfold Qle; simpl; lia. Qed.

(** With numeric measure columns the two checks succeed, and the run
    continues from their concatenated frame. *)
Lemma quality_frames_numeric df :
  numeric_column df "total_cost" ->
  numeric_column df "total_encounters" ->
  quality_frames df =
    rbind (consolidate (flag_stream df)) (fun flagged =>
    rbind (clean df flagged) (fun cleaned => Ok (cleaned, flagged))).
Proof.
  intros Hc He. unfold quality_frames.
  rewrite (neg_cost_mask_numeric _ Hc). simpl rbind.
  rewrite (high_enc_mask_numeric _ _ He default_percentile_valid).
  reflexivity.
Qed.

Lemma empty_flag_stream df :
  Pandas.empty (flag_stream df)
  = match negative_rows df ++ outlier_rows df with
    | [] => true
    | _ => false
    end.
Proof.
  unfold Pandas.empty. rewrite rows_flag_stream.
  assert (N : columns (flag_stream df) <> []).
  { intros E. pose proof (mem_columns_flag_stream df "flag_reason") as M.
    rewrite E in M. simpl in M. now rewrite orb_true_r in M. }
  remember (columns (flag_stream df)) as C eqn:EC. clear EC.
  destruct (negative_rows df) as [|r rs];
    [destruct (outlier_rows df) as [|r rs]|]; cbn [map app];
    try reflexivity; (destruct C; [congruence|reflexivity]).
Qed.

Lemma all_mem_key_cols_flag_stream df :
  Pandas.all_mem key_cols (columns (flag_stream df))
  = Pandas.all_mem key_cols (columns df).
Proof.
  unfold Pandas.all_mem, key_cols. cbn [forallb].
  rewrite !mem_columns_flag_stream. simpl (String.eqb _ _).
  now rewrite !orb_false_r.
Qed.

(* ================================================================= *)
(** ** A table without a primary-key column *)

(** C6, as the code has it.  [run_quality_checks] does not look at the
    schema.  On a table that lacks a primary-key column (and whose measure
    columns are numeric), it returns normally when neither check selects a
    row: the cleaned frame is a copy of the input and the flagged frame has
    no row.  When some row is selected, it fails with [KeyError], raised by
    the group-by after both checks have run: their frames are in the
    store. *)
Theorem missing_key_column h r df :
  nth_error h r = Some df ->
  Pandas.all_mem key_cols (columns df) = false ->
  numeric_column df "total_cost" ->
  numeric_column df "total_encounters" ->
  (negative_rows df ++ outlier_rows df = [] ->
   exists h' rc rf flagged,
     run_quality_checks r h = (Ok (rc, rf), h')
     /\ nth_error h' rc = Some df
     /\ nth_error h' rf = Some flagged
     /\ rows flagged = [])
  /\ (negative_rows df ++ outlier_rows df <> [] ->
      exists g1 g2 l,
        let t := threshold df default_percentile in
        run_quality_checks r h
        = (Err KeyError,
           h ++ [g1; tagged df (map negative_cost (rows df)) "negative_cost";
                 g2; tagged df (map (exceeds t) (rows df))
                       (high_reason t default_percentile)] ++ l)).
Proof.
  intros E Hk Hc He.
  pose proof (run_quality_checks_steps _ _ _ E) as S.
  rewrite (neg_cost_mask_numeric _ Hc) in S.
  rewrite (high_enc_mask_numeric _ _ He default_percentile_valid) in S.
  cbv zeta in S. fold (flag_stream df) in S. destruct S as [l S].
  pose proof (empty_flag_stream df) as Em.
  unfold consolidate in S. split.
  - intros Hnone. rewrite Hnone in Em. rewrite Em in S. simpl negb in S.
    cbv iota in S. unfold clean in S. rewrite Em in S.
    destruct S as (rc & rf & Run & Ec & Ef & _).
    eexists _, rc, rf, (flag_stream df).
    split; [exact Run|]. split; [exact Ec|]. split; [exact Ef|].
    rewrite rows_flag_stream.
    apply app_eq_nil in Hnone. destruct Hnone as [-> ->]. reflexivity.
  - intros Hsome.
    destruct (negative_rows df ++ outlier_rows df) eqn:Ero; [congruence|].
    rewrite Em in S. simpl negb in S. cbv iota in S.
    unfold Pandas.groupby_apply in S.
    rewrite all_mem_key_cols_flag_stream, Hk in S. simpl in S.
    eexists _, _, _. rewrite S. rewrite <- app_assoc. reflexivity.
Qed.

Lemma no_patient_id_measures :
  numeric_column no_patient_id "total_cost"
  /\ numeric_column no_patient_id "total_encounters".
Proof.
  split; (split; [reflexivity|]); intros r [<-|[]]; exact I.
Qed.

Lemma missing_key_column_witness :
  exists h' rc rf flagged,
    run_quality_checks 0%nat [no_patient_id] = (Ok (rc, rf), h')
    /\ nth_error h' rc = Some no_patient_id
    /\ nth_error h' rf = Some flagged
    /\ rows flagged = [].
Proof.
  destruct (missing_key_column [no_patient_id] 0%nat no_patient_id) as [H _].
  - reflexivity.
  - reflexivity.
  - exact (proj1 no_patient_id_measures).
  - exact (proj2 no_patient_id_measures).
  - apply H. reflexivity.
Defined.

(** C6 as stated fails: the table [no_patient_id] lacks a primary-key
    column, and the run on it returns. *)
Lemma missing_key_column_accepted :
  Pandas.mem "patient_id" (columns no_patient_id) = false
  /\ exists refs h',
       run_quality_checks 0%nat [no_patient_id] = (Ok refs, h').
Proof.
  split; [reflexivity|]. eexists _, _. reflexivity.
Qed.

(* ================================================================= *)
(** ** Cells and keys through the frame operations *)

Lemma cell_reindex c cs r :
  Pandas.mem c cs = true ->
  Pandas.cell c (Pandas.reindex cs r) = Pandas.cell c r.
Proof.
  unfold Pandas.reindex. induction cs as [|c0 cs IH]; simpl; [discriminate|].
  destruct (String.eqb_spec c c0) as [->|N]; [reflexivity|].
  simpl. exact IH.
Qed.

Lemma cell_row_drop_other c c' r :
  c <> c' -> Pandas.cell c (Pandas.row_drop c' r) = Pandas.cell c r.
Proof.
  intros N. unfold Pandas.row_drop.
  induction r as [|[c0 v0] r IH]; simpl; [reflexivity|].
  destruct (String.eqb_spec c' c0) as [->|N0]; simpl.
  - destruct (String.eqb_spec c c0); congruence.
  - destruct (String.eqb_spec c c0); congruence.
Qed.


Lemma row_drop_absent c r : has c r = false -> Pandas.row_drop c r = r.
Proof.
  unfold has, Pandas.row_drop.
  induction r as [|[c0 v0] r IH]; simpl; [reflexivity|].
  destruct (String.eqb_spec c c0) as [->|N0]; simpl; [discriminate|].
  intros H. now rewrite IH.
Qed.

Lemma cell_app c l x :
  Pandas.cell c (l ++ x)
  = if has c l then Pandas.cell c l else Pandas.cell c x.
Proof.
  unfold has. induction l as [|[c0 v0] l IH]; simpl; [reflexivity|].
  destruct (String.eqb_spec c c0); [reflexivity|exact IH].
Qed.

Lemma cell_absent c r : has c r = false -> Pandas.cell c r = VNaN.
Proof.
  unfold has. induction r as [|[c0 v0] r IH]; simpl; [reflexivity|].
  destruct (String.eqb_spec c c0); [discriminate|exact IH].
Qed.

Lemma cell_str_has c r s : Pandas.cell c r = VStr s -> has c r = true.
Proof.
  intros H. destruct (has c r) eqn:E; [reflexivity|].
  rewrite (cell_absent _ _ E) in H. discriminate.
Qed.

Lemma row_drop_app c l x :
  Pandas.row_drop c (l ++ x) = Pandas.row_drop c l ++ Pandas.row_drop c x.
Proof. unfold Pandas.row_drop. apply filter_app. Qed.

Lemma key_eq r :
  key r = [Pandas.cell "patient_id" r; Pandas.cell "facility_id" r;
           Pandas.cell "year_month" r].
Proof. reflexivity. Qed.

Lemma key_same_cells r r' :
  (forall c, In c key_cols -> Pandas.cell c r' = Pandas.cell c r) ->
  key r' = key r.
Proof.
  intros H. rewrite !key_eq.
  rewrite !H by (unfold key_cols; simpl; auto). reflexivity.
Qed.

Lemma key_col_not_reason c : In c key_cols -> c <> "flag_reason".
Proof. intros [<-|[<-|[<-|[]]]]; discriminate. Qed.

Lemma key_col_not_merge c : In c key_cols -> c <> "_merge".
Proof. intros [<-|[<-|[<-|[]]]]; discriminate. Qed.

Lemma key_with_reason reason r : key (with_reason reason r) = key r.
Proof.
  apply key_same_cells. intros c Hc.
  apply cell_row_set_other. now apply key_col_not_reason.
Qed.

Lemma all_mem_In cs cols c :
  Pandas.all_mem cs cols = true -> In c cs -> Pandas.mem c cols = true.
Proof.
  unfold Pandas.all_mem. rewrite forallb_forall. auto.
Qed.

Lemma key_reindex cs r :
  Pandas.all_mem key_cols cs = true -> key (Pandas.reindex cs r) = key r.
Proof.
  intros H. apply key_same_cells. intros c Hc.
  apply cell_reindex. eapply all_mem_In; eauto.
Qed.

Lemma key_row_drop_reason r : key (Pandas.row_drop "flag_reason" r) = key r.
Proof.
  apply key_same_cells. intros c Hc.
  apply cell_row_drop_other. now apply key_col_not_reason.
Qed.

Lemma str_key_cells r :
  str_key (key r) ->
  forall c, In c key_cols -> exists s, Pandas.cell c r = VStr s.
Proof.
  rewrite key_eq. intros F c Hc.
  inversion F as [|? ? H1 F1]; subst.
  inversion F1 as [|? ? H2 F2]; subst.
  inversion F2 as [|? ? H3 F3]; subst.
  destruct Hc as [<-|[<-|[<-|[]]]]; assumption.
Qed.

Lemma key_app l x : str_key (key l) -> key (l ++ x) = key l.
Proof.
  intros F. apply key_same_cells. intros c Hc.
  destruct (str_key_cells _ F c Hc) as [s Hs].
  rewrite cell_app, (cell_str_has _ _ _ Hs). reflexivity.
Qed.

Lemma value_eqb_str s v : Pandas.value_eqb (VStr s) v = true <-> v = VStr s.
Proof.
  destruct v; simpl; try (split; [discriminate|congruence]).
  rewrite String.eqb_eq. split; congruence.
Qed.

Lemma key_eqb_eq k1 k2 :
  str_key k1 -> Pandas.key_eqb k1 k2 = true <-> k1 = k2.
Proof.
  intros F. revert k2. induction F as [|v k1 [s ->] F IH]; intros k2.
  - destruct k2; simpl; split; congruence.
  - destruct k2 as [|w k2]; cbn [Pandas.key_eqb]; [split; congruence|].
    rewrite andb_true_iff, value_eqb_str, IH. split.
    + intros [-> ->]. reflexivity.
    + intros [= <- <-]. auto.
Qed.

Lemma key_eqb_refl k : str_key k -> Pandas.key_eqb k k = true.
Proof. intros F. now apply key_eqb_eq. Qed.

Lemma key_in_In k ks : str_key k -> Pandas.key_in k ks = true <-> In k ks.
Proof.
  intros F. unfold Pandas.key_in. rewrite existsb_exists. split.
  - intros (k' & Hk & E). apply key_eqb_eq in E; [|exact F]. now subst.
  - intros H. exists k. split; [exact H|now apply key_eqb_refl].
Qed.

(* ================================================================= *)
(** ** Distinct values and first rows *)

Section Unique.
Context {A : Type} (eqb : A -> A -> bool).

Lemma unique_In (l : list A) :
  (forall x y, In x l -> (eqb x y = true <-> x = y)) ->
  forall y, In y (Pandas.unique eqb l) <-> In y l.
Proof.
  induction l as [|x l IH]; intros H y; simpl; [tauto|].
  rewrite filter_In, IH by (intros; apply H; now right).
  split.
  - intros [E|[Hy _]]; auto.
  - intros [E|Hy]; [now left|].
    destruct (eqb x y) eqn:E.
    + left. apply (H x y); auto. now left.
    + right. split; [exact Hy|reflexivity].
Qed.

Lemma unique_NoDup (l : list A) :
  (forall x y, In x l -> (eqb x y = true <-> x = y)) ->
  NoDup (Pandas.unique eqb l).
Proof.
  induction l as [|x l IH]; intros H; simpl; [constructor|].
  constructor.
  - rewrite filter_In. intros [_ N].
    assert (E : eqb x x = true) by (apply (H x x); [now left|reflexivity]).
    rewrite E in N. discriminate.
  - apply NoDup_filter. apply IH. intros; apply H; now right.
Qed.
End Unique.

Lemma unique_values (ss : list string) :
  Pandas.unique Pandas.value_eqb (map VStr ss)
  = map VStr (Pandas.unique String.eqb ss).
Proof.
  induction ss as [|s ss IH]; simpl; [reflexivity|].
  rewrite IH. f_equal.
  generalize (Pandas.unique String.eqb ss). intros l.
  induction l as [|x l IHl]; simpl; [reflexivity|].
  destruct (String.eqb s x); simpl; now rewrite IHl.
Qed.

Lemma rmap_as_str (ss : list string) : rmap as_str (map VStr ss) = Ok ss.
Proof.
  induction ss as [|s ss IH]; simpl; [reflexivity|]. now rewrite IH.
Qed.

Lemma filter_all {A} (f : A -> bool) (l : list A) :
  (forall x, In x l -> f x = true) -> filter f l = l.
Proof.
  induction l as [|x l IH]; simpl; intros H; [reflexivity|].
  rewrite (H x) by auto. f_equal. apply IH. auto.
Qed.

Lemma list_eq_dec_key (k1 k2 : list value) :
  str_key k1 -> {k1 = k2} + {k1 <> k2}.
Proof.
  intros F. destruct (Pandas.key_eqb k1 k2) eqn:E.
  - left. now apply key_eqb_eq.
  - right. intros ->. rewrite key_eqb_refl in E; [discriminate|exact F].
Qed.

Lemma first_of_key_cons r rs seen :
  Pandas.first_of_key key_cols seen (r :: rs)
  = if Pandas.key_in (key r) seen
    then Pandas.first_of_key key_cols seen rs
    else r :: Pandas.first_of_key key_cols (key r :: seen) rs.
Proof. reflexivity. Qed.

Lemma first_of_key_spec (rs : list Row) :
  (forall r, In r rs -> str_key (key r)) ->
  forall seen,
    (forall r, In r (Pandas.first_of_key key_cols seen rs) ->
       In r rs /\ ~ In (key r) seen)
    /\ NoDup (map key (Pandas.first_of_key key_cols seen rs))
    /\ (forall r, In r rs -> ~ In (key r) seen ->
          In (key r) (map key (Pandas.first_of_key key_cols seen rs))).
Proof.
  induction rs as [|r rs IH]; intros Hs seen.
  - split; [intros r []|]. split; [constructor|]. intros r [].
  - assert (Hs' : forall x, In x rs -> str_key (key x))
      by (intros; apply Hs; now right).
    assert (Hr : str_key (key r)) by (apply Hs; now left).
    rewrite first_of_key_cons.
    destruct (Pandas.key_in (key r) seen) eqn:E.
    + apply key_in_In in E; [|exact Hr].
      destruct (IH Hs' seen) as (I1 & I2 & I3).
      split; [|split].
      * intros x Hx. destruct (I1 x Hx). split; [now right|assumption].
      * exact I2.
      * intros x [<-|Hx] N; [contradiction|]. now apply I3.
    + assert (N : ~ In (key r) seen).
      { intros H. apply key_in_In in H; [congruence|exact Hr]. }
      destruct (IH Hs' (key r :: seen)) as (I1 & I2 & I3).
      split; [|split].
      * intros x [<-|Hx]; [split; [now left|exact N]|].
        destruct (I1 x Hx) as [Hin Hn]. split; [now right|].
        intros Hk. apply Hn. now right.
      * cbn [map]. constructor; [|exact I2].
        intros Hk. apply in_map_iff in Hk. destruct Hk as (x & Ex & Hx).
        destruct (I1 x Hx) as [_ Hn]. apply Hn. left. now symmetry.
      * intros x [<-|Hx] Nx; [now left|].
        cbn [map].
        destruct (list_eq_dec_key (key r) (key x) Hr) as [Eq|Ne].
        -- left. exact Eq.
        -- right. apply I3; [exact Hx|]. intros [Ek|Hk]; auto.
Qed.

(* ================================================================= *)
(** ** The group-by and the merge of [run_quality_checks] *)

Lemma str_key_no_nan k : str_key k -> existsb Pandas.is_nan k = false.
Proof.
  induction 1 as [|v k [s ->] F IH]; simpl; [reflexivity|exact IH].
Qed.

Lemma length_key r : length (key r) = 3%nat.
Proof. reflexivity. Qed.

Lemma key_summary_row rs k :
  length k = 3%nat -> key (summary_row rs k) = k.
Proof.
  destruct k as [|a [|b [|c [|d k]]]]; try discriminate. reflexivity.
Qed.

Lemma reason_summary_row rs k :
  length k = 3%nat ->
  Pandas.cell "flag_reason" (summary_row rs k) = VStr (consolidated rs k).
Proof.
  destruct k as [|a [|b [|c [|d k]]]]; try discriminate. reflexivity.
Qed.

Lemma reason_cells (l : list Row) :
  (forall r, In r l -> exists s, Pandas.cell "flag_reason" r = VStr s) ->
  map (Pandas.cell "flag_reason") l = map VStr (map reason_of l).
Proof.
  induction l as [|r l IH]; intros H; simpl; [reflexivity|].
  rewrite IH by (intros; apply H; now right). f_equal.
  destruct (H r (or_introl eq_refl)) as [s Hs].
  unfold reason_of. now rewrite Hs.
Qed.

Lemma join_reasons_group rs k :
  (forall r, In r rs -> exists s, Pandas.cell "flag_reason" r = VStr s) ->
  join_reasons
    (map (Pandas.cell "flag_reason")
       (filter (fun r => Pandas.key_eqb (Pandas.key_of key_cols r) k) rs))
  = Ok (VStr (consolidated rs k)).
Proof.
  intros H. unfold join_reasons.
  rewrite reason_cells.
  2:{ intros r Hr. apply filter_In in Hr. apply H, Hr. }
  rewrite unique_values, rmap_as_str. reflexivity.
Qed.

Lemma groupby_summary cat :
  Pandas.all_mem key_cols (columns cat) = true ->
  Pandas.mem "flag_reason" (columns cat) = true ->
  (forall r, In r (rows cat) -> str_key (key r)) ->
  (forall r, In r (rows cat) ->
     exists s, Pandas.cell "flag_reason" r = VStr s) ->
  Pandas.groupby_apply cat key_cols "flag_reason" join_reasons
  = Ok (mkDataFrame (key_cols ++ ["flag_reason"])
          (map (summary_row (rows cat))
             (Pandas.sorted Pandas.key_leb
                (Pandas.unique Pandas.key_eqb (map key (rows cat)))))).
Proof.
  intros Hk Hf Hs Hr. unfold Pandas.groupby_apply. rewrite Hk, Hf.
  cbn [andb].
  rewrite (filter_all _ (rows cat)).
  2:{ intros r Hin. apply negb_true_iff. apply str_key_no_nan.
      exact (Hs r Hin). }
  change (map (Pandas.key_of key_cols) (rows cat))
    with (map key (rows cat)).
  rewrite (rmap_pure _ (summary_row (rows cat))); [reflexivity|].
  intros k _. rewrite (join_reasons_group _ _ Hr). reflexivity.
Qed.

Lemma filter_summary rs ks k :
  NoDup ks -> In k ks -> str_key k ->
  (forall k', In k' ks -> length k' = 3%nat) ->
  filter (fun r => Pandas.key_eqb k (Pandas.key_of key_cols r))
    (map (summary_row rs) ks)
  = [summary_row rs k].
Proof.
  intros N Hin F Hl. induction N as [|k' ks Hn N IH]; [destruct Hin|].
  cbn [map filter].
  change (Pandas.key_of key_cols (summary_row rs k'))
    with (key (summary_row rs k')).
  rewrite key_summary_row by (apply Hl; now left).
  destruct (Pandas.key_eqb k k') eqn:E.
  - apply key_eqb_eq in E; [|exact F]. subst k'. f_equal.
    apply filter_none. intros x Hx. apply in_map_iff in Hx.
    destruct Hx as (k'' & <- & Hk'').
    change (Pandas.key_of key_cols (summary_row rs k''))
      with (key (summary_row rs k'')).
    rewrite key_summary_row by (apply Hl; now right).
    destruct (Pandas.key_eqb k k'') eqn:E'; [|reflexivity].
    apply key_eqb_eq in E'; [|exact F]. subst. contradiction.
  - destruct Hin as [->|Hin].
    + rewrite key_eqb_refl in E; [discriminate|exact F].
    + apply IH; [exact Hin|]. intros; apply Hl; now right.
Qed.

Lemma flat_map_singleton {A B} (f : A -> list B) (g : A -> B) l :
  (forall x, In x l -> f x = [g x]) -> flat_map f l = map g l.
Proof.
  induction l as [|x l IH]; intros H; [reflexivity|].
  cbn [flat_map map]. rewrite (H x) by now left.
  rewrite IH by (intros; apply H; now right). reflexivity.
Qed.

Lemma summary_extra :
  filter (fun c => negb (Pandas.mem c key_cols))
    (key_cols ++ ["flag_reason"])
  = ["flag_reason"].
Proof. reflexivity. Qed.

Lemma merge_summary (L : DataFrame) rs ks :
  Pandas.all_mem key_cols (columns L) = true ->
  NoDup ks ->
  (forall k, In k ks -> length k = 3%nat) ->
  (forall l, In l (rows L) -> str_key (key l) /\ In (key l) ks) ->
  Pandas.merge_left L
    (mkDataFrame (key_cols ++ ["flag_reason"]) (map (summary_row rs) ks))
    key_cols false
  = Ok (mkDataFrame (columns L ++ ["flag_reason"])
          (map (fun l =>
                  l ++ [("flag_reason", VStr (consolidated rs (key l)))])
             (rows L))).
Proof.
  intros Hk N Hl Hrows. unfold Pandas.merge_left. cbn [columns rows].
  rewrite Hk. cbn [andb]. rewrite summary_extra.
  change (Pandas.all_mem key_cols (key_cols ++ ["flag_reason"])) with true.
  cbv iota. rewrite app_nil_r. do 2 f_equal.
  apply flat_map_singleton. intros l Hl'.
  destruct (Hrows l Hl') as [F Hin].
  change (Pandas.key_of key_cols l) with (key l).
  rewrite (filter_summary rs ks (key l) N Hin F Hl).
  cbn [map]. unfold Pandas.reindex. cbn [map].
  rewrite reason_summary_row by (apply Hl; exact Hin).
  rewrite app_nil_r. reflexivity.
Qed.

(* ================================================================= *)
(** ** The rows of the concatenated frame *)

Section Stream.
Variable df : DataFrame.
Hypothesis table : analytics_table df.

Let t : float := threshold df default_percentile.
Let high : string := high_reason t default_percentile.

Lemma table_keys : Pandas.all_mem key_cols (columns df) = true.
Proof. apply table. Qed.

Lemma table_str_key r : In r (rows df) -> str_key (key r).
Proof. destruct table as (_ & _ & H & _). apply H. Qed.

Lemma stream_keys :
  Pandas.all_mem key_cols (columns (flag_stream df)) = true.
Proof. rewrite all_mem_key_cols_flag_stream. exact table_keys. Qed.

Lemma stream_has_reason :
  Pandas.mem "flag_reason" (columns (flag_stream df)) = true.
Proof. rewrite mem_columns_flag_stream. simpl. apply orb_true_r. Qed.

Lemma stream_rows_eq :
  rows (flag_stream df)
  = map (stream_row df "negative_cost") (negative_rows df)
    ++ map (stream_row df high) (outlier_rows df).
Proof.
  rewrite rows_flag_stream, map_app, !map_map. reflexivity.
Qed.

Lemma key_stream_row reason r0 : key (stream_row df reason r0) = key r0.
Proof.
  unfold stream_row. rewrite key_reindex by exact stream_keys.
  apply key_with_reason.
Qed.

Lemma reason_stream_row reason r0 :
  Pandas.cell "flag_reason" (stream_row df reason r0) = VStr reason.
Proof.
  unfold stream_row. rewrite cell_reindex by exact stream_has_reason.
  apply cell_row_set_same.
Qed.

Lemma stream_row_inv r' :
  In r' (rows (flag_stream df)) ->
  exists reason r0,
    r' = stream_row df reason r0 /\ In r0 (rows df)
    /\ ((reason = "negative_cost" /\ In r0 (negative_rows df))
        \/ (reason = high /\ In r0 (outlier_rows df))).
Proof.
  rewrite stream_rows_eq, in_app_iff, !in_map_iff.
  intros [(r0 & <- & H)|(r0 & <- & H)].
  - exists "negative_cost", r0. split; [reflexivity|].
    split; [apply filter_In in H; apply H|]. left. auto.
  - exists high, r0. split; [reflexivity|].
    split; [apply filter_In in H; apply H|]. right. auto.
Qed.

Lemma stream_str_key r' :
  In r' (rows (flag_stream df)) -> str_key (key r').
Proof.
  intros H. destruct (stream_row_inv _ H) as (reason & r0 & -> & Hin & _).
  rewrite key_stream_row. now apply table_str_key.
Qed.

Lemma stream_reason_str r' :
  In r' (rows (flag_stream df)) ->
  exists s, Pandas.cell "flag_reason" r' = VStr s.
Proof.
  intros H. destruct (stream_row_inv _ H) as (reason & r0 & -> & _).
  exists reason. apply reason_stream_row.
Qed.

Lemma stream_keys_iff k :
  In k (map key (rows (flag_stream df)))
  <-> In k (map key (negative_rows df)) \/ In k (map key (outlier_rows df)).
Proof.
  rewrite stream_rows_eq, map_app, in_app_iff, !map_map.
  rewrite (map_ext (fun x => key (stream_row df "negative_cost" x)) key)
    by (intros; apply key_stream_row).
  rewrite (map_ext (fun x => key (stream_row df high x)) key)
    by (intros; apply key_stream_row).
  reflexivity.
Qed.


Lemma stream_key_eqb x y :
  In x (map key (rows (flag_stream df))) ->
  Pandas.key_eqb x y = true <-> x = y.
Proof.
  intros H. apply key_eqb_eq. apply in_map_iff in H.
  destruct H as (r' & <- & Hr'). now apply stream_str_key.
Qed.

Lemma group_keys_NoDup : NoDup (group_keys df).
Proof.
  unfold group_keys.
  eapply Permutation_NoDup; [apply Permutation_sym, sorted_perm|].
  apply unique_NoDup. exact stream_key_eqb.
Qed.

Lemma group_keys_In k :
  In k (group_keys df) <-> In k (map key (rows (flag_stream df))).
Proof.
  unfold group_keys. rewrite <- (unique_In Pandas.key_eqb _ stream_key_eqb).
  split; apply Permutation_in;
    [apply sorted_perm | apply Permutation_sym, sorted_perm].
Qed.

Lemma group_keys_length k : In k (group_keys df) -> length k = 3%nat.
Proof.
  rewrite group_keys_In, in_map_iff. intros (r' & <- & _). reflexivity.
Qed.
End Stream.

(* ================================================================= *)
(** ** The flagged frame *)

Lemma mem_filter c (f : string -> bool) cs :
  Pandas.mem c cs = true -> f c = true -> Pandas.mem c (filter f cs) = true.
Proof.
  rewrite !mem_In, filter_In. auto.
Qed.

Lemma all_mem_drop_reason cs :
  Pandas.all_mem key_cols cs = true ->
  Pandas.all_mem key_cols
    (filter (fun c => negb (String.eqb "flag_reason" c)) cs) = true.
Proof.
  intros H. unfold Pandas.all_mem. apply forallb_forall. intros c Hc.
  apply mem_filter; [eapply all_mem_In; eauto|].
  destruct Hc as [<-|[<-|[<-|[]]]]; reflexivity.
Qed.

Section Flagged.
Variable df : DataFrame.
Hypothesis table : analytics_table df.

(** The rows that [drop_duplicates] keeps. *)
Lemma deduped_rows l :
  In l (Pandas.first_of_key key_cols []
          (map (Pandas.row_drop "flag_reason") (rows (flag_stream df)))) ->
  exists r',
    In r' (rows (flag_stream df))
    /\ l = Pandas.row_drop "flag_reason" r'
    /\ key l = key r' /\ str_key (key l).
Proof.
  intros H.
  assert (Hs : forall r,
             In r (map (Pandas.row_drop "flag_reason")
                     (rows (flag_stream df)))
             -> str_key (key r)).
  { intros r Hr. apply in_map_iff in Hr. destruct Hr as (r' & <- & Hr').
    rewrite key_row_drop_reason. now apply (stream_str_key df table). }
  destruct (first_of_key_spec _ Hs []) as (I1 & _).
  destruct (I1 l H) as [Hin _]. apply in_map_iff in Hin.
  destruct Hin as (r' & <- & Hr'). exists r'.
  split; [exact Hr'|]. split; [reflexivity|].
  rewrite key_row_drop_reason. split; [reflexivity|].
  now apply (stream_str_key df table).
Qed.

Lemma consolidate_stream : consolidate (flag_stream df) = Ok (flagged_frame df).
Proof.
  unfold consolidate, flagged_frame.
  destruct (Pandas.empty (flag_stream df)) eqn:Em; cbn [negb]; cbv iota;
    [reflexivity|].
  rewrite groupby_summary.
  2:{ exact (stream_keys df table). }
  2:{ exact (stream_has_reason df). }
  2:{ exact (stream_str_key df table). }
  2:{ exact (stream_reason_str df). }
  cbn [rbind]. unfold Pandas.drop.
  rewrite (stream_has_reason df). cbn [rbind].
  unfold Pandas.drop_duplicates. cbn [columns rows].
  rewrite (all_mem_drop_reason _ (stream_keys df table)). cbn [rbind].
  fold (group_keys df).
  rewrite (merge_summary _ (rows (flag_stream df)) (group_keys df)).
  - reflexivity.
  - cbn [columns]. exact (all_mem_drop_reason _ (stream_keys df table)).
  - exact (group_keys_NoDup df table).
  - exact (group_keys_length df table).
  - cbn [rows]. intros l Hl.
    destruct (deduped_rows l Hl) as (r' & Hr' & _ & Ek & F).
    split; [exact F|]. rewrite Ek.
    apply (group_keys_In df table). now apply in_map.
Qed.

Lemma flagged_empty_iff :
  Pandas.empty (flagged_frame df) = Pandas.empty (flag_stream df).
Proof.
  unfold flagged_frame.
  destruct (Pandas.empty (flag_stream df)) eqn:Em; [exact Em|].
  unfold Pandas.empty in *. cbn [rows columns].
  destruct (rows (flag_stream df)) as [|r rs] eqn:Er; [discriminate|].
  cbn [map].
  change (Pandas.first_of_key key_cols []
            (Pandas.row_drop "flag_reason" r
             :: map (Pandas.row_drop "flag_reason") rs))
    with (Pandas.row_drop "flag_reason" r
          :: Pandas.first_of_key key_cols
               [key (Pandas.row_drop "flag_reason" r)]
               (map (Pandas.row_drop "flag_reason") rs)).
  cbn [map].
  destruct (filter _ (columns (flag_stream df)) ++ ["flag_reason"]) eqn:Ec;
    [|reflexivity].
  apply app_eq_nil in Ec. destruct Ec; discriminate.
Qed.

Lemma rows_stream_empty :
  Pandas.empty (flag_stream df) = true -> rows (flag_stream df) = [].
Proof.
  rewrite empty_flag_stream, stream_rows_eq.
  destruct (negative_rows df); [|discriminate].
  destruct (outlier_rows df); [reflexivity|discriminate].
Qed.

(** The keys of the flagged frame are those of the stream, once each. *)
Lemma flagged_keys :
  NoDup (keys (flagged_frame df))
  /\ (forall k, In k (keys (flagged_frame df))
                <-> In k (map key (rows (flag_stream df))))
  /\ (forall row, In row (rows (flagged_frame df)) -> str_key (key row)).
Proof.
  unfold keys, flagged_frame.
  destruct (Pandas.empty (flag_stream df)) eqn:Em.
  - rewrite (rows_stream_empty Em). cbn [map].
    split; [constructor|]. split; [tauto|]. intros row [].
  - cbn [rows].
    assert (Hs : forall r,
               In r (map (Pandas.row_drop "flag_reason")
                       (rows (flag_stream df)))
               -> str_key (key r)).
    { intros r Hr. apply in_map_iff in Hr. destruct Hr as (r' & <- & Hr').
      rewrite key_row_drop_reason. now apply (stream_str_key df table). }
    destruct (first_of_key_spec _ Hs []) as (I1 & I2 & I3).
    assert (Ek : map key
                   (map (fun l =>
                      l ++ [("flag_reason",
                             VStr (consolidated (rows (flag_stream df))
                                     (key l)))])
                      (Pandas.first_of_key key_cols []
                         (map (Pandas.row_drop "flag_reason")
                            (rows (flag_stream df)))))
                 = map key
                     (Pandas.first_of_key key_cols []
                        (map (Pandas.row_drop "flag_reason")
                           (rows (flag_stream df))))).
    { rewrite map_map. apply map_ext_in. intros l Hl.
      apply key_app. destruct (deduped_rows l Hl) as (_ & _ & _ & _ & F).
      exact F. }
    rewrite Ek. split; [exact I2|]. split.
    + intros k. split.
      * intros Hk. apply in_map_iff in Hk. destruct Hk as (l & <- & Hl).
        destruct (deduped_rows l Hl) as (r' & Hr' & _ & -> & _).
        now apply in_map.
      * intros Hk. apply in_map_iff in Hk. destruct Hk as (r' & <- & Hr').
        rewrite <- (key_row_drop_reason r'). apply I3; [|intros []].
        now apply in_map.
    + intros row Hrow. apply in_map_iff in Hrow.
      destruct Hrow as (l & <- & Hl).
      destruct (deduped_rows l Hl) as (_ & _ & _ & _ & F).
      now rewrite key_app.
Qed.

End Flagged.

(* ================================================================= *)
(** ** The run on an analytics table: the flagged frame *)





Lemma quality_frames_flagged df :
  analytics_table df ->
  quality_frames df =
    rbind (clean df (flagged_frame df)) (fun cleaned =>
      Ok (cleaned, flagged_frame df)).
Proof.
  intros T. pose proof T as (W & K & S & Hc & He & M).
  rewrite (quality_frames_numeric _ Hc He).
  rewrite (consolidate_stream df T).
  reflexivity.
Qed.

(* ================================================================= *)
(** ** The cleaned frame *)

Lemma select_map_map {A B} (g : A -> B) (f : A -> bool) (l : list A) :
  Pandas.select (map g l) (map f l) = map g (filter f l).
Proof.
  induction l as [|x l IH]; simpl; [reflexivity|].
  destruct (f x); simpl; now rewrite IH.
Qed.

Lemma all_mem_app_l ks a b :
  Pandas.all_mem ks a = true -> Pandas.all_mem ks (a ++ b) = true.
Proof.
  unfold Pandas.all_mem. rewrite !forallb_forall. intros H c Hc.
  rewrite mem_app, (H c Hc). reflexivity.
Qed.

Lemma count_key (xs : list Row) k :
  NoDup (map key xs) -> str_key k ->
  length (filter (fun r => Pandas.key_eqb k (Pandas.key_of key_cols r))
            (map (Pandas.reindex key_cols) xs))
  = if Pandas.key_in k (map key xs) then 1%nat else 0%nat.
Proof.
  intros N F. induction xs as [|x xs IH]; [reflexivity|].
  cbn [map] in N. inversion N as [|? ? Nx N']; subst.
  cbn [map filter].
  change (Pandas.key_of key_cols (Pandas.reindex key_cols x))
    with (key (Pandas.reindex key_cols x)).
  rewrite (key_reindex key_cols x eq_refl).
  unfold Pandas.key_in. cbn [existsb]. fold (Pandas.key_in k (map key xs)).
  destruct (Pandas.key_eqb k (key x)) eqn:E; cbn [orb length].
  - apply key_eqb_eq in E; [|exact F]. subst k.
    rewrite (IH N').
    destruct (Pandas.key_in (key x) (map key xs)) eqn:Ein; [|reflexivity].
    apply key_in_In in Ein; [contradiction|exact F].
  - exact (IH N').
Qed.

Lemma no_indicator_clash cols :
  (forall c, In c Pandas.indicator_labels -> Pandas.mem c cols = false) ->
  existsb (fun c => Pandas.mem c (cols ++ key_cols)) Pandas.indicator_labels
  = false.
Proof.
  intros M. unfold Pandas.indicator_labels. cbn [existsb].
  rewrite !mem_app.
  rewrite !M by (unfold Pandas.indicator_labels; simpl; auto).
  reflexivity.
Qed.

Section Cleaned.
Variable df : DataFrame.
Hypothesis table : analytics_table df.

Lemma row_has_no_merge l : In l (rows df) -> has "_merge" l = false.
Proof.
  intros Hl. destruct table as (W & _ & _ & _ & _ & M).
  unfold has. rewrite (W l Hl). apply M. right. right. now left.
Qed.

Lemma flagged_has_keys :
  Pandas.empty (flagged_frame df) = false ->
  Pandas.all_mem key_cols (columns (flagged_frame df)) = true.
Proof.
  rewrite (flagged_empty_iff df). intros Em.
  unfold flagged_frame. rewrite Em. cbn [columns].
  apply all_mem_app_l, all_mem_drop_reason. exact (stream_keys df table).
Qed.

(** The row that the merge with indicator builds from an input row. *)
Lemma merged_row l :
  In l (rows df) ->
  match
    filter (fun r => Pandas.key_eqb (Pandas.key_of key_cols l)
                       (Pandas.key_of key_cols r))
      (map (Pandas.reindex key_cols) (rows (flagged_frame df)))
  with
  | [] => [l ++ map (fun c => (c, VNaN)) [] ++ [("_merge", VStr "left_only")]]
  | ms => map (fun r => l ++ Pandas.reindex [] r ++ [("_merge", VStr "both")])
            ms
  end
  = [l ++ [("_merge",
            VStr (if Pandas.key_in (key l) (keys (flagged_frame df))
                  then "both" else "left_only"))]].
Proof.
  intros Hl. destruct (flagged_keys df table) as (N & _ & _).
  assert (F : str_key (key l)) by now apply (table_str_key df table).
  pose proof (count_key (rows (flagged_frame df)) (key l) N F) as C.
  change (Pandas.key_of key_cols l) with (key l).
  fold (keys (flagged_frame df)) in C.
  destruct (Pandas.key_in (key l) (keys (flagged_frame df))).
  - destruct (filter _ _) as [|m [|m' ms]]; try discriminate C. reflexivity.
  - destruct (filter _ _) as [|m ms]; try discriminate C. reflexivity.
Qed.

Lemma clean_table : clean df (flagged_frame df) = Ok (cleaned_frame df).
Proof.
  unfold clean, cleaned_frame.
  destruct (Pandas.empty (flagged_frame df)) eqn:Em; [reflexivity|].
  pose proof table as (W & K & S & Hc & He & M).
  unfold Pandas.getcols. rewrite (flagged_has_keys Em). cbn [rbind].
  unfold Pandas.merge_left. cbn [columns rows]. rewrite K.
  change (Pandas.all_mem key_cols key_cols) with true.
  rewrite (no_indicator_clash _ M).
  cbn [andb]. cbv iota.
  change (filter (fun c => negb (Pandas.mem c key_cols)) key_cols)
    with (@nil string).
  rewrite (flat_map_singleton _ _ _ merged_row).
  cbn [rbind]. unfold Pandas.getcol. cbn [columns rows].
  rewrite !mem_app.
  change (Pandas.mem "_merge" ["_merge"]) with true.
  rewrite !orb_true_r. cbn [rbind].
  unfold Pandas.filter_rows, Pandas.series_eq. cbn [columns rows].
  rewrite !map_map.
  rewrite (map_ext_in _
             (fun l => negb (Pandas.key_in (key l) (keys (flagged_frame df))))).
  2:{ intros l Hl. rewrite cell_app, (row_has_no_merge l Hl).
      now destruct (Pandas.key_in (key l) (keys (flagged_frame df))). }
  rewrite select_map_map.
  unfold Pandas.drop. cbn [columns rows]. rewrite !mem_app.
  change (Pandas.mem "_merge" ["_merge"]) with true.
  rewrite !orb_true_r. do 2 f_equal.
  - rewrite app_nil_l, filter_app. cbn [filter].
    change (negb ("_merge" =? "_merge")) with false. cbv iota.
    rewrite app_nil_r. apply filter_all. intros c Hin.
    apply negb_true_iff. destruct (String.eqb_spec "_merge" c) as [<-|];
      [|reflexivity].
    apply mem_In in Hin.
    rewrite M in Hin by (right; right; now left). discriminate.
  - rewrite map_map. rewrite <- (map_id (filter _ (rows df))) at 2.
    apply map_ext_in. intros l Hl. apply filter_In in Hl.
    rewrite row_drop_app, (row_drop_absent _ _ (row_has_no_merge l (proj1 Hl))).
    apply app_nil_r.
Qed.
End Cleaned.

Lemma quality_frames_table df :
  analytics_table df ->
  quality_frames df = Ok (cleaned_frame df, flagged_frame df).
Proof.
  intros T. rewrite (quality_frames_flagged df T), (clean_table df T).
  reflexivity.
Qed.

(* ================================================================= *)
(** ** The run on an analytics table *)

Lemma run_on_table h r df :
  nth_error h r = Some df ->
  analytics_table df ->
  exists h' rc rf,
    run_quality_checks r h = (Ok (rc, rf), h')
    /\ nth_error h' rc = Some (cleaned_frame df)
    /\ nth_error h' rf = Some (flagged_frame df).
Proof.
  intros E T. destruct (run_quality_checks_run _ _ _ E) as [l R].
  rewrite (quality_frames_table df T) in R.
  destruct R as (rc & rf & Run & Ec & Ef & _).
  now exists (h ++ l), rc, rf.
Qed.

Lemma in_negative_keys df k :
  In k (map key (negative_rows df))
  <-> exists row0, In row0 (rows df) /\ key row0 = k
                   /\ negative_cost row0 = true.
Proof.
  unfold negative_rows. rewrite in_map_iff. split.
  - intros (x & <- & Hx). apply filter_In in Hx. exists x. tauto.
  - intros (x & Hx & <- & Hn). exists x. split; [reflexivity|].
    apply filter_In. auto.
Qed.

Lemma in_outlier_keys df k :
  In k (map key (outlier_rows df))
  <-> exists row0, In row0 (rows df) /\ key row0 = k
                   /\ exceeds (threshold df default_percentile) row0 = true.
Proof.
  unfold outlier_rows. rewrite in_map_iff. split.
  - intros (x & <- & Hx). apply filter_In in Hx. exists x. tauto.
  - intros (x & Hx & <- & Hn). exists x. split; [reflexivity|].
    apply filter_In. auto.
Qed.


Lemma tiny_table : analytics_table tiny.
Proof.
  split; [|split; [|split; [|split; [|split]]]].
  - intros r [<-|[<-|[<-|[]]]]; reflexivity.
  - reflexivity.
  - intros r [<-|[<-|[<-|[]]]]; repeat constructor; eexists; reflexivity.
  - exact tiny_numeric_cost.
  - exact tiny_numeric_encounters.
  - intros c [<-|[<-|[<-|[]]]]; reflexivity.
Qed.


Lemma rows_cleaned_frame df :
  analytics_table df ->
  rows (cleaned_frame df)
  = filter (fun l =>
              negb (Pandas.key_in (key l) (keys (flagged_frame df))))
      (rows df).
Proof.
  intros T. unfold cleaned_frame.
  destruct (Pandas.empty (flagged_frame df)) eqn:Em; [|reflexivity].
  rewrite (flagged_empty_iff df) in Em.
  pose proof (rows_stream_empty df Em) as Er.
  assert (Ek : keys (flagged_frame df) = []).
  { unfold keys, flagged_frame. rewrite Em, Er. reflexivity. }
  rewrite Ek. symmetry. apply filter_all. reflexivity.
Qed.

Lemma NoDup_map_filter {A B} (g : A -> B) (f : A -> bool) (l : list A) :
  NoDup (map g l) -> NoDup (map g (filter f l)).
Proof.
  induction l as [|x l IH]; simpl; intros N; [constructor|].
  inversion N as [|? ? Nx N']; subst.
  destruct (f x); simpl; [|now apply IH].
  constructor; [|now apply IH].
  intros H. apply Nx. apply in_map_iff in H. destruct H as (y & E & Hy).
  apply in_map_iff. exists y. split; [exact E|].
  apply filter_In in Hy. apply Hy.
Qed.

(** C1.  On an analytics table whose primary keys are unique,
    [run_quality_checks] returns a cleaned and a flagged frame in which no
    key appears twice, no key appears in both, and the keys of the two are
    together the keys of the input; hence the two frames have together as
    many rows as the input has distinct keys. *)
Theorem partition_of_unique_keys h r df :
  nth_error h r = Some df ->
  analytics_table df ->
  NoDup (keys df) ->
  exists h' rc rf cleaned flagged,
    run_quality_checks r h = (Ok (rc, rf), h')
    /\ nth_error h' rc = Some cleaned
    /\ nth_error h' rf = Some flagged
    /\ NoDup (keys cleaned)
    /\ NoDup (keys flagged)
    /\ (forall k, In k (keys cleaned) -> ~ In k (keys flagged))
    /\ (forall k, In k (keys df) <-> In k (keys cleaned) \/ In k (keys flagged))
    /\ exists distinct,
         NoDup distinct
         /\ (forall k, In k distinct <-> In k (keys df))
         /\ (length (rows cleaned) + length (rows flagged))%nat
            = length distinct.
Proof.
  intros E T Nin.
  destruct (run_on_table _ _ _ E T) as (h' & rc & rf & Run & Ec & Ef).
  exists h', rc, rf, (cleaned_frame df), (flagged_frame df).
  destruct (flagged_keys df T) as (N & Hk & Hs).
  set (fk := keys (flagged_frame df)) in *.
  set (p := fun l : Row => Pandas.key_in (key l) fk).
  assert (Rc : rows (cleaned_frame df) = filter (fun l => negb (p l)) (rows df))
    by exact (rows_cleaned_frame df T).
  assert (Hp : forall l, In l (rows df) -> (p l = true <-> In (key l) fk)).
  { intros l Hl. apply key_in_In. now apply (table_str_key df T). }
  assert (Sub : forall k, In k fk -> In k (keys df)).
  { intros k Hin. apply Hk in Hin. apply (stream_keys_iff df T) in Hin.
    destruct Hin as [Hin|Hin]; apply in_map_iff in Hin;
      destruct Hin as (x & <- & Hx); apply filter_In in Hx;
      apply in_map; apply Hx. }
  split; [exact Run|]. split; [exact Ec|]. split; [exact Ef|].
  unfold keys at 1. rewrite Rc. split; [now apply NoDup_map_filter|].
  split; [exact N|]. split; [|split].
  - intros k Hc. unfold keys in Hc. rewrite Rc in Hc.
    apply in_map_iff in Hc. destruct Hc as (l & <- & Hl).
    apply filter_In in Hl. destruct Hl as [Hl Hn].
    rewrite <- (Hp l Hl). apply negb_true_iff in Hn. congruence.
  - intros k. unfold keys at 2. rewrite Rc. split.
    + intros Hin. unfold keys in Hin. apply in_map_iff in Hin.
      destruct Hin as (l & <- & Hl). destruct (p l) eqn:Epl.
      * right. now apply (Hp l Hl).
      * left. apply in_map. apply filter_In. split; [exact Hl|].
        now rewrite Epl.
    + intros [Hc|Hf]; [|now apply Sub].
      apply in_map_iff in Hc. destruct Hc as (l & <- & Hl).
      apply filter_In in Hl. apply in_map. apply Hl.
  - exists (keys df). split; [exact Nin|]. split; [tauto|].
    unfold keys. rewrite length_map.
    rewrite <- (filter_length p (rows df)), Nat.add_comm. f_equal.
    rewrite <- (length_map key (rows (flagged_frame df))).
    rewrite <- (length_map key (filter p (rows df))).
    apply Permutation_length. apply NoDup_Permutation.
    + exact N.
    + now apply NoDup_map_filter.
    + intros k. fold (keys (flagged_frame df)). fold fk. split.
      * intros Hin. pose proof (Sub k Hin) as Hd. unfold keys in Hd.
        apply in_map_iff in Hd. destruct Hd as (l & <- & Hl).
        apply in_map. apply filter_In. split; [exact Hl|].
        now apply (Hp l Hl).
      * intros Hin. apply in_map_iff in Hin. destruct Hin as (l & <- & Hl).
        apply filter_In in Hl. destruct Hl as [Hl Ht]. now apply (Hp l Hl).
Qed.

Lemma tiny_unique_keys : NoDup (keys tiny).
Proof.
  repeat constructor; simpl; intuition discriminate.
Qed.

Lemma partition_of_unique_keys_witness :
  exists h' rc rf cleaned flagged,
    run_quality_checks 0%nat [tiny] = (Ok (rc, rf), h')
    /\ nth_error h' rc = Some cleaned
    /\ nth_error h' rf = Some flagged
    /\ (forall k, In k (keys cleaned) -> ~ In k (keys flagged))
    /\ (forall k, In k (keys tiny)
                  <-> In k (keys cleaned) \/ In k (keys flagged)).
Proof.
  destruct (partition_of_unique_keys [tiny] 0%nat tiny eq_refl tiny_table
              tiny_unique_keys)
    as (h' & rc & rf & cleaned & flagged & Run & Ec & Ef & _ & _ & D & U & _).
  exists h', rc, rf, cleaned, flagged. auto.
Defined.

(* ================================================================= *)
(** ** The unit tests of the repository, on the model *)

Example test_detects_negative_cost :
  option_map (fun f => map key (rows f))
    (returned (flag_negative_costs 0%nat [sample_analytics_df]))
  = Some [[VStr "P002"; VStr "F002"; VStr "2025-01"]].
Proof. reflexivity. Qed.

Example test_detects_outlier :
  option_map (fun f => map (fun r => (key r, Pandas.cell "flag_reason" r))
                         (rows f))
    (returned (flag_high_encounter_counts 0%nat default_percentile
                 [sample_analytics_df]))
  = Some [([VStr "P010"; VStr "F003"; VStr "2025-01"],
           VStr "high_encounter_count (>45, p99)")].
Proof. reflexivity. Qed.

Example test_cleaned_plus_flagged_covers_all_rows :
  option_map (fun cf => (length (rows (fst cf)), length (rows (snd cf))))
    (returned_pair (run_quality_checks 0%nat [sample_analytics_df]))
  = Some (10%nat, 2%nat).
Proof. reflexivity. Qed.

Example test_flagged_reasons :
  option_map (fun cf => map (Pandas.cell "flag_reason") (rows (snd cf)))
    (returned_pair (run_quality_checks 0%nat [sample_analytics_df]))
  = Some [VStr "negative_cost"; VStr "high_encounter_count (>45, p99)"].
Proof. reflexivity. Qed.

Example test_empty_dataframe :
  option_map (fun cf => (length (rows (fst cf)), length (rows (snd cf))))
    (returned_pair (run_quality_checks 0%nat [mkDataFrame schema []]))
  = Some (0%nat, 0%nat).
Proof. reflexivity. Qed.

(* ================================================================= *)
(** ** Failures of the checks *)

Lemma rmap_err {A B} (f : A -> result B) (l : list A) e :
  (exists x, In x l /\ f x = Err e) ->
  (forall x e', In x l -> f x = Err e' -> e' = e) ->
  rmap f l = Err e.
Proof.
  induction l as [|x l IH]; intros (y & Hy & Ey) U; [destruct Hy|].
  cbn [rmap]. destruct (f x) as [b|e'] eqn:Ex; cbn [rbind].
  - destruct Hy as [->|Hy]; [congruence|].
    rewrite IH; [reflexivity| |].
    + now exists y.
    + intros z e'' Hz. apply U. now right.
  - f_equal. apply (U x); [now left|exact Ex].
Qed.

Lemma series_lt_string (rs : list Row) c x :
  (exists row s, In row rs /\ Pandas.cell c row = VStr s) ->
  Pandas.series_lt (map (Pandas.cell c) rs) x = Err TypeError.
Proof.
  intros (row & s & Hin & Hs). unfold Pandas.series_lt. apply rmap_err.
  - exists (VStr s). split; [|reflexivity].
    rewrite <- Hs. now apply in_map.
  - intros v e' _. destruct v; simpl; congruence.
Qed.

Lemma numbers_string (rs : list Row) c :
  (exists row s, In row rs /\ Pandas.cell c row = VStr s) ->
  Pandas.numbers (map (Pandas.cell c) rs) = Err TypeError.
Proof.
  intros (row & s & Hin & Hs).
  induction rs as [|r rs IH]; [destruct Hin|]. cbn [map Pandas.numbers].
  destruct (Pandas.cell c r) as [s'|z|q|] eqn:Ec; cbn [Pandas.to_num rbind];
    try reflexivity;
    (destruct Hin as [->|Hin]; [congruence|]); now rewrite (IH Hin).
Qed.

(** X1.  [flag_negative_costs] fails with [KeyError] on a table without a
    [total_cost] column and with [TypeError] on a table whose [total_cost]
    column holds a string; in both cases nothing has been built: the store
    is as the call found it. *)
Theorem flag_negative_costs_failures h r df :
  nth_error h r = Some df ->
  (Pandas.mem "total_cost" (columns df) = false ->
   flag_negative_costs r h = (Err KeyError, h))
  /\ (Pandas.mem "total_cost" (columns df) = true ->
      (exists row s, In row (rows df)
                     /\ Pandas.cell "total_cost" row = VStr s) ->
      flag_negative_costs r h = (Err TypeError, h)).
Proof.
  intros E. rewrite (flag_negative_costs_run _ _ _ E).
  unfold neg_cost_mask, Pandas.getcol. split.
  - intros ->. reflexivity.
  - intros -> Hs. cbn [rbind]. now rewrite (series_lt_string _ _ _ Hs).
Qed.

Lemma flag_negative_costs_failures_witness :
  flag_negative_costs 0%nat
    [mkDataFrame ["patient_id"] [[("patient_id", VStr "P001")]]]
  = (Err KeyError,
     [mkDataFrame ["patient_id"] [[("patient_id", VStr "P001")]]]).
Proof.
  apply (flag_negative_costs_failures
           [mkDataFrame ["patient_id"] [[("patient_id", VStr "P001")]]]
           0%nat _ eq_refl).
  reflexivity.
Defined.

(** X2.  [flag_high_encounter_counts] fails with [KeyError] on a table
    without a [total_encounters] column, whatever the percentile, a
    percentile that the quantile would refuse included; with a percentile
    from 0 to 1 it fails with [TypeError] when the column holds a string.
    The store is as the call found it. *)
Theorem flag_high_encounter_counts_failures h r df p :
  nth_error h r = Some df ->
  (Pandas.mem "total_encounters" (columns df) = false ->
   flag_high_encounter_counts r p h = (Err KeyError, h))
  /\ (Pandas.mem "total_encounters" (columns df) = true ->
      0 <= p <= 1 ->
      (exists row s, In row (rows df)
                     /\ Pandas.cell "total_encounters" row = VStr s) ->
      flag_high_encounter_counts r p h = (Err TypeError, h)).
Proof.
  intros E. rewrite (flag_high_encounter_counts_run _ _ _ p E).
  unfold high_enc_mask, Pandas.getcol. split.
  - intros ->. reflexivity.
  - intros -> Hp Hs. cbn [rbind]. unfold Pandas.quantile.
    rewrite (valid_percentile _ Hp), (numbers_string _ _ Hs). reflexivity.
Qed.

Lemma flag_high_encounter_counts_failures_witness :
  flag_high_encounter_counts 0%nat (3 # 2)
    [mkDataFrame ["patient_id"] [[("patient_id", VStr "P001")]]]
  = (Err KeyError,
     [mkDataFrame ["patient_id"] [[("patient_id", VStr "P001")]]]).
Proof.
  apply (flag_high_encounter_counts_failures
           [mkDataFrame ["patient_id"] [[("patient_id", VStr "P001")]]]
           0%nat _ (3 # 2) eq_refl).
  reflexivity.
Defined.

(** X3.  [run_quality_checks] runs the checks in order and stops at the
    first failure: without a [total_cost] column it fails with [KeyError]
    before anything is built; with a numeric [total_cost] column and no
    [total_encounters] column it fails with [KeyError] after the
    negative-cost check has built its frames, which stay in the store. *)
Theorem run_quality_checks_missing_measure h r df :
  nth_error h r = Some df ->
  (Pandas.mem "total_cost" (columns df) = false ->
   run_quality_checks r h = (Err KeyError, h))
  /\ (numeric_column df "total_cost" ->
      Pandas.mem "total_encounters" (columns df) = false ->
      run_quality_checks r h
      = (Err KeyError,
         h ++ [Pandas.filter_rows df (map negative_cost (rows df));
               tagged df (map negative_cost (rows df)) "negative_cost"])).
Proof.
  intros E. pose proof (run_quality_checks_steps _ _ _ E) as S. split.
  - intros Hc. unfold neg_cost_mask, Pandas.getcol in S.
    rewrite Hc in S. exact S.
  - intros Hn He. rewrite (neg_cost_mask_numeric _ Hn) in S.
    unfold high_enc_mask, Pandas.getcol in S. rewrite He in S. exact S.
Qed.

Lemma run_quality_checks_missing_measure_witness :
  run_quality_checks 0%nat
    [mkDataFrame ["patient_id"] [[("patient_id", VStr "P001")]]]
  = (Err KeyError,
     [mkDataFrame ["patient_id"] [[("patient_id", VStr "P001")]]]).
Proof.
  apply (run_quality_checks_missing_measure
           [mkDataFrame ["patient_id"] [[("patient_id", VStr "P001")]]]
           0%nat _ eq_refl).
  reflexivity.
Defined.

(* ================================================================= *)
(** ** A table that passes both checks *)

(** X4.  On any table with numeric measure columns, with or without the
    key columns, in which no row has a negative cost and no row exceeds the
    threshold, [run_quality_checks] returns: the cleaned frame is equal to
    the input, and is another object; the flagged frame has no row, and has
    the [flag_reason] column. *)
Theorem all_clean_returns_input h r df :
  nth_error h r = Some df ->
  numeric_column df "total_cost" ->
  numeric_column df "total_encounters" ->
  (forall row, In row (rows df) ->
     negative_cost row = false
     /\ exceeds (threshold df default_percentile) row = false) ->
  exists h' rc rf flagged,
    run_quality_checks r h = (Ok (rc, rf), h')
    /\ nth_error h' rc = Some df
    /\ rc <> r
    /\ nth_error h' rf = Some flagged
    /\ rows flagged = []
    /\ Pandas.mem "flag_reason" (columns flagged) = true.
Proof.
  intros E Hc He Hclean.
  assert (Hr : (r < length h)%nat) by (apply nth_error_Some; congruence).
  pose proof (run_quality_checks_steps _ _ _ E) as S.
  rewrite (neg_cost_mask_numeric _ Hc) in S.
  rewrite (high_enc_mask_numeric _ _ He default_percentile_valid) in S.
  cbv zeta in S. fold (flag_stream df) in S. destruct S as [l S].
  assert (Hn : negative_rows df = []).
  { apply filter_none. intros row Hrow. apply (Hclean row Hrow). }
  assert (Ho : outlier_rows df = []).
  { apply filter_none. intros row Hrow. apply (Hclean row Hrow). }
  pose proof (empty_flag_stream df) as Em. rewrite Hn, Ho in Em.
  cbn [app] in Em. unfold consolidate in S. rewrite Em in S.
  cbn [negb] in S. cbv iota in S. unfold clean in S. rewrite Em in S.
  destruct S as (rc & rf & Run & Ec & Ef & Lc & _).
  eexists _, rc, rf, (flag_stream df).
  split; [exact Run|]. split; [exact Ec|]. split; [lia|].
  split; [exact Ef|]. split.
  - rewrite rows_flag_stream, Hn, Ho. reflexivity.
  - apply stream_has_reason.
Qed.

Lemma all_clean_returns_input_witness :
  exists h' rc rf flagged,
    run_quality_checks 0%nat [no_patient_id] = (Ok (rc, rf), h')
    /\ nth_error h' rc = Some no_patient_id
    /\ rc <> 0%nat
    /\ nth_error h' rf = Some flagged
    /\ rows flagged = []
    /\ Pandas.mem "flag_reason" (columns flagged) = true.
Proof.
  apply (all_clean_returns_input [no_patient_id] 0%nat no_patient_id eq_refl
           (proj1 no_patient_id_measures) (proj2 no_patient_id_measures)).
  intros row [<-|[]]. split; reflexivity.
Defined.

(* ================================================================= *)
(** ** The cleaned frame of a run *)

Lemma columns_cleaned_frame df : columns (cleaned_frame df) = columns df.
Proof.
  unfold cleaned_frame. now destruct (Pandas.empty (flagged_frame df)).
Qed.

Lemma cleaned_row_inv df row :
  analytics_table df ->
  In row (rows (cleaned_frame df)) ->
  In row (rows df) /\ ~ In (key row) (keys (flagged_frame df)).
Proof.
  intros T Hrow. rewrite (rows_cleaned_frame df T) in Hrow.
  apply filter_In in Hrow. destruct Hrow as [Hin Hk].
  split; [exact Hin|]. intros Hf.
  apply (key_in_In _ _ (table_str_key df T row Hin)) in Hf.
  rewrite Hf in Hk. discriminate.
Qed.

Lemma selected_key_flagged df row :
  analytics_table df ->
  In row (rows df) ->
  negative_cost row = true
  \/ exceeds (threshold df default_percentile) row = true ->
  In (key row) (keys (flagged_frame df)).
Proof.
  intros T Hin Hsel. destruct (flagged_keys df T) as (_ & Hk & _).
  apply Hk. apply (stream_keys_iff df T).
  destruct Hsel as [Hn|Ho]; [left|right].
  - apply in_negative_keys. now exists row.
  - apply in_outlier_keys. now exists row.
Qed.

(** X5.  On an analytics table the cleaned frame has the columns of the
    input, no more and no fewer, and its rows are the input rows whose key
    is not a key of the flagged frame, unchanged and in input order. *)
Theorem cleaned_is_ordered_subset h r df :
  nth_error h r = Some df ->
  analytics_table df ->
  exists h' rc rf cleaned flagged keep,
    run_quality_checks r h = (Ok (rc, rf), h')
    /\ nth_error h' rc = Some cleaned
    /\ nth_error h' rf = Some flagged
    /\ columns cleaned = columns df
    /\ rows cleaned = filter keep (rows df)
    /\ forall row, In row (rows df) ->
         (keep row = true <-> ~ In (key row) (keys flagged)).
Proof.
  intros E T.
  destruct (run_on_table _ _ _ E T) as (h' & rc & rf & Run & Ec & Ef).
  exists h', rc, rf, (cleaned_frame df), (flagged_frame df),
    (fun l => negb (Pandas.key_in (key l) (keys (flagged_frame df)))).
  split; [exact Run|]. split; [exact Ec|]. split; [exact Ef|].
  split; [apply columns_cleaned_frame|].
  split; [exact (rows_cleaned_frame df T)|].
  intros row Hin. rewrite negb_true_iff.
  rewrite <- (key_in_In _ (keys (flagged_frame df))
                (table_str_key df T row Hin)).
  destruct (Pandas.key_in (key row) (keys (flagged_frame df)));
    split; congruence.
Qed.

Lemma cleaned_is_ordered_subset_witness :
  exists h' rc rf cleaned,
    run_quality_checks 0%nat [tiny] = (Ok (rc, rf), h')
    /\ nth_error h' rc = Some cleaned
    /\ columns cleaned = columns tiny.
Proof.
  destruct (cleaned_is_ordered_subset [tiny] 0%nat tiny eq_refl tiny_table)
    as (h' & rc & rf & cleaned & flagged & keep & Run & Ec & _ & Cols & _).
  exists h', rc, rf, cleaned.
  split; [exact Run|]. split; [exact Ec|exact Cols].
Defined.

(** X6.  On an analytics table every row of the cleaned frame is an input
    row that neither check selects: its cost is not negative (a cost that is
    a number is at least 0) and its encounter count does not exceed the
    threshold of the input table. *)
Theorem cleaned_rows_pass_both_checks h r df :
  nth_error h r = Some df ->
  analytics_table df ->
  exists h' rc rf cleaned,
    run_quality_checks r h = (Ok (rc, rf), h')
    /\ nth_error h' rc = Some cleaned
    /\ forall row, In row (rows cleaned) ->
         In row (rows df)
         /\ negative_cost row = false
         /\ exceeds (threshold df default_percentile) row = false
         /\ forall q,
              Pandas.to_num (Pandas.cell "total_cost" row) = Ok (Some q) ->
              0 <= q.
Proof.
  intros E T.
  destruct (run_on_table _ _ _ E T) as (h' & rc & rf & Run & Ec & Ef).
  exists h', rc, rf, (cleaned_frame df).
  split; [exact Run|]. split; [exact Ec|].
  intros row Hrow. destruct (cleaned_row_inv df row T Hrow) as [Hin Hk].
  assert (Hn : negative_cost row = false).
  { destruct (negative_cost row) eqn:En; [|reflexivity].
    exfalso. apply Hk. apply selected_key_flagged; auto. }
  split; [exact Hin|]. split; [exact Hn|]. split.
  - destruct (exceeds (threshold df default_percentile) row) eqn:Eo;
      [|reflexivity].
    exfalso. apply Hk. apply selected_key_flagged; auto.
  - intros q Hq. apply Qnot_lt_le. intros Hlt.
    assert (negative_cost row = true)
      by (apply negative_cost_spec; now exists q).
    congruence.
Qed.

Lemma cleaned_rows_pass_both_checks_witness :
  exists h' rc rf cleaned,
    run_quality_checks 0%nat [tiny] = (Ok (rc, rf), h')
    /\ nth_error h' rc = Some cleaned
    /\ forall row, In row (rows cleaned) -> negative_cost row = false.
Proof.
  destruct (cleaned_rows_pass_both_checks [tiny] 0%nat tiny eq_refl
              tiny_table)
    as (h' & rc & rf & cleaned & Run & Ec & H).
  exists h', rc, rf, cleaned. split; [exact Run|]. split; [exact Ec|].
  intros row Hrow. apply (H row Hrow).
Defined.

(** X7.  The negative-cost check finds nothing in the cleaned frame of a
    run: applied to the cleaned frame that [run_quality_checks] returns on
    an analytics table, [flag_negative_costs] returns a frame with no
    row. *)
Theorem cleaned_has_no_negative_cost h r df :
  nth_error h r = Some df ->
  analytics_table df ->
  exists h' rc rf h'' r' out,
    run_quality_checks r h = (Ok (rc, rf), h')
    /\ flag_negative_costs rc h' = (Ok r', h'')
    /\ nth_error h'' r' = Some out
    /\ rows out = [].
Proof.
  intros E T.
  destruct (run_on_table _ _ _ E T) as (h' & rc & rf & Run & Ec & Ef).
  assert (Hn : numeric_column (cleaned_frame df) "total_cost").
  { pose proof T as (_ & _ & _ & [Hc Hcell] & _). split.
    - now rewrite columns_cleaned_frame.
    - intros row Hrow. apply Hcell.
      now destruct (cleaned_row_inv df row T Hrow). }
  eexists h', rc, rf, _, _, _. split; [exact Run|].
  rewrite (flag_negative_costs_run _ _ _ Ec), (neg_cost_mask_numeric _ Hn).
  split; [reflexivity|]. split.
  - replace (S (length h')) with (length h' + 1)%nat by lia.
    now rewrite nth_error_alloc.
  - rewrite rows_tagged. rewrite filter_none; [reflexivity|].
    intros row Hrow. destruct (negative_cost row) eqn:En; [|reflexivity].
    exfalso. destruct (cleaned_row_inv df row T Hrow) as [Hin Hk].
    apply Hk. apply selected_key_flagged; auto.
Qed.

Lemma cleaned_has_no_negative_cost_witness :
  exists h' rc rf h'' r' out,
    run_quality_checks 0%nat [tiny] = (Ok (rc, rf), h')
    /\ flag_negative_costs rc h' = (Ok r', h'')
    /\ nth_error h'' r' = Some out
    /\ rows out = [].
Proof.
  exact (cleaned_has_no_negative_cost [tiny] 0%nat tiny eq_refl tiny_table).
Defined.

(* ================================================================= *)
(** ** The rows of the flagged frame *)

Lemma row_set_absent c v r :
  has c r = false -> Pandas.row_set c v r = r ++ [(c, v)].
Proof.
  unfold has. induction r as [|[c0 v0] r IH]; simpl; [reflexivity|].
  destruct (String.eqb_spec c c0); [discriminate|].
  intros H. now rewrite IH.
Qed.

Lemma reindex_self r :
  NoDup (map fst r) -> Pandas.reindex (map fst r) r = r.
Proof.
  unfold Pandas.reindex. induction r as [|[c v] r IH]; [reflexivity|].
  cbn [map fst]. intros N. inversion N as [|? ? Nc N']; subst.
  cbn [Pandas.cell]. rewrite String.eqb_refl. f_equal.
  rewrite <- (IH N') at 2. apply map_ext_in. intros c' Hc'.
  cbn [Pandas.cell]. destruct (String.eqb_spec c' c) as [->|]; [|reflexivity].
  contradiction.
Qed.

Section PlainColumns.
Variable df : DataFrame.
Hypothesis table : analytics_table df.
Hypothesis distinct_columns : NoDup (columns df).
Hypothesis no_reason_column :
  Pandas.mem "flag_reason" (columns df) = false.

Lemma columns_stream_plain :
  columns (flag_stream df) = columns df ++ ["flag_reason"].
Proof.
  unfold flag_stream. rewrite columns_concat_tagged, columns_tagged.
  now rewrite no_reason_column.
Qed.

Lemma stream_row_plain reason r0 :
  In r0 (rows df) ->
  stream_row df reason r0 = r0 ++ [("flag_reason", VStr reason)].
Proof.
  intros Hin. destruct table as (W & _).
  unfold stream_row, with_reason.
  rewrite row_set_absent
    by (unfold has; rewrite (W r0 Hin); exact no_reason_column).
  rewrite columns_stream_plain.
  replace (columns df ++ ["flag_reason"])
    with (map fst (r0 ++ [("flag_reason", VStr reason)]))
    by (rewrite map_app, (W r0 Hin); reflexivity).
  apply reindex_self. rewrite map_app, (W r0 Hin). cbn [map fst].
  apply NoDup_app; [exact distinct_columns|repeat constructor; intros []|].
  intros c Hc [<-|[]]. apply mem_In in Hc.
  rewrite no_reason_column in Hc. discriminate.
Qed.

Lemma stream_row_dropped reason r0 :
  In r0 (rows df) ->
  Pandas.row_drop "flag_reason" (stream_row df reason r0) = r0.
Proof.
  intros Hin. rewrite (stream_row_plain reason r0 Hin), row_drop_app.
  destruct table as (W & _).
  rewrite row_drop_absent
    by (unfold has; rewrite (W r0 Hin); exact no_reason_column).
  apply app_nil_r.
Qed.

Lemma columns_flagged_plain :
  columns (flagged_frame df) = columns df ++ ["flag_reason"].
Proof.
  unfold flagged_frame.
  destruct (Pandas.empty (flag_stream df)); [exact columns_stream_plain|].
  cbn [columns]. rewrite columns_stream_plain, filter_app. cbn [filter].
  change (negb ("flag_reason" =? "flag_reason")) with false. cbv iota.
  rewrite app_nil_r. f_equal. apply filter_all. intros c Hc.
  apply negb_true_iff. destruct (String.eqb_spec "flag_reason" c) as [<-|];
    [|reflexivity].
  apply mem_In in Hc. rewrite no_reason_column in Hc. discriminate.
Qed.

Lemma flagged_row_plain row :
  In row (rows (flagged_frame df)) ->
  exists row0,
    In row0 (rows df)
    /\ (negative_cost row0 = true
        \/ exceeds (threshold df default_percentile) row0 = true)
    /\ row = row0 ++ [("flag_reason",
                       VStr (consolidated (rows (flag_stream df))
                               (key row0)))].
Proof.
  unfold flagged_frame.
  destruct (Pandas.empty (flag_stream df)) eqn:Em.
  - rewrite (rows_stream_empty df Em). intros [].
  - cbn [rows]. intros Hrow. apply in_map_iff in Hrow.
    destruct Hrow as (l & <- & Hl).
    destruct (deduped_rows df table l Hl) as (r' & Hr' & El & _ & _).
    destruct (stream_row_inv df r' Hr') as (reason & r0 & -> & Hin & Hsel).
    rewrite (stream_row_dropped reason r0 Hin) in El. subst l.
    exists r0. split; [exact Hin|]. split; [|reflexivity].
    destruct Hsel as [[_ H]|[_ H]]; apply filter_In in H; [left|right];
      apply H.
Qed.
End PlainColumns.

(** X8.  On an analytics table with distinct column labels and no
    [flag_reason] column, the flagged frame has the columns of the input
    followed by [flag_reason], and each of its rows is an input row that a
    check selected, cell for cell, followed by its reason. *)
Theorem flagged_rows_are_input_rows h r df :
  nth_error h r = Some df ->
  analytics_table df ->
  NoDup (columns df) ->
  Pandas.mem "flag_reason" (columns df) = false ->
  exists h' rc rf flagged,
    run_quality_checks r h = (Ok (rc, rf), h')
    /\ nth_error h' rf = Some flagged
    /\ columns flagged = columns df ++ ["flag_reason"]
    /\ forall row, In row (rows flagged) ->
         exists row0 s,
           In row0 (rows df)
           /\ (negative_cost row0 = true
               \/ exceeds (threshold df default_percentile) row0 = true)
           /\ row = row0 ++ [("flag_reason", VStr s)].
Proof.
  intros E T N M.
  destruct (run_on_table _ _ _ E T) as (h' & rc & rf & Run & Ec & Ef).
  exists h', rc, rf, (flagged_frame df).
  split; [exact Run|]. split; [exact Ef|].
  split; [exact (columns_flagged_plain df M)|].
  intros row Hrow.
  destruct (flagged_row_plain df T N M row Hrow) as (row0 & Hin & Hsel & ->).
  eexists row0, _. split; [exact Hin|]. split; [exact Hsel|reflexivity].
Qed.

Lemma tiny_plain_columns :
  NoDup (columns tiny) /\ Pandas.mem "flag_reason" (columns tiny) = false.
Proof.
  split; [|reflexivity].
  repeat constructor; simpl; intuition discriminate.
Qed.

Lemma flagged_rows_are_input_rows_witness :
  exists h' rc rf flagged,
    run_quality_checks 0%nat [tiny] = (Ok (rc, rf), h')
    /\ nth_error h' rf = Some flagged
    /\ columns flagged = columns tiny ++ ["flag_reason"].
Proof.
  destruct (flagged_rows_are_input_rows [tiny] 0%nat tiny eq_refl tiny_table
              (proj1 tiny_plain_columns) (proj2 tiny_plain_columns))
    as (h' & rc & rf & flagged & Run & Ef & Cols & _).
  exists h', rc, rf, flagged.
  split; [exact Run|]. split; [exact Ef|exact Cols].
Defined.

(* ================================================================= *)
(** ** The reason of a key that one check selected *)





(* ================================================================= *)
(** ** Repeated keys *)

(** X10.  On an analytics table whose keys may repeat, the flagged frame
    still holds no key twice, no key is in both frames and every input key
    is in one of them; the two frames have together at most as many rows as
    the input. *)
Theorem partition_with_repeated_keys h r df :
  nth_error h r = Some df ->
  analytics_table df ->
  exists h' rc rf cleaned flagged,
    run_quality_checks r h = (Ok (rc, rf), h')
    /\ nth_error h' rc = Some cleaned
    /\ nth_error h' rf = Some flagged
    /\ NoDup (keys flagged)
    /\ (forall k, In k (keys cleaned) -> ~ In k (keys flagged))
    /\ (forall k, In k (keys df)
                  <-> In k (keys cleaned) \/ In k (keys flagged))
    /\ (length (rows cleaned) + length (rows flagged)
        <= length (rows df))%nat.
Proof.
  intros E T.
  destruct (run_on_table _ _ _ E T) as (h' & rc & rf & Run & Ec & Ef).
  exists h', rc, rf, (cleaned_frame df), (flagged_frame df).
  destruct (flagged_keys df T) as (N & Hk & Hs).
  assert (Sub : forall k, In k (keys (flagged_frame df)) ->
                  exists row, In row (rows df) /\ key row = k).
  { intros k Hin. apply Hk in Hin. apply (stream_keys_iff df T) in Hin.
    destruct Hin as [Hin|Hin]; apply in_map_iff in Hin;
      destruct Hin as (x & <- & Hx); apply filter_In in Hx;
      exists x; split; [apply Hx|reflexivity|apply Hx|reflexivity]. }
  split; [exact Run|]. split; [exact Ec|]. split; [exact Ef|].
  split; [exact N|]. split; [|split].
  - intros k Hc. unfold keys in Hc. apply in_map_iff in Hc.
    destruct Hc as (row & <- & Hrow).
    apply (cleaned_row_inv df row T Hrow).
  - intros k. split.
    + intros Hin. unfold keys in Hin. apply in_map_iff in Hin.
      destruct Hin as (row & <- & Hrow).
      destruct (Pandas.key_in (key row) (keys (flagged_frame df))) eqn:Ein.
      * right.
        now apply (key_in_In _ _ (table_str_key df T row Hrow)).
      * left. unfold keys. rewrite (rows_cleaned_frame df T).
        apply in_map. apply filter_In. split; [exact Hrow|].
        now rewrite Ein.
    + intros [Hc|Hf].
      * unfold keys in Hc. apply in_map_iff in Hc.
        destruct Hc as (row & <- & Hrow). apply in_map.
        apply (cleaned_row_inv df row T Hrow).
      * destruct (Sub k Hf) as (row & Hrow & <-). now apply in_map.
  - rewrite (rows_cleaned_frame df T).
    set (p := fun l : Row =>
                Pandas.key_in (key l) (keys (flagged_frame df))).
    rewrite <- (filter_length p (rows df)), Nat.add_comm.
    apply Nat.add_le_mono_r.
    rewrite <- (length_map key (rows (flagged_frame df))).
    rewrite <- (length_map key (filter p (rows df))).
    apply NoDup_incl_length; [exact N|].
    intros k Hin. destruct (Sub k Hin) as (row & Hrow & <-).
    apply in_map. apply filter_In. split; [exact Hrow|].
    unfold p. now apply (key_in_In _ _ (table_str_key df T row Hrow)).
Qed.

Lemma partition_with_repeated_keys_witness :
  exists h' rc rf cleaned flagged,
    run_quality_checks 0%nat [tiny] = (Ok (rc, rf), h')
    /\ nth_error h' rc = Some cleaned
    /\ nth_error h' rf = Some flagged
    /\ (length (rows cleaned) + length (rows flagged)
        <= length (rows tiny))%nat.
Proof.
  destruct (partition_with_repeated_keys [tiny] 0%nat tiny eq_refl
              tiny_table)
    as (h' & rc & rf & cleaned & flagged & Run & Ec & Ef & _ & _ & _ & L).
  exists h', rc, rf, cleaned, flagged.
  split; [exact Run|]. split; [exact Ec|]. split; [exact Ef|exact L].
Defined.

(* ================================================================= *)
(** ** The threshold lies within the column *)

Lemma interpolate_range (asc : list Q) p :
  ascending asc -> (0 < length asc)%nat -> 0 <= p <= 1 ->
  nth 0 asc 0 <= Pandas.interpolate asc p
  /\ Pandas.interpolate asc p <= nth (length asc - 1) asc 0.
Proof.
  intros Hasc Hlen Hp.
  destruct (interpolate_between asc Hasc Hlen p Hp) as [L U].
  pose proof (lo_bounds asc Hlen p Hp) as B. split.
  - eapply Qle_trans; [|exact L]. apply Hasc. lia.
  - eapply Qle_trans; [exact U|]. apply Hasc. lia.
Qed.

Lemma filter_length_lt {A} (f : A -> bool) (l : list A) :
  (exists x, In x l /\ f x = false) ->
  (length (filter f l) < length l)%nat.
Proof.
  induction l as [|x l IH]; intros (y & Hy & Ey); [destruct Hy|].
  cbn [filter length]. pose proof (filter_length f l) as Hle.
  destruct (f x) eqn:Ex.
  - destruct Hy as [->|Hy]; [congruence|].
    cbn [length]. apply -> Nat.succ_lt_mono. apply IH. now exists y.
  - lia.
Qed.

(** X11.  On a non-empty table whose [total_encounters] column holds
    numbers, for every percentile from 0 to 1, the threshold of
    [flag_high_encounter_counts] lies between the smallest and the largest
    value of the column; so a row holding the smallest value is never
    returned, and the check never returns every row of the table. *)
Theorem outlier_check_spares_minimum h r df p :
  nth_error h r = Some df ->
  number_column df "total_encounters" ->
  rows df <> [] ->
  0 <= p <= 1 ->
  exists t lo hi h' r' out,
    Pandas.quantile (map (Pandas.cell "total_encounters") (rows df)) p
    = Ok (Fin t)
    /\ minimum_of (encounter_values df) lo
    /\ maximum_of (encounter_values df) hi
    /\ lo <= t /\ t <= hi
    /\ flag_high_encounter_counts r p h = (Ok r', h')
    /\ nth_error h' r' = Some out
    /\ (forall row, In row (rows out) ->
          lo < num_of (Pandas.cell "total_encounters" row))
    /\ (length (rows out) < length (rows df))%nat.
Proof.
  intros E Hn Hr Hp.
  pose proof (number_column_numeric _ _ Hn) as Hn'.
  destruct (threshold_numbers df p Hn Hr) as [Et Hlen].
  destruct (flag_high_encounter_counts_ok _ _ _ _ E Hn' Hp)
    as (Run & Eo & Ro).
  rewrite Et in Run, Eo, Ro.
  assert (Hv : (0 < length (encounter_values df))%nat)
    by now rewrite sorted_length in Hlen.
  pose proof (sorted_first_is_min _ Hv) as Hmin.
  pose proof (sorted_last_is_max _ Hv) as Hmax.
  destruct (interpolate_range _ p (sorted_ascending (encounter_values df))
              Hlen Hp) as [Hlo Hhi].
  set (asc := Pandas.sorted Qle_bool (encounter_values df)) in *.
  set (t := Pandas.interpolate asc p) in *.
  eexists t, (nth 0 asc 0), (nth (length asc - 1) asc 0), _, _, _.
  split; [rewrite <- Et; now apply quantile_threshold|].
  split; [exact Hmin|]. split; [exact Hmax|].
  split; [exact Hlo|]. split; [exact Hhi|].
  split; [exact Run|]. split; [exact Eo|].
  assert (Enc : forall row,
            Pandas.cell "total_encounters"
              (with_reason (high_reason (Fin t) p) row)
            = Pandas.cell "total_encounters" row).
  { intros row. apply cell_row_set_other. discriminate. }
  split.
  - intros row Hin. rewrite Ro in Hin. apply in_map_iff in Hin.
    destruct Hin as (r0 & <- & Hr0). apply filter_In in Hr0.
    destruct Hr0 as [_ Ha]. change (encounters_above t r0 = true) in Ha.
    apply encounters_above_value in Ha. rewrite Enc.
    destruct Ha as [_ Ha]. lra.
  - rewrite Ro, length_map. apply filter_length_lt.
    destruct Hmin as [(q & Hq & Eq) _].
    rewrite (encounter_values_numbers _ Hn) in Hq.
    apply in_map_iff in Hq. destruct Hq as (row & Erow & Hrow).
    exists row. split; [exact Hrow|].
    change (encounters_above t row = false).
    destruct (encounters_above t row) eqn:Ea; [|reflexivity].
    apply encounters_above_value in Ea. destruct Ea as [_ Ea].
    rewrite Erow, Eq in Ea. lra.
Qed.

Lemma outlier_check_spares_minimum_witness :
  exists h' r' out,
    flag_high_encounter_counts 0%nat (1 # 2) [tiny] = (Ok r', h')
    /\ nth_error h' r' = Some out
    /\ (length (rows out) < length (rows tiny))%nat.
Proof.
  destruct (outlier_check_spares_minimum [tiny] 0%nat tiny (1 # 2) eq_refl
              tiny_number_encounters)
    as (t & lo & hi & h' & r' & out & _ & _ & _ & _ & _ & Run & Eo & _ & L).
  - discriminate.
  - split; unfold Qle; simpl; lia.
  - exists h', r', out. split; [exact Run|]. split; [exact Eo|exact L].
Defined.

(* ================================================================= *)
(** ** The order of the flagged frame *)

Lemma key_in_same_members k s s' :
  str_key k -> (forall k', In k' s <-> In k' s') ->
  Pandas.key_in k s = Pandas.key_in k s'.
Proof.
  intros F H.
  destruct (Pandas.key_in k s) eqn:E1; destruct (Pandas.key_in k s') eqn:E2;
    try reflexivity.
  - apply (key_in_In _ _ F) in E1. apply H in E1.
    apply (key_in_In _ _ F) in E1. congruence.
  - apply (key_in_In _ _ F) in E2. apply H in E2.
    apply (key_in_In _ _ F) in E2. congruence.
Qed.

Lemma first_of_key_app (A B : list Row) :
  (forall r, In r A -> str_key (key r)) ->
  forall seen,
  exists seen',
    Pandas.first_of_key key_cols seen (A ++ B)
    = Pandas.first_of_key key_cols seen A
      ++ Pandas.first_of_key key_cols seen' B
    /\ forall k, In k seen' <-> In k seen \/ In k (map key A).
Proof.
  induction A as [|r A IH]; intros Hs seen.
  - exists seen. split; [reflexivity|]. intros k. cbn [map In]. tauto.
  - assert (Hs' : forall x, In x A -> str_key (key x))
      by (intros; apply Hs; now right).
    assert (Hr : str_key (key r)) by (apply Hs; now left).
    cbn [app]. rewrite !first_of_key_cons.
    destruct (Pandas.key_in (key r) seen) eqn:E.
    + destruct (IH Hs' seen) as (seen' & Eq & M). exists seen'.
      split; [exact Eq|]. intros k. rewrite M. cbn [map In].
      apply (key_in_In _ _ Hr) in E. split; [tauto|].
      intros [H|[<-|H]]; auto.
    + destruct (IH Hs' (key r :: seen)) as (seen' & Eq & M). exists seen'.
      split; [cbn [app]; now rewrite Eq|].
      intros k. rewrite M. cbn [map In]. tauto.
Qed.

Lemma first_of_key_filter (rs : list Row) :
  (forall r, In r rs -> str_key (key r)) ->
  NoDup (map key rs) ->
  forall seen,
    Pandas.first_of_key key_cols seen rs
    = filter (fun x => negb (Pandas.key_in (key x) seen)) rs.
Proof.
  induction rs as [|r rs IH]; intros Hs N seen; [reflexivity|].
  cbn [map] in N. inversion N as [|? ? Nr N']; subst.
  assert (Hs' : forall x, In x rs -> str_key (key x))
    by (intros; apply Hs; now right).
  rewrite first_of_key_cons. cbn [filter].
  destruct (Pandas.key_in (key r) seen) eqn:E; cbn [negb].
  - apply (IH Hs' N').
  - f_equal. rewrite (IH Hs' N'). apply filter_ext_in. intros x Hx.
    f_equal. unfold Pandas.key_in. cbn [existsb].
    destruct (Pandas.key_eqb (key x) (key r)) eqn:Ek; [|reflexivity].
    apply key_eqb_eq in Ek; [|now apply Hs'].
    exfalso. apply Nr. rewrite <- Ek. now apply in_map.
Qed.

Lemma filter_of_map {A B} (g : A -> B) (f : B -> bool) (l : list A) :
  filter f (map g l) = map g (filter (fun a => f (g a)) l).
Proof.
  induction l as [|x l IH]; [reflexivity|]. cbn [map filter].
  destruct (f (g x)); cbn [map]; now rewrite IH.
Qed.

Lemma NoDup_map_eq {A B} (f : A -> B) (l : list A) x y :
  NoDup (map f l) -> In x l -> In y l -> f x = f y -> x = y.
Proof.
  induction l as [|a l IH]; intros N Hx Hy E; [destruct Hx|].
  cbn [map] in N. inversion N as [|? ? Na N']; subst.
  destruct Hx as [->|Hx]; destruct Hy as [->|Hy]; auto.
  - exfalso. apply Na. rewrite E. now apply in_map.
  - exfalso. apply Na. rewrite <- E. now apply in_map.
Qed.

Lemma keys_flagged_frame df :
  analytics_table df ->
  keys (flagged_frame df)
  = map key
      (Pandas.first_of_key key_cols []
         (map (Pandas.row_drop "flag_reason") (rows (flag_stream df)))).
Proof.
  intros T. unfold keys, flagged_frame.
  destruct (Pandas.empty (flag_stream df)) eqn:Em.
  - rewrite (rows_stream_empty df Em). reflexivity.
  - cbn [rows]. rewrite map_map. apply map_ext_in. intros l Hl.
    apply key_app. destruct (deduped_rows df T l Hl) as (_ & _ & _ & _ & F).
    exact F.
Qed.

(** X12.  On an analytics table with unique keys the flagged frame lists
    first the rows of negative cost, in input order, then the rows above the
    threshold that have no negative cost, in input order. *)
Theorem flagged_order h r df :
  nth_error h r = Some df ->
  analytics_table df ->
  NoDup (keys df) ->
  exists h' rc rf flagged,
    run_quality_checks r h = (Ok (rc, rf), h')
    /\ nth_error h' rf = Some flagged
    /\ keys flagged
       = map key (negative_rows df)
         ++ map key (filter (fun row => negb (negative_cost row))
                       (outlier_rows df)).
Proof.
  intros E T Nin.
  destruct (run_on_table _ _ _ E T) as (h' & rc & rf & Run & Ec & Ef).
  exists h', rc, rf, (flagged_frame df).
  split; [exact Run|]. split; [exact Ef|].
  rewrite (keys_flagged_frame df T), stream_rows_eq, map_app, !map_map.
  set (g1 := fun x => Pandas.row_drop "flag_reason"
                        (stream_row df "negative_cost" x)).
  set (g2 := fun x => Pandas.row_drop "flag_reason"
                        (stream_row df
                           (high_reason (threshold df default_percentile)
                              default_percentile) x)).
  assert (K1 : forall x, key (g1 x) = key x).
  { intros x. unfold g1. rewrite key_row_drop_reason.
    apply (key_stream_row df T). }
  assert (K2 : forall x, key (g2 x) = key x).
  { intros x. unfold g2. rewrite key_row_drop_reason.
    apply (key_stream_row df T). }
  assert (In1 : forall x, In x (negative_rows df) -> In x (rows df))
    by (intros x Hx; apply filter_In in Hx; apply Hx).
  assert (In2 : forall x, In x (outlier_rows df) -> In x (rows df))
    by (intros x Hx; apply filter_In in Hx; apply Hx).
  assert (S1 : forall x, In x (map g1 (negative_rows df)) ->
                 str_key (key x)).
  { intros x Hx. apply in_map_iff in Hx. destruct Hx as (y & <- & Hy).
    rewrite K1. apply (table_str_key df T). auto. }
  assert (S2 : forall x, In x (map g2 (outlier_rows df)) ->
                 str_key (key x)).
  { intros x Hx. apply in_map_iff in Hx. destruct Hx as (y & <- & Hy).
    rewrite K2. apply (table_str_key df T). auto. }
  assert (M1 : map key (map g1 (negative_rows df))
               = map key (negative_rows df)).
  { rewrite map_map. apply map_ext. exact K1. }
  assert (N1 : NoDup (map key (map g1 (negative_rows df)))).
  { rewrite M1. now apply NoDup_map_filter. }
  assert (N2 : NoDup (map key (map g2 (outlier_rows df)))).
  { rewrite map_map, (map_ext _ key K2). now apply NoDup_map_filter. }
  destruct (first_of_key_app (map g1 (negative_rows df))
              (map g2 (outlier_rows df)) S1 []) as (seen' & Eq & M).
  rewrite Eq, map_app.
  rewrite (first_of_key_filter _ S1 N1 []), (first_of_key_filter _ S2 N2).
  rewrite (filter_all _ (map g1 (negative_rows df))) by reflexivity.
  rewrite M1. f_equal.
  rewrite filter_of_map, map_map, (map_ext _ key K2). f_equal.
  apply filter_ext_in. intros x Hx. f_equal. rewrite K2.
  assert (F : str_key (key x)) by (apply (table_str_key df T); auto).
  destruct (negative_cost x) eqn:En.
  - apply (key_in_In _ _ F). apply M. right. rewrite M1.
    apply in_map. apply filter_In. auto.
  - destruct (Pandas.key_in (key x) seen') eqn:Ek; [|reflexivity].
    apply (key_in_In _ _ F) in Ek. apply M in Ek.
    destruct Ek as [[]|Ek]. rewrite M1 in Ek. apply in_map_iff in Ek.
    destruct Ek as (y & Ey & Hy).
    assert (y = x) by (apply (NoDup_map_eq key (rows df)); auto).
    subst y. apply filter_In in Hy. destruct Hy as [_ Hy]. congruence.
Qed.

Lemma flagged_order_witness :
  exists h' rc rf flagged,
    run_quality_checks 0%nat [tiny] = (Ok (rc, rf), h')
    /\ nth_error h' rf = Some flagged
    /\ keys flagged = [[VStr "P002"; VStr "F002"; VStr "2025-01"]].
Proof.
  destruct (flagged_order [tiny] 0%nat tiny eq_refl tiny_table
              tiny_unique_keys)
    as (h' & rc & rf & flagged & Run & Ef & Ek).
  exists h', rc, rf, flagged. split; [exact Run|]. split; [exact Ef|].
  rewrite Ek. reflexivity.
Defined.

(* ================================================================= *)
(** ** How many rows the encounter check can return *)







(* ================================================================= *)
(** ** A strict maximum is an outlier *)





(* ================================================================= *)
(** ** The run and the two checks *)

Lemma keys_tagged df (f : Row -> bool) reason :
  keys (tagged df (map f (rows df)) reason) = map key (filter f (rows df)).
Proof.
  unfold keys. rewrite rows_tagged, map_map.
  apply map_ext. intros row. apply key_with_reason.
Qed.

(** X15.  On an analytics table the keys of the flagged frame of
    [run_quality_checks] are the keys that [flag_negative_costs] returns
    together with the keys that [flag_high_encounter_counts] returns at the
    default percentile, both called on the same input. *)
Theorem run_flags_what_the_checks_flag h r df :
  nth_error h r = Some df ->
  analytics_table df ->
  exists h1 r1 neg h2 r2 high h' rc rf flagged,
    flag_negative_costs r h = (Ok r1, h1)
    /\ nth_error h1 r1 = Some neg
    /\ flag_high_encounter_counts r default_percentile h = (Ok r2, h2)
    /\ nth_error h2 r2 = Some high
    /\ run_quality_checks r h = (Ok (rc, rf), h')
    /\ nth_error h' rf = Some flagged
    /\ forall k, In k (keys flagged) <-> In k (keys neg) \/ In k (keys high).
Proof.
  intros E T. pose proof T as (_ & _ & _ & Hc & He & _).
  destruct (run_on_table _ _ _ E T) as (h' & rc & rf & Run & Ec & Ef).
  destruct (flag_high_encounter_counts_ok _ _ _ _ E He
              default_percentile_valid) as (R2 & E2 & _).
  pose proof (flag_negative_costs_run _ _ _ E) as R1.
  rewrite (neg_cost_mask_numeric _ Hc) in R1.
  eexists _, _, _, _, _, _, h', rc, rf, (flagged_frame df).
  split; [exact R1|]. split.
  { replace (S (length h)) with (length h + 1)%nat by lia.
    now rewrite nth_error_alloc. }
  split; [exact R2|]. split; [exact E2|].
  split; [exact Run|]. split; [exact Ef|].
  intros k. rewrite !keys_tagged.
  destruct (flagged_keys df T) as (_ & Hk & _).
  rewrite Hk. apply (stream_keys_iff df T).
Qed.

Lemma run_flags_what_the_checks_flag_witness :
  exists h' rc rf flagged,
    run_quality_checks 0%nat [tiny] = (Ok (rc, rf), h')
    /\ nth_error h' rf = Some flagged.
Proof.
  destruct (run_flags_what_the_checks_flag [tiny] 0%nat tiny eq_refl
              tiny_table)
    as (h1 & r1 & neg & h2 & r2 & high & h' & rc & rf & flagged
        & _ & _ & _ & _ & Run & Ef & _).
  exists h', rc, rf, flagged. split; [exact Run|exact Ef].
Defined.

(* ================================================================= *)
(** ** A column of missing values *)

(** X16.  On a table whose [total_encounters] column holds only NaN,
    [flag_high_encounter_counts] with a percentile from 0 to 1 raises
    nothing and returns a frame with no row: the threshold is NaN, and no
    count is above NaN. *)
Theorem all_missing_encounters h r df p :
  nth_error h r = Some df ->
  Pandas.mem "total_encounters" (columns df) = true ->
  (forall row, In row (rows df) ->
     Pandas.cell "total_encounters" row = VNaN) ->
  0 <= p <= 1 ->
  exists h' r' out,
    Pandas.quantile (map (Pandas.cell "total_encounters") (rows df)) p
    = Ok NaN
    /\ flag_high_encounter_counts r p h = (Ok r', h')
    /\ nth_error h' r' = Some out
    /\ rows out = [].
Proof.
  intros E Hc Hnan Hp.
  assert (Hn : numeric_column df "total_encounters").
  { split; [exact Hc|]. intros row Hrow. now rewrite (Hnan row Hrow). }
  assert (Ev : encounter_values df = []).
  { unfold encounter_values.
    induction (rows df) as [|row rs IH]; [reflexivity|]. cbn [flat_map].
    rewrite (Hnan row) by now left.
    apply IH. intros x Hx. apply Hnan. now right. }
  assert (Et : threshold df p = NaN) by (unfold threshold; now rewrite Ev).
  destruct (flag_high_encounter_counts_ok _ _ _ _ E Hn Hp)
    as (Run & Eo & Ro).
  rewrite Et in Run, Eo, Ro.
  eexists _, _, _. split; [rewrite <- Et; now apply quantile_threshold|].
  split; [exact Run|]. split; [exact Eo|].
  rewrite Ro. rewrite filter_none; reflexivity.
Qed.

Lemma all_missing_encounters_witness :
  exists h' r' out,
    flag_high_encounter_counts 0%nat (99 # 100)
      [mkDataFrame ["total_encounters"]
         [[("total_encounters", VNaN)]; [("total_encounters", VNaN)]]]
    = (Ok r', h')
    /\ nth_error h' r' = Some out
    /\ rows out = [].
Proof.
  destruct (all_missing_encounters
              [mkDataFrame ["total_encounters"]
                 [[("total_encounters", VNaN)]; [("total_encounters", VNaN)]]]
              0%nat _ (99 # 100) eq_refl eq_refl)
    as (h' & r' & out & _ & Run & Eo & Ro).
  - intros row [<-|[<-|[]]]; reflexivity.
  - split; unfold Qle; simpl; lia.
  - exists h', r', out. split; [exact Run|]. split; [exact Eo|exact Ro].
Defined.

(* ================================================================= *)
(** ** What the reason of the encounter check shows *)



(* ================================================================= *)
(** ** A column with a label of the merge indicator *)

Lemma groupby_stream_succeeds cat :
  Pandas.all_mem key_cols (columns cat) = true ->
  Pandas.mem "flag_reason" (columns cat) = true ->
  (forall r, In r (rows cat) ->
     exists s, Pandas.cell "flag_reason" r = VStr s) ->
  exists out,
    Pandas.groupby_apply cat key_cols "flag_reason" join_reasons
    = Ok (mkDataFrame (key_cols ++ ["flag_reason"]) out).
Proof.
  intros Hk Hf Hr. unfold Pandas.groupby_apply. rewrite Hk, Hf.
  cbn [andb].
  set (rs := filter _ (rows cat)).
  assert (Hrs : forall r, In r rs ->
                  exists s, Pandas.cell "flag_reason" r = VStr s).
  { intros r Hin. apply filter_In in Hin. apply Hr, Hin. }
  rewrite (rmap_pure _ (summary_row rs)).
  - eexists. reflexivity.
  - intros k _. rewrite (join_reasons_group _ _ Hrs). reflexivity.
Qed.

Lemma merge_left_keeps_rows left right keys f :
  Pandas.merge_left left right keys false = Ok f ->
  rows left <> [] ->
  rows f <> [] /\ columns f = columns left
       ++ filter (fun c => negb (Pandas.mem c keys)) (columns right) ++ [].
Proof.
  unfold Pandas.merge_left. intros H Hne.
  destruct (Pandas.all_mem keys (columns left)
            && Pandas.all_mem keys (columns right)); [|discriminate].
  cbn [andb] in H. injection H as <-. cbn [rows columns].
  split; [|reflexivity].
  destruct (rows left) as [|l ls]; [congruence|]. cbn [flat_map].
  destruct (filter _ (rows right)); cbn; discriminate.
Qed.

Lemma consolidate_stream_shape cat :
  Pandas.empty cat = false ->
  Pandas.all_mem key_cols (columns cat) = true ->
  Pandas.mem "flag_reason" (columns cat) = true ->
  (forall r, In r (rows cat) ->
     exists s, Pandas.cell "flag_reason" r = VStr s) ->
  exists f,
    consolidate cat = Ok f
    /\ Pandas.empty f = false
    /\ Pandas.all_mem key_cols (columns f) = true.
Proof.
  intros Em Hk Hf Hr. unfold consolidate. rewrite Em. cbn [negb].
  destruct (groupby_stream_succeeds cat Hk Hf Hr) as [out ->].
  cbn [rbind]. unfold Pandas.drop. rewrite Hf. cbn [rbind].
  unfold Pandas.drop_duplicates. cbn [columns rows].
  rewrite (all_mem_drop_reason _ Hk). cbn [rbind].
  match goal with
  | |- exists f, Pandas.merge_left ?l ?r ?k false = Ok f /\ _ =>
      assert (Hne : rows l <> []);
      [|destruct (Pandas.merge_left l r k false) as [f|e] eqn:Em';
        [destruct (merge_left_keeps_rows l r k f Em' Hne) as [Hrows Hcols]|]]
  end.
  - cbn [rows]. unfold Pandas.empty in Em.
    destruct (rows cat) as [|x xs]; [discriminate|].
    cbn [map]. rewrite first_of_key_cons. cbn. discriminate.
  - exists f. split; [reflexivity|]. split.
    + unfold Pandas.empty. destruct (rows f); [congruence|].
      rewrite Hcols. cbn [columns].
      destruct (filter _ (columns cat) ++ _) eqn:Ec; [|reflexivity].
      apply app_eq_nil in Ec. destruct Ec as [_ Ec]. discriminate Ec.
    + rewrite Hcols. cbn [columns].
      apply all_mem_app_l, all_mem_drop_reason, Hk.
  - exfalso. unfold Pandas.merge_left in Em'. cbn [columns] in Em'.
    rewrite (all_mem_drop_reason _ Hk) in Em'.
    change (Pandas.all_mem key_cols (key_cols ++ ["flag_reason"]))
      with true in Em'.
    cbn [andb] in Em'. discriminate Em'.
Qed.

(** X18.  On a table with the key columns and numeric measure columns that
    has a column labelled as the merge indicator or one of its working
    columns ([_merge], [_left_indicator], [_right_indicator]),
    [run_quality_checks] fails with [ValueError] as soon as a check selects
    a row: the merge that removes the flagged keys refuses the table. *)
Theorem indicator_label_clash h r df c :
  nth_error h r = Some df ->
  Pandas.all_mem key_cols (columns df) = true ->
  numeric_column df "total_cost" ->
  numeric_column df "total_encounters" ->
  In c Pandas.indicator_labels ->
  Pandas.mem c (columns df) = true ->
  negative_rows df ++ outlier_rows df <> [] ->
  exists h', run_quality_checks r h = (Err ValueError, h').
Proof.
  intros E Hk Hc He Hlab Hcol Hsome.
  pose proof (run_quality_checks_steps _ _ _ E) as S.
  rewrite (neg_cost_mask_numeric _ Hc) in S.
  rewrite (high_enc_mask_numeric _ _ He default_percentile_valid) in S.
  cbv zeta in S. fold (flag_stream df) in S. destruct S as [l S].
  assert (Em : Pandas.empty (flag_stream df) = false).
  { rewrite empty_flag_stream.
    destruct (negative_rows df ++ outlier_rows df); congruence. }
  destruct (consolidate_stream_shape (flag_stream df) Em)
    as (f & Ef & Emf & Hkf).
  { rewrite all_mem_key_cols_flag_stream. exact Hk. }
  { apply stream_has_reason. }
  { apply stream_reason_str. }
  rewrite Ef in S. unfold clean in S. rewrite Emf in S.
  unfold Pandas.getcols in S. rewrite Hkf in S. cbn [rbind] in S.
  unfold Pandas.merge_left in S. cbn [columns rows] in S.
  rewrite Hk in S.
  change (Pandas.all_mem key_cols key_cols) with true in S.
  replace (existsb (fun c0 => Pandas.mem c0 (columns df ++ key_cols))
             Pandas.indicator_labels) with true in S.
  - cbn [andb rbind] in S. eexists. exact S.
  - symmetry. apply existsb_exists. exists c. split; [exact Hlab|].
    rewrite mem_app, Hcol. reflexivity.
Qed.

Lemma indicator_label_clash_witness :
  exists h',
    run_quality_checks 0%nat
      [mkDataFrame (schema ++ ["_merge"])
         [mk_row "P002" "F002" "2025-01" 5 (-30) 3 ++ [("_merge", VInt 1)]]]
    = (Err ValueError, h').
Proof.
  apply (indicator_label_clash
           [mkDataFrame (schema ++ ["_merge"])
              [mk_row "P002" "F002" "2025-01" 5 (-30) 3
                 ++ [("_merge", VInt 1)]]]
           0%nat _ "_merge" eq_refl).
  - reflexivity.
  - split; [reflexivity|]. intros row [<-|[]]. exact I.
  - split; [reflexivity|]. intros row [<-|[]]. exact I.
  - right. right. now left.
  - reflexivity.
  - discriminate.
Defined.
